(** * Wealth Pulse budget engine: a shallow embedding and its properties

    The development follows [src/services/fx.service.ts] and
    [src/services/budget.service.ts], with the data model of
    [src/models/budget.models.ts].

    Modelling conventions.
    - A TypeScript [number] is a rational ([Q]) compared with [==]; the
      engine only adds, subtracts, multiplies, divides and compares, and
      every division of the source is guarded against a zero divisor where
      its result is used. NaN, infinities and the rounding of IEEE doubles
      are outside the model. Where a property depends on how a product is
      grouped or in which order a sum is taken, it is stated on the
      expression that the source computes.
    - The three module-level [Map]s, the wall clock and the UUID generator
      form the [World]; every [async] function is a state transformer on it.
      The clock stands still during a call and may be moved between calls.
    - [Record<string, CategoryBudget>] is an insertion-ordered association
      list of the own properties, which is the enumeration order of
      [Object.entries] for names that are not numeric. The read
      [categories[category]] also finds what an object literal inherits
      from [Object.prototype] ([obj_read]). The assignments that
      [logTransaction] makes through an inherited member change an object
      shared by all plans; no other read of the engine reaches it, with
      one exception that is outside the model: through [__proto__] they
      give [Object.prototype] itself the properties [spent], [remaining]
      and [status], after which a category named [status] is found there.
      The two rate tables are read with currency codes, none of which
      spells an inherited member.
    - The JavaScript runtime services that the engine calls but does not
      define (the HTTP rate provider and [Date] parsing) are the fields of
      a [Runtime] record over which everything is parameterised. *)

From Stdlib Require Import QArith Qabs Qround Lqa ZArith List Sorted Permutation.
From stdpp Require Import gmap strings.
Local Open Scope Q_scope.

(** ** JavaScript numbers *)

Definition Qltb (a b : Q) : bool := negb (Qle_bool b a).

(** [Math.min(a, b)] *)
Definition Math_min (a b : Q) : Q := if Qle_bool a b then a else b.

(** [Math.max(0, n)] on integers *)
Definition Math_max0 (n : Z) : Z := Z.max 0 n.

(** [Math.round]: the nearest integer, halves towards plus infinity. *)
Definition Math_round (a : Q) : Z := Qfloor (a + (1 # 2)).

(** [Math.abs] *)
Definition Math_abs (a : Q) : Q := Qabs a.

(** [a || b] on numbers, where [undefined] is [None] and [0] is falsy. *)
Definition num_or (a : option Q) (b : Q) : Q :=
  match a with
  | Some r => if Qeq_bool r 0 then b else r
  | None => b
  end.

(** ** Data model ([budget.models.ts]) *)

Definition Currency := string.

Inductive DebtStrategy := snowball | avalanche.
Inductive StrategyType := percentage | zero_based | custom.
Inductive BucketStatus := UNDER | NEAR_LIMIT | OVER.
Inductive BucketType := NEEDS | WANTS | SAVINGS | DEBT.
Inductive InsightType := warning | alert | info | success.
Inductive TransactionType := expense | income | transfer.

Definition BucketStatus_eqb (a b : BucketStatus) : bool :=
  match a, b with
  | UNDER, UNDER | NEAR_LIMIT, NEAR_LIMIT | OVER, OVER => true
  | _, _ => false
  end.

Definition BucketType_eqb (a b : BucketType) : bool :=
  match a, b with
  | NEEDS, NEEDS | WANTS, WANTS | SAVINGS, SAVINGS | DEBT, DEBT => true
  | _, _ => false
  end.

Definition InsightType_eqb (a b : InsightType) : bool :=
  match a, b with
  | warning, warning | alert, alert | info, info | success, success => true
  | _, _ => false
  end.

(** Randomly generated identifiers ([uuidv4()]) are drawn from a counter. *)
Definition Uuid := N.
Bind Scope N_scope with Uuid.

(** Dates are milliseconds since the epoch ([Date.getTime()]). *)
Definition Timestamp := Z.
Bind Scope Z_scope with Timestamp.

Record Money := {
  amount : Q;
  currency : Currency;
  baseAmount : Q;
  fxRate : Q;
  fxTimestamp : Timestamp }.

Record IncomeSource := {
  inc_id : string;
  inc_name : string;
  inc_money : Money;
  inc_isActive : bool }.

Record Debt := {
  debt_id : string;
  debt_name : string;
  debt_currency : Currency;
  debt_outstandingPrincipal : Money;
  debt_interestRateAnnual : Q;
  debt_minMonthlyPayment : Money;
  debt_country : string }.

Record Goal := {
  goal_id : string;
  goal_name : string;
  goal_targetAmount : Money;
  goal_currentAmount : Money;
  goal_targetDate : string;
  goal_country : string }.

Record FxRate := {
  fx_id : string * string * Timestamp;
  fx_from : Currency;
  fx_to : Currency;
  fx_rate : Q;
  fx_timestamp : Timestamp }.

Record BucketPercents := {
  pct_needs : Q;
  pct_wants : Q;
  pct_savings : Q;
  pct_debt : Q }.

Record LiabilityOriginPolicy := {
  lop_home : Q;
  lop_local : Q;
  lop_global : Q }.

Record BudgetRuleSet := {
  rs_id : string;
  rs_userId : string;
  rs_strategyType : StrategyType;
  rs_buckets : BucketPercents;
  rs_minSavingsPercent : Q;
  rs_minDebtPercent : Q;
  rs_liabilityOriginPolicy : LiabilityOriginPolicy;
  rs_emergencyFundPolicy : Q;
  rs_debtStrategy : DebtStrategy;
  rs_createdAt : Timestamp;
  rs_updatedAt : Timestamp }.

Record CategoryBudget := {
  cat_name : string;
  cat_planned : Q;
  cat_spent : Q;
  cat_remaining : Q;
  cat_status : BucketStatus }.

Record SavingsAllocation := {
  localEmergencyFund : Q;
  homeCountryInvestments : Q;
  globalInvestments : Q }.

Record DebtAllocation := {
  baseCurrencyDebt : Q;
  homeCountryDebt : Q;
  otherDebt : Q }.

Record BudgetBucket := {
  bk_type : BucketType;
  bk_planned : Money;
  bk_spent : Money;
  bk_remaining : Money;
  bk_status : BucketStatus;
  bk_categories : list (string * CategoryBudget);
  bk_savingsAllocation : option SavingsAllocation;
  bk_debtAllocation : option DebtAllocation }.

(** The text of an insight, kept as its template and the values spliced
    into it (the rendering of numbers by [toFixed] is not modelled). *)
Inductive Message :=
| MsgSavingsBelowMinimum (minSavingsPercent : Q)
| MsgDebtExceeds40
| MsgApproachingLimit (b : BucketType) (percentUsed : Z)
| MsgExceededBy (b : BucketType) (over : Z) (cur : Currency)
| MsgOverBudgetIn (category : string)
| MsgBucketExceededBy (b : BucketType) (percentOver : Q)
| MsgBucketUsed (b : BucketType) (percentUsed : Q)
| MsgCategoryOverBy (category : string) (over : Q) (cur : Currency)
| MsgSavingsOnTrack
| MsgGoalReached (name : string)
| MsgGoalAlmost (name : string) (progressPercent : Q).

Record BudgetInsight := {
  ins_id : Uuid;
  ins_type : InsightType;
  ins_message : Message;
  ins_bucket : option BucketType;
  ins_category : option string;
  ins_createdAt : Timestamp }.

Record DebtSnapshot := {
  ds_debtId : string;
  ds_name : string;
  ds_outstandingPrincipal : Money;
  ds_allocatedPayment : Money;
  ds_isMinimumPayment : bool }.

Record GoalSnapshot := {
  gs_goalId : string;
  gs_name : string;
  gs_targetAmount : Money;
  gs_currentAmount : Money;
  gs_monthlyContribution : Money;
  gs_progressPercent : Q }.

Record Buckets := {
  b_NEEDS : BudgetBucket;
  b_WANTS : BudgetBucket;
  b_SAVINGS : BudgetBucket;
  b_DEBT : BudgetBucket }.

Record MonthlyBudgetPlan := {
  plan_id : Uuid;
  plan_userId : string;
  plan_month : string;
  plan_baseCurrency : Currency;
  plan_totalIncome : Money;
  plan_buckets : Buckets;
  plan_debtsSnapshot : list DebtSnapshot;
  plan_goalsSnapshot : list GoalSnapshot;
  plan_insights : list BudgetInsight;
  plan_createdAt : Timestamp;
  plan_updatedAt : Timestamp }.

Record Transaction := {
  tx_id : Uuid;
  tx_userId : string;
  tx_budgetPlanId : Uuid;
  tx_type : TransactionType;
  tx_money : Money;
  tx_category : string;
  tx_bucket : BucketType;
  tx_description : string;
  tx_date : Timestamp;
  tx_isRecurring : bool;
  tx_tags : list string;
  tx_createdAt : Timestamp;
  tx_updatedAt : Timestamp }.

(** [plan.buckets[bucket]] and the assignment through it. *)
Definition getBucket (bs : Buckets) (b : BucketType) : BudgetBucket :=
  match b with
  | NEEDS => b_NEEDS bs
  | WANTS => b_WANTS bs
  | SAVINGS => b_SAVINGS bs
  | DEBT => b_DEBT bs
  end.

Definition setBucket (bs : Buckets) (b : BucketType) (v : BudgetBucket) : Buckets :=
  match b with
  | NEEDS => {| b_NEEDS := v; b_WANTS := b_WANTS bs; b_SAVINGS := b_SAVINGS bs; b_DEBT := b_DEBT bs |}
  | WANTS => {| b_NEEDS := b_NEEDS bs; b_WANTS := v; b_SAVINGS := b_SAVINGS bs; b_DEBT := b_DEBT bs |}
  | SAVINGS => {| b_NEEDS := b_NEEDS bs; b_WANTS := b_WANTS bs; b_SAVINGS := v; b_DEBT := b_DEBT bs |}
  | DEBT => {| b_NEEDS := b_NEEDS bs; b_WANTS := b_WANTS bs; b_SAVINGS := b_SAVINGS bs; b_DEBT := v |}
  end.

(** ** Objects used as string-keyed records *)

Fixpoint obj_get {A} (o : list (string * A)) (k : string) : option A :=
  match o with
  | [] => None
  | (k', v) :: o' => if String.eqb k' k then Some v else obj_get o' k
  end.

(** [o[k] = v]: an existing key keeps its place, a new key goes last. *)
Fixpoint obj_set {A} (o : list (string * A)) (k : string) (v : A) : list (string * A) :=
  match o with
  | [] => [(k, v)]
  | (k', v') :: o' =>
      if String.eqb k' k then (k', v) :: o' else (k', v') :: obj_set o' k v
  end.

(** The members that an object literal inherits from [Object.prototype]:
    eleven methods and the accessor [__proto__]. *)
Definition Object_prototype : list string :=
  [ "constructor"; "__defineGetter__"; "__defineSetter__"; "hasOwnProperty";
    "__lookupGetter__"; "__lookupSetter__"; "isPrototypeOf";
    "propertyIsEnumerable"; "toString"; "valueOf"; "__proto__";
    "toLocaleString" ]%string.

Definition inherited (k : string) : bool :=
  existsb (String.eqb k) Object_prototype.

(** What the expression [o[k]] finds on an object literal [o]: an own
    property, else a member of [Object.prototype] (a function, or for
    [__proto__] the prototype object itself; truthy in both cases), else
    [undefined]. *)
Inductive Member (A : Type) :=
| Own (v : A)
| Inherited
| Undefined.

Arguments Own {A} v.
Arguments Inherited {A}.
Arguments Undefined {A}.

Definition obj_read {A} (o : list (string * A)) (k : string) : Member A :=
  match obj_get o k with
  | Some v => Own v
  | None => if inherited k then Inherited else Undefined
  end.

(** ** Default values ([budget.models.ts]) *)

Definition DEFAULT_BUCKETS : BucketPercents :=
  {| pct_needs := 50; pct_wants := 20; pct_savings := 15; pct_debt := 15 |}.

Definition DEFAULT_POLICY : LiabilityOriginPolicy :=
  {| lop_home := 5 # 10; lop_local := 4 # 10; lop_global := 1 # 10 |}.

Definition DEFAULT_CATEGORIES (b : BucketType) : list string :=
  match b with
  | NEEDS => ["rent"; "utilities"; "groceries"; "transport"; "insurance"; "healthcare"]
  | WANTS => ["dining_out"; "entertainment"; "shopping"; "subscriptions"; "hobbies"; "travel"]
  | SAVINGS => ["emergency_fund"; "investments"; "retirement"; "goals"]
  | DEBT => ["credit_card"; "home_loan"; "personal_loan"; "car_loan"; "other_debt"]
  end%string.

(** ** The world: module state, clock and identifier supply *)

Record Clock := {
  epochMs : Timestamp;       (* Date.now() *)
  nowYear : Z;               (* new Date().getFullYear() *)
  nowMonth : Z;              (* new Date().getMonth() *)
  nowDay : Z }.              (* new Date().getDate() *)

Record World := {
  fxRateCache : gmap string FxRate;
  budgetPlans : gmap string MonthlyBudgetPlan;
  transactions : gmap N Transaction;
  clock : Clock;
  nextUuid : N }.

(** What the engine asks of its environment. [liveRates t from] is the
    answer of the rate provider to a request for [from] made at time [t]:
    [None] for any failure, otherwise the [rates] table of the payload.
    [dateYearMonth s] is [getFullYear()] and [getMonth()] of [new Date(s)]
    and [monthDays m] the day count that [generateInsights] derives from a
    plan's month; both are [None] where JavaScript yields NaN. *)
Record Runtime := {
  liveRates : Timestamp -> Currency -> option (Currency -> option Q);
  dateYearMonth : string -> option (Z * Z);
  monthDays : string -> option Z }.

(** ** A state monad over the world *)

Definition M (A : Type) : Type := World -> A * World.

Definition ret {A} (a : A) : M A := fun w => (a, w).

Definition bind {A B} (m : M A) (f : A -> M B) : M B :=
  fun w => let (a, w') := m w in f a w'.

Notation "'let*' x ':=' m 'in' k" := (bind m (fun x => k))
  (at level 10, x pattern, m at level 100, k at level 200).
Notation "m ;; k" := (bind m (fun _ => k))
  (at level 100, k at level 200, right associativity).

Definition Date_now : M Timestamp := fun w => (epochMs (clock w), w).

Definition getClock : M Clock := fun w => (clock w, w).

Definition uuidv4 : M Uuid := fun w =>
  (nextUuid w,
   {| fxRateCache := fxRateCache w; budgetPlans := budgetPlans w;
      transactions := transactions w; clock := clock w;
      nextUuid := N.succ (nextUuid w) |}).

Definition fxRateCache_get (k : string) : M (option FxRate) :=
  fun w => (fxRateCache w !! k, w).

Definition fxRateCache_set (k : string) (r : FxRate) : M unit := fun w =>
  (tt,
   {| fxRateCache := <[k := r]> (fxRateCache w); budgetPlans := budgetPlans w;
      transactions := transactions w; clock := clock w; nextUuid := nextUuid w |}).

Definition fxRateCache_clear : M unit := fun w =>
  (tt,
   {| fxRateCache := ∅; budgetPlans := budgetPlans w;
      transactions := transactions w; clock := clock w; nextUuid := nextUuid w |}).

Definition budgetPlans_get (k : string) : M (option MonthlyBudgetPlan) :=
  fun w => (budgetPlans w !! k, w).

Definition budgetPlans_set (k : string) (p : MonthlyBudgetPlan) : M unit := fun w =>
  (tt,
   {| fxRateCache := fxRateCache w; budgetPlans := <[k := p]> (budgetPlans w);
      transactions := transactions w; clock := clock w; nextUuid := nextUuid w |}).

Definition transactions_set (k : Uuid) (t : Transaction) : M unit := fun w =>
  (tt,
   {| fxRateCache := fxRateCache w; budgetPlans := budgetPlans w;
      transactions := <[k := t]> (transactions w); clock := clock w;
      nextUuid := nextUuid w |}).

Definition setClock (c : Clock) : M unit := fun w =>
  (tt,
   {| fxRateCache := fxRateCache w; budgetPlans := budgetPlans w;
      transactions := transactions w; clock := c; nextUuid := nextUuid w |}).

(** A [for ... of] loop whose body awaits. *)
Fixpoint forM {A B} (f : A -> M B) (l : list A) : M (list B) :=
  match l with
  | [] => ret []
  | x :: l' => let* y := f x in let* ys := forM f l' in ret (y :: ys)
  end.

(** ** FX service ([fx.service.ts]) *)

Module Fx.

Definition DEFAULT_RATES : list (string * Q) :=
  [ ("USD_AED", 367 # 100); ("INR_AED", 44 # 1000); ("EUR_AED", 398 # 100);
    ("GBP_AED", 464 # 100); ("AED_USD", 27 # 100); ("AED_INR", 2273 # 100);
    ("AED_EUR", 25 # 100); ("AED_GBP", 22 # 100); ("USD_INR", 835 # 10);
    ("INR_USD", 12 # 1000) ]%string.

Definition getCacheKey (from to : Currency) : string :=
  from +:+ "_" +:+ to.

Definition mkRate (from to : Currency) (rate : Q) (now : Timestamp) : FxRate :=
  {| fx_id := (from, to, now); fx_from := from; fx_to := to;
     fx_rate := rate; fx_timestamp := now |}.

(** The cache hit test of [fetchFxRate]. *)
Definition fresh (now : Timestamp) (cached : FxRate) : bool :=
  (now - fx_timestamp cached <? 3600000)%Z.

Section WithRuntime.
Variable rt : Runtime.

(** The part of [fetchFxRate] after the cache missed. *)
Definition fetchFxRate_miss (from to : Currency) (cacheKey : string) : M FxRate :=
  let* now := Date_now in
  if String.eqb from to then
    let rate := mkRate from to 1 now in
    fxRateCache_set cacheKey rate ;; ret rate
  else
    match liveRates rt now from with
    | Some rates =>
        let rate :=
          mkRate from to
            (num_or (rates to) (num_or (obj_get DEFAULT_RATES cacheKey) 1)) now in
        fxRateCache_set cacheKey rate ;; ret rate
    | None =>
        let defaultRate := num_or (obj_get DEFAULT_RATES cacheKey) 1 in
        let rate := mkRate from to defaultRate now in
        fxRateCache_set cacheKey rate ;; ret rate
    end.

Definition fetchFxRate (from to : Currency) : M FxRate :=
  let cacheKey := getCacheKey from to in
  let* cached := fxRateCache_get cacheKey in
  let* now := Date_now in
  match cached with
  | Some c =>
      if fresh now c then ret c else fetchFxRate_miss from to cacheKey
  | None => fetchFxRate_miss from to cacheKey
  end.

Definition convertCurrency (amt : Q) (from to : Currency) : M (Q * FxRate) :=
  let* fxRate := fetchFxRate from to in
  let convertedAmount := amt * fx_rate fxRate in
  ret (convertedAmount, fxRate).

Definition createMoney (amt : Q) (cur baseCurrency : Currency) : M Money :=
  let* r := convertCurrency amt cur baseCurrency in
  let (convertedAmount, fxRate) := r in
  ret {| amount := amt; currency := cur; baseAmount := convertedAmount;
         fxRate := fx_rate fxRate; fxTimestamp := fx_timestamp fxRate |}.

End WithRuntime.

Definition clearFxCache : M unit := fxRateCache_clear.

Definition setFxRate (from to : Currency) (rate : Q) : M FxRate :=
  let* now := Date_now in
  let fxRate := mkRate from to rate now in
  fxRateCache_set (getCacheKey from to) fxRate ;; ret fxRate.

End Fx.

(** ** Budget engine ([budget.service.ts]) *)

Module Budget.

(** *** Helper functions *)

Definition calculateStatus (spent planned : Q) : BucketStatus :=
  if Qeq_bool planned 0 then UNDER
  else
    let ratio := spent / planned in
    if Qltb 1 ratio then OVER
    else if Qle_bool (8 # 10) ratio then NEAR_LIMIT
    else UNDER.

Definition getPlanKey (userId month : string) : string :=
  userId +:+ "_" +:+ month.

(** [Array.prototype.sort] with a numeric comparator. The sort is stable,
    so for the two comparators of the engine (differences of one numeric
    key) its result is the one computed by inserting each element, from
    the right, before the first element it does not compare greater than. *)
Fixpoint sort_insert {A} (cmp : A -> A -> Q) (x : A) (l : list A) : list A :=
  match l with
  | [] => [x]
  | y :: l' =>
      if Qle_bool (cmp x y) 0 then x :: y :: l' else y :: sort_insert cmp x l'
  end.

Definition Array_sort {A} (cmp : A -> A -> Q) (l : list A) : list A :=
  fold_right (sort_insert cmp) [] l.

Definition bySmallestPrincipal (a b : Debt) : Q :=
  baseAmount (debt_outstandingPrincipal a) - baseAmount (debt_outstandingPrincipal b).

Definition byHighestInterest (a b : Debt) : Q :=
  debt_interestRateAnnual b - debt_interestRateAnnual a.

Definition sortDebts (strategy : DebtStrategy) (debts : list Debt) : list Debt :=
  match strategy with
  | snowball => Array_sort bySmallestPrincipal debts
  | avalanche => Array_sort byHighestInterest debts
  end.

(** A [Money] literal in the base currency, as the engine writes it. *)
Definition baseMoney (a : Q) (baseCurrency : Currency) (now : Timestamp) : Money :=
  {| amount := a; currency := baseCurrency; baseAmount := a; fxRate := 1;
     fxTimestamp := now |}.

Definition defaultRules (userId : string) (now : Timestamp) : BudgetRuleSet :=
  {| rs_id := "default"; rs_userId := userId; rs_strategyType := percentage;
     rs_buckets := DEFAULT_BUCKETS; rs_minSavingsPercent := 10;
     rs_minDebtPercent := 5; rs_liabilityOriginPolicy := DEFAULT_POLICY;
     rs_emergencyFundPolicy := 6; rs_debtStrategy := avalanche;
     rs_createdAt := now; rs_updatedAt := now |}.

Definition mkInsight (ty : InsightType) (msg : Message)
    (bucket : option BucketType) (category : option string) : M BudgetInsight :=
  let* id := uuidv4 in
  let* now := Date_now in
  ret {| ins_id := id; ins_type := ty; ins_message := msg; ins_bucket := bucket;
         ins_category := category; ins_createdAt := now |}.

(** A loop that pushes zero or more insights per element. *)
Fixpoint collectM {A B} (f : A -> M (list B)) (l : list A) : M (list B) :=
  match l with
  | [] => ret []
  | x :: l' => let* ys := f x in let* zs := collectM f l' in ret (ys ++ zs)
  end.

(** [createBucket] *)
Definition createBucket (type : BucketType) (planned : Q)
    (baseCurrency : Currency) (categoryNames : list string) : M BudgetBucket :=
  let perCategory := planned / inject_Z (Z.of_nat (length categoryNames)) in
  let categories :=
    fold_left
      (fun cats name =>
         obj_set cats name
           {| cat_name := name; cat_planned := perCategory; cat_spent := 0;
              cat_remaining := perCategory; cat_status := UNDER |})
      categoryNames [] in
  let* now := Date_now in
  ret {| bk_type := type;
         bk_planned := baseMoney planned baseCurrency now;
         bk_spent := baseMoney 0 baseCurrency now;
         bk_remaining := baseMoney planned baseCurrency now;
         bk_status := UNDER;
         bk_categories := categories;
         bk_savingsAllocation := None;
         bk_debtAllocation := None |}.

Definition withSavingsAllocation (b : BudgetBucket) (a : SavingsAllocation) : BudgetBucket :=
  {| bk_type := bk_type b; bk_planned := bk_planned b; bk_spent := bk_spent b;
     bk_remaining := bk_remaining b; bk_status := bk_status b;
     bk_categories := bk_categories b; bk_savingsAllocation := Some a;
     bk_debtAllocation := bk_debtAllocation b |}.

Definition withDebtAllocation (b : BudgetBucket) (a : DebtAllocation) : BudgetBucket :=
  {| bk_type := bk_type b; bk_planned := bk_planned b; bk_spent := bk_spent b;
     bk_remaining := bk_remaining b; bk_status := bk_status b;
     bk_categories := bk_categories b;
     bk_savingsAllocation := bk_savingsAllocation b;
     bk_debtAllocation := Some a |}.

Section WithRuntime.
Variable rt : Runtime.

(** [calculateMonthsRemaining]; [None] is NaN (unparsable target date). *)
Definition calculateMonthsRemaining (targetDate : string) : M (option Z) :=
  let* now := getClock in
  ret (match dateYearMonth rt targetDate with
       | Some (y, m) => Some (Math_max0 ((y - nowYear now) * 12 + (m - nowMonth now)))
       | None => None
       end).

(** Step 5 of [generateBudgetPlan]: the loop over the sorted debts, with
    its two loop-carried variables. *)
Fixpoint allocateDebts (baseCurrency : Currency) (sortedDebts : list Debt)
    (remainingDebtBudget : Q) (debtSnapshots : list DebtSnapshot)
  : M (list DebtSnapshot) :=
  match sortedDebts with
  | [] => ret debtSnapshots
  | debt :: rest =>
      let minPayment := baseAmount (debt_minMonthlyPayment debt) in
      let extra :=
        Qltb minPayment remainingDebtBudget && (length debtSnapshots =? 0)%nat in
      let allocatedPayment :=
        if extra
        then Math_min remainingDebtBudget (baseAmount (debt_outstandingPrincipal debt))
        else minPayment in
      let isMinimum := negb extra in
      let remainingDebtBudget' := remainingDebtBudget - allocatedPayment in
      let* paid := Fx.createMoney rt allocatedPayment baseCurrency baseCurrency in
      allocateDebts baseCurrency rest remainingDebtBudget'
        (debtSnapshots ++
           [{| ds_debtId := debt_id debt; ds_name := debt_name debt;
               ds_outstandingPrincipal := debt_outstandingPrincipal debt;
               ds_allocatedPayment := paid;
               ds_isMinimumPayment := isMinimum |}])
  end.

(** [debts.find((db) => db.id === d.debtId)] *)
Definition findDebt (debts : list Debt) (d : DebtSnapshot) : option Debt :=
  List.find (fun db => String.eqb (debt_id db) (ds_debtId d)) debts.

Definition sumAllocated (l : list DebtSnapshot) : Q :=
  fold_left (fun sum d => sum + baseAmount (ds_allocatedPayment d)) l 0.

Definition debtAllocationOf (debts : list Debt) (baseCurrency : Currency)
    (debtSnapshots : list DebtSnapshot) : DebtAllocation :=
  {| baseCurrencyDebt :=
       sumAllocated
         (List.filter
            (fun d => match findDebt debts d with
                      | Some debt => String.eqb (debt_currency debt) baseCurrency
                      | None => false
                      end) debtSnapshots);
     homeCountryDebt :=
       sumAllocated
         (List.filter
            (fun d => match findDebt debts d with
                      | Some debt => negb (String.eqb (debt_currency debt) baseCurrency)
                      | None => true
                      end) debtSnapshots);
     otherDebt := 0 |}.

(** Step 6 of [generateBudgetPlan]: one goal snapshot. *)
Definition goalSnapshot (baseCurrency : Currency) (goal : Goal) : M GoalSnapshot :=
  let* monthsRemaining := calculateMonthsRemaining (goal_targetDate goal) in
  let amountNeeded :=
    baseAmount (goal_targetAmount goal) - baseAmount (goal_currentAmount goal) in
  let monthlyContribution :=
    match monthsRemaining with
    | Some n => if (0 <? n)%Z then amountNeeded / inject_Z n else 0
    | None => 0
    end in
  let progressPercent :=
    if Qltb 0 (baseAmount (goal_targetAmount goal))
    then baseAmount (goal_currentAmount goal) / baseAmount (goal_targetAmount goal) * 100
    else 0 in
  let* now := Date_now in
  ret {| gs_goalId := goal_id goal; gs_name := goal_name goal;
         gs_targetAmount := goal_targetAmount goal;
         gs_currentAmount := goal_currentAmount goal;
         gs_monthlyContribution := baseMoney monthlyContribution baseCurrency now;
         gs_progressPercent := progressPercent |}.

(** [generateBudgetPlan]; [rules = None] is the omitted argument. *)
Definition generateBudgetPlan (userId month : string) (baseCurrency : Currency)
    (incomes : list IncomeSource) (debts : list Debt) (goals : list Goal)
    (rules : option BudgetRuleSet) : M MonthlyBudgetPlan :=
  let* now0 := Date_now in
  let rules := match rules with Some r => r | None => defaultRules userId now0 end in
  (* Step 1: sum income *)
  let totalIncomeBase :=
    fold_left (fun acc i => acc + baseAmount (inc_money i))
      (List.filter inc_isActive incomes) 0 in
  let* totalIncome := Fx.createMoney rt totalIncomeBase baseCurrency baseCurrency in
  (* Step 2: bucket allocations *)
  let needsPlanned := (totalIncomeBase * pct_needs (rs_buckets rules)) / 100 in
  let wantsPlanned := (totalIncomeBase * pct_wants (rs_buckets rules)) / 100 in
  let savingsPlanned0 := (totalIncomeBase * pct_savings (rs_buckets rules)) / 100 in
  let debtPlanned0 := (totalIncomeBase * pct_debt (rs_buckets rules)) / 100 in
  (* Step 3: enforce minimums *)
  let minSavings := totalIncomeBase * (rs_minSavingsPercent rules / 100) in
  let totalMinDebtPayments :=
    fold_left (fun sum d => sum + baseAmount (debt_minMonthlyPayment d)) debts 0 in
  let savingsPlanned :=
    if Qltb savingsPlanned0 minSavings then minSavings else savingsPlanned0 in
  let debtPlanned :=
    if Qltb debtPlanned0 totalMinDebtPayments then totalMinDebtPayments
    else debtPlanned0 in
  (* Step 4: savings sub-buckets *)
  let savingsAllocation :=
    {| localEmergencyFund := savingsPlanned * lop_local (rs_liabilityOriginPolicy rules);
       homeCountryInvestments := savingsPlanned * lop_home (rs_liabilityOriginPolicy rules);
       globalInvestments := savingsPlanned * lop_global (rs_liabilityOriginPolicy rules) |} in
  (* Step 5: debt payments *)
  let sortedDebts := sortDebts (rs_debtStrategy rules) debts in
  let* debtSnapshots := allocateDebts baseCurrency sortedDebts debtPlanned [] in
  let debtAllocation := debtAllocationOf debts baseCurrency debtSnapshots in
  (* Step 6: goal snapshots *)
  let* goalsSnapshots := forM (goalSnapshot baseCurrency) goals in
  (* Step 7: buckets *)
  let* needs := createBucket NEEDS needsPlanned baseCurrency (DEFAULT_CATEGORIES NEEDS) in
  let* wants := createBucket WANTS wantsPlanned baseCurrency (DEFAULT_CATEGORIES WANTS) in
  let* savings := createBucket SAVINGS savingsPlanned baseCurrency (DEFAULT_CATEGORIES SAVINGS) in
  let* debt := createBucket DEBT debtPlanned baseCurrency (DEFAULT_CATEGORIES DEBT) in
  let buckets :=
    {| b_NEEDS := needs; b_WANTS := wants;
       b_SAVINGS := withSavingsAllocation savings savingsAllocation;
       b_DEBT := withDebtAllocation debt debtAllocation |} in
  (* Step 8: initial insights *)
  let* insights1 :=
    if Qltb savingsPlanned minSavings
    then let* i := mkInsight warning
                     (MsgSavingsBelowMinimum (rs_minSavingsPercent rules))
                     (Some SAVINGS) None in
         ret [i]
    else ret [] in
  let* insights2 :=
    if Qltb (totalIncomeBase * (4 # 10)) debtPlanned
    then let* i := mkInsight alert MsgDebtExceeds40 (Some DEBT) None in ret [i]
    else ret [] in
  let insights := insights1 ++ insights2 in
  let* id := uuidv4 in
  let* now := Date_now in
  let plan :=
    {| plan_id := id; plan_userId := userId; plan_month := month;
       plan_baseCurrency := baseCurrency; plan_totalIncome := totalIncome;
       plan_buckets := buckets; plan_debtsSnapshot := debtSnapshots;
       plan_goalsSnapshot := goalsSnapshots; plan_insights := insights;
       plan_createdAt := now; plan_updatedAt := now |} in
  budgetPlans_set (getPlanKey userId month) plan ;;
  ret plan.

(** [logTransaction]; the result is the triple
    [{ transaction, updatedPlan, insights }]. *)
Definition logTransaction (userId month : string) (amt : Q)
    (cur baseCurrency : Currency) (category : string) (bucket : BucketType)
    (description : string) (date : option Timestamp) (tags : list string)
  : M (Transaction * MonthlyBudgetPlan * list BudgetInsight) :=
  let* now0 := Date_now in
  let date := match date with Some d => d | None => now0 end in
  (* Get or create budget plan *)
  let* stored := budgetPlans_get (getPlanKey userId month) in
  let* plan :=
    match stored with
    | Some p => ret p
    | None => generateBudgetPlan userId month baseCurrency [] [] [] None
    end in
  (* Convert transaction to base currency *)
  let* money := Fx.createMoney rt amt cur baseCurrency in
  (* Create transaction *)
  let* txId := uuidv4 in
  let* now := Date_now in
  let transaction :=
    {| tx_id := txId; tx_userId := userId; tx_budgetPlanId := plan_id plan;
       tx_type := if Qltb amt 0 then income else expense;
       tx_money := money; tx_category := category; tx_bucket := bucket;
       tx_description := description; tx_date := date; tx_isRecurring := false;
       tx_tags := tags; tx_createdAt := now; tx_updatedAt := now |} in
  (* Update bucket *)
  let bucketData := getBucket (plan_buckets plan) bucket in
  let spentBase := baseAmount (bk_spent bucketData) + baseAmount money in
  let spentAmount := amount (bk_spent bucketData) + baseAmount money in
  let remainingBase := baseAmount (bk_planned bucketData) - spentBase in
  let status := calculateStatus spentBase (baseAmount (bk_planned bucketData)) in
  (* Update category *)
  let categories :=
    match obj_read (bk_categories bucketData) category with
    | Own cat =>
        let spent := cat_spent cat + baseAmount money in
        obj_set (bk_categories bucketData) category
          {| cat_name := cat_name cat; cat_planned := cat_planned cat;
             cat_spent := spent; cat_remaining := cat_planned cat - spent;
             cat_status := calculateStatus spent (cat_planned cat) |}
    | Inherited =>
        (* [cat] is the inherited member: the three assignments land on
           that object, which has no [spent] and no [planned], so it gets
           spent NaN, remaining NaN and status "UNDER"; the bucket's own
           categories are not touched *)
        bk_categories bucketData
    | Undefined =>
        obj_set (bk_categories bucketData) category
          {| cat_name := category; cat_planned := 0;
             cat_spent := baseAmount money;
             cat_remaining := - baseAmount money; cat_status := OVER |}
    end in
  let bucketData' :=
    {| bk_type := bk_type bucketData;
       bk_planned := bk_planned bucketData;
       bk_spent :=
         {| amount := spentAmount; currency := currency (bk_spent bucketData);
            baseAmount := spentBase; fxRate := fxRate (bk_spent bucketData);
            fxTimestamp := fxTimestamp (bk_spent bucketData) |};
       bk_remaining :=
         {| amount := remainingBase;
            currency := currency (bk_remaining bucketData);
            baseAmount := remainingBase;
            fxRate := fxRate (bk_remaining bucketData);
            fxTimestamp := fxTimestamp (bk_remaining bucketData) |};
       bk_status := status;
       bk_categories := categories;
       bk_savingsAllocation := bk_savingsAllocation bucketData;
       bk_debtAllocation := bk_debtAllocation bucketData |} in
  (* Generate insights *)
  let* near :=
    if BucketStatus_eqb status NEAR_LIMIT
    then let* i := mkInsight warning
                     (MsgApproachingLimit bucket
                        (Math_round
                           (spentBase / baseAmount (bk_planned bucketData) * 100)))
                     (Some bucket) None in
         ret [i]
    else ret [] in
  let* over :=
    if BucketStatus_eqb status OVER
    then let* i := mkInsight alert
                     (MsgExceededBy bucket
                        (Math_round
                           (spentBase - baseAmount (bk_planned bucketData)))
                        baseCurrency)
                     (Some bucket) None in
         ret [i]
    else ret [] in
  let* catOver :=
    match obj_read categories category with
    | Own cat =>
        if BucketStatus_eqb (cat_status cat) OVER
        then let* i := mkInsight alert (MsgOverBudgetIn category)
                         (Some bucket) (Some category) in
             ret [i]
        else ret []
    | Inherited => ret []      (* its status was set to "UNDER" above *)
    | Undefined => ret []
    end in
  let newInsights := near ++ over ++ catOver in
  (* Add insights to plan *)
  let* now' := Date_now in
  let plan' :=
    {| plan_id := plan_id plan; plan_userId := plan_userId plan;
       plan_month := plan_month plan;
       plan_baseCurrency := plan_baseCurrency plan;
       plan_totalIncome := plan_totalIncome plan;
       plan_buckets := setBucket (plan_buckets plan) bucket bucketData';
       plan_debtsSnapshot := plan_debtsSnapshot plan;
       plan_goalsSnapshot := plan_goalsSnapshot plan;
       plan_insights := plan_insights plan ++ newInsights;
       plan_createdAt := plan_createdAt plan; plan_updatedAt := now' |} in
  (* Persist *)
  transactions_set txId transaction ;;
  budgetPlans_set (getPlanKey userId month) plan' ;;
  ret (transaction, plan', newInsights).

(** *** Retrieval *)

Definition getBudgetPlan (userId month : string) : M (option MonthlyBudgetPlan) :=
  budgetPlans_get (getPlanKey userId month).

Definition getInsights (userId month : string) : M (list BudgetInsight) :=
  let* plan := budgetPlans_get (getPlanKey userId month) in
  ret (match plan with Some p => plan_insights p | None => [] end).

(** *** Insight generation (full rescan) *)

Definition bucketEntries (bs : Buckets) : list (BucketType * BudgetBucket) :=
  [(NEEDS, b_NEEDS bs); (WANTS, b_WANTS bs); (SAVINGS, b_SAVINGS bs); (DEBT, b_DEBT bs)].

Definition categoryInsights (baseCurrency : Currency) (bucketType : BucketType)
    (entry : string * CategoryBudget) : M (list BudgetInsight) :=
  let (catName, cat) := entry in
  if BucketStatus_eqb (cat_status cat) OVER
  then let* i := mkInsight alert
                   (MsgCategoryOverBy catName (Math_abs (cat_remaining cat)) baseCurrency)
                   (Some bucketType) (Some catName) in
       ret [i]
  else ret [].

Definition bucketInsights (baseCurrency : Currency)
    (entry : BucketType * BudgetBucket) : M (list BudgetInsight) :=
  let (bucketType, bucket) := entry in
  let percentUsed :=
    if Qltb 0 (baseAmount (bk_planned bucket))
    then baseAmount (bk_spent bucket) / baseAmount (bk_planned bucket) * 100
    else 0 in
  let* level :=
    if Qle_bool 100 percentUsed
    then let* i := mkInsight alert (MsgBucketExceededBy bucketType (percentUsed - 100))
                     (Some bucketType) None in
         ret [i]
    else if Qle_bool 80 percentUsed
    then let* i := mkInsight warning (MsgBucketUsed bucketType percentUsed)
                     (Some bucketType) None in
         ret [i]
    else ret [] in
  let* cats := collectM (categoryInsights baseCurrency bucketType) (bk_categories bucket) in
  ret (level ++ cats).

Definition goalInsights (goal : GoalSnapshot) : M (list BudgetInsight) :=
  if Qle_bool 100 (gs_progressPercent goal)
  then let* i := mkInsight success (MsgGoalReached (gs_name goal)) None None in
       ret [i]
  else if Qle_bool 75 (gs_progressPercent goal)
  then let* i := mkInsight info
                   (MsgGoalAlmost (gs_name goal) (gs_progressPercent goal)) None None in
       ret [i]
  else ret [].

Definition generateInsights (plan : MonthlyBudgetPlan) : M (list BudgetInsight) :=
  let* perBucket :=
    collectM (bucketInsights (plan_baseCurrency plan)) (bucketEntries (plan_buckets plan)) in
  let savings := b_SAVINGS (plan_buckets plan) in
  let* pacing :=
    if Qltb (baseAmount (bk_spent savings)) (baseAmount (bk_planned savings) * (5 # 10))
    then
      let* now := getClock in
      match monthDays rt (plan_month plan) with
      | Some daysInMonth =>
          if Qltb (inject_Z daysInMonth / 2) (inject_Z (nowDay now))
          then let* i := mkInsight info MsgSavingsOnTrack (Some SAVINGS) None in
               ret [i]
          else ret []
      | None => ret []
      end
    else ret [] in
  let* perGoal := collectM goalInsights (plan_goalsSnapshot plan) in
  ret (perBucket ++ pacing ++ perGoal).

End WithRuntime.

End Budget.

(** ** Budget routes ([routes/budget.routes.ts])

    The handlers that call the engine, on request bodies whose fields
    have the types the routes declare; an absent field is [None]. The
    handlers' [catch] branches (status 500) have no counterpart: nothing
    in the model throws. *)

Module Routes.

(** [\d] *)
Definition isDigit (c : Ascii.ascii) : bool :=
  (48 <=? Ascii.nat_of_ascii c)%nat && (Ascii.nat_of_ascii c <=? 57)%nat.

(** [/^\d{4}-\d{2}$/.test(month)] *)
Definition monthFormat (month : string) : bool :=
  match month with
  | String y1 (String y2 (String y3 (String y4
      (String dash (String m1 (String m2 EmptyString)))))) =>
      isDigit y1 && isDigit y2 && isDigit y3 && isDigit y4 &&
      (Ascii.nat_of_ascii dash =? 45)%nat && isDigit m1 && isDigit m2
  | _ => false
  end.

(** [!s] for an optional string: absent or empty. *)
Definition missing (s : option string) : bool :=
  match s with
  | None => true
  | Some s => String.eqb s ""
  end.

(** A destructuring default, [x = d]: it applies to an absent field only. *)
Definition orDefault {A} (x : option A) (d : A) : A :=
  match x with
  | Some v => v
  | None => d
  end.

Inductive Response :=
| BadRequest (error : string)                       (* 400 *)
| NotFound (error : string)                         (* 404 *)
| Created (plan : MonthlyBudgetPlan)                (* 201, { plan } *)
| OkPlan (plan : MonthlyBudgetPlan)                 (* 200, { plan } *)
| OkInsights (insights : list BudgetInsight) (count : nat).  (* 200 *)

Record PlanBody := {
  body_userId : option string;
  body_month : option string;
  body_baseCurrency : option Currency;
  body_incomes : option (list IncomeSource);
  body_debts : option (list Debt);
  body_goals : option (list Goal);
  body_rules : option BudgetRuleSet }.

Section WithRuntime.
Variable rt : Runtime.

(** [POST /api/budget/plan] *)
Definition postPlan (body : PlanBody) : M Response :=
  if missing (body_userId body) || missing (body_month body)
  then ret (BadRequest "userId and month are required")
  else
    let userId := orDefault (body_userId body) "" in
    let month := orDefault (body_month body) "" in
    if negb (monthFormat month)
    then ret (BadRequest "month must be in YYYY-MM format")
    else
      let* plan :=
        Budget.generateBudgetPlan rt userId month
          (orDefault (body_baseCurrency body) "AED")
          (orDefault (body_incomes body) [])
          (orDefault (body_debts body) [])
          (orDefault (body_goals body) [])
          (body_rules body) in
      ret (Created plan).

(** [GET /api/budget/:month?userId=...] *)
Definition getMonth (month : string) (userId : option string) : M Response :=
  if missing userId
  then ret (BadRequest "userId query parameter is required")
  else if negb (monthFormat month)
  then ret (BadRequest "month must be in YYYY-MM format")
  else
    let* plan := Budget.getBudgetPlan (orDefault userId "") month in
    match plan with
    | None => ret (NotFound "Budget plan not found for this month")
    | Some plan => ret (OkPlan plan)
    end.

(** [GET /api/budget/insights/:month?userId=...] *)
Definition getInsightsOfMonth (month : string) (userId : option string)
  : M Response :=
  if missing userId
  then ret (BadRequest "userId query parameter is required")
  else if negb (monthFormat month)
  then ret (BadRequest "month must be in YYYY-MM format")
  else
    let* insights := Budget.getInsights (orDefault userId "") month in
    ret (OkInsights insights (length insights)).

(** [POST /api/budget/insights/generate] *)
Definition postInsightsGenerate (userId month : option string) : M Response :=
  if missing userId || missing month
  then ret (BadRequest "userId and month are required")
  else
    let* plan := Budget.getBudgetPlan (orDefault userId "") (orDefault month "") in
    match plan with
    | None => ret (NotFound "Budget plan not found")
    | Some plan =>
        let* insights := Budget.generateInsights rt plan in
        ret (OkInsights insights (length insights))
    end.

End WithRuntime.

End Routes.

(** ** Histories of calls

    The engine's exported operations, as the steps of a history. A
    history is run from the state in which the modules are loaded: the
    three maps empty. The clock may be moved between calls. *)

Inductive Op :=
| OpGenerateBudgetPlan (userId month : string) (baseCurrency : Currency)
    (incomes : list IncomeSource) (debts : list Debt) (goals : list Goal)
    (rules : option BudgetRuleSet)
| OpLogTransaction (userId month : string) (amt : Q) (cur baseCurrency : Currency)
    (category : string) (bucket : BucketType) (description : string)
    (date : option Timestamp) (tags : list string)
| OpGenerateInsights (userId month : string)
| OpCreateMoney (amt : Q) (cur baseCurrency : Currency)
| OpSetFxRate (from to : Currency) (rate : Q)
| OpClearFxCache
| OpClock (c : Clock).

Definition initialWorld (c : Clock) : World :=
  {| fxRateCache := ∅; budgetPlans := ∅; transactions := ∅; clock := c;
     nextUuid := 0%N |}.

Definition step (rt : Runtime) (o : Op) (w : World) : World :=
  match o with
  | OpGenerateBudgetPlan u m b incomes debts goals rules =>
      snd (Budget.generateBudgetPlan rt u m b incomes debts goals rules w)
  | OpLogTransaction u m a cur b category bucket description date tags =>
      snd (Budget.logTransaction rt u m a cur b category bucket description date tags w)
  | OpGenerateInsights u m =>
      match fst (Budget.getBudgetPlan u m w) with
      | Some plan => snd (Budget.generateInsights rt plan w)
      | None => w
      end
  | OpCreateMoney a cur b => snd (Fx.createMoney rt a cur b w)
  | OpSetFxRate from to rate => snd (Fx.setFxRate from to rate w)
  | OpClearFxCache => snd (Fx.clearFxCache w)
  | OpClock c => snd (setClock c w)
  end.

Definition run (rt : Runtime) (ops : list Op) (w : World) : World :=
  fold_left (fun w o => step rt o w) ops w.

(** ** Specification vocabulary *)

(** The effective rule set of a [generateBudgetPlan] call made at [now]. *)
Definition effectiveRules (userId : string) (now : Timestamp)
    (rules : option BudgetRuleSet) : BudgetRuleSet :=
  match rules with
  | Some r => r
  | None => Budget.defaultRules userId now
  end.

(** Step 1: the sum of [money.baseAmount] over the active incomes. *)
Definition totalIncomeBaseOf (incomes : list IncomeSource) : Q :=
  fold_left (fun acc i => acc + baseAmount (inc_money i))
    (List.filter inc_isActive incomes) 0.

(** The savings allocation before and the floor used by the enforcement. *)
Definition percentSavings (rules : BudgetRuleSet) (totalIncomeBase : Q) : Q :=
  (totalIncomeBase * pct_savings (rs_buckets rules)) / 100.

Definition savingsFloor (rules : BudgetRuleSet) (totalIncomeBase : Q) : Q :=
  totalIncomeBase * (rs_minSavingsPercent rules / 100).

Definition isSavingsWarning (i : BudgetInsight) : bool :=
  InsightType_eqb (ins_type i) warning &&
  match ins_bucket i with
  | Some b => BucketType_eqb b SAVINGS
  | None => false
  end.

(** The case analysis of [calculateStatus], on the ratio it computes. *)
Inductive StatusCase (spent planned : Q) : BucketStatus -> Prop :=
| CaseZero : planned == 0 -> StatusCase spent planned UNDER
| CaseOver : ~ planned == 0 -> 1 < spent / planned -> StatusCase spent planned OVER
| CaseNear : ~ planned == 0 -> spent / planned <= 1 -> 8 # 10 <= spent / planned ->
    StatusCase spent planned NEAR_LIMIT
| CaseUnder : ~ planned == 0 -> spent / planned < 8 # 10 ->
    StatusCase spent planned UNDER.

(** No cached rate that [fetchFxRate] would return for the pair [(X, X)]
    differs from 1: the entry is absent, expired, or an identity rate. *)
Definition selfRateIsOne (w : World) (X : Currency) : bool :=
  match fxRateCache w !! Fx.getCacheKey X X with
  | Some c => if Fx.fresh (epochMs (clock w)) c then Qeq_bool (fx_rate c) 1 else true
  | None => true
  end.

(** A snapshot taken of a debt. *)
Definition snapshotOf (d : Debt) (s : DebtSnapshot) : Prop :=
  ds_debtId s = debt_id d /\ ds_name s = debt_name d /\
  ds_outstandingPrincipal s = debt_outstandingPrincipal d.

(** The priority order of a strategy. *)
Definition debtBefore (strategy : DebtStrategy) (a b : Debt) : Prop :=
  match strategy with
  | avalanche => debt_interestRateAnnual b <= debt_interestRateAnnual a
  | snowball =>
      baseAmount (debt_outstandingPrincipal a) <=
      baseAmount (debt_outstandingPrincipal b)
  end.

Definition paidMinimum (s : DebtSnapshot) : Prop := ds_isMinimumPayment s = true.

Definition extraPayments (l : list DebtSnapshot) : list DebtSnapshot :=
  List.filter (fun s => negb (ds_isMinimumPayment s)) l.

(** Category-level spend of a bucket. *)
Definition sumSpent (cats : list (string * CategoryBudget)) : Q :=
  fold_right (fun e acc => cat_spent (snd e) + acc) 0 cats.

Definition bucketConsistent (b : BudgetBucket) : Prop :=
  baseAmount (bk_spent b) == sumSpent (bk_categories b).

Definition planConsistent (p : MonthlyBudgetPlan) : Prop :=
  forall b, bucketConsistent (getBucket (plan_buckets p) b).

(** Frames: what a computation leaves as it found it. *)
Definition sameStores (w w' : World) : Prop :=
  budgetPlans w' = budgetPlans w /\ transactions w' = transactions w /\
  clock w' = clock w.

Definition sameState (w w' : World) : Prop :=
  sameStores w w' /\ fxRateCache w' = fxRateCache w.

Definition preserves {A} (R : World -> World -> Prop) (m : M A) : Prop :=
  forall w, R w (snd (m w)).

(** Weakest precondition of a computation. *)
Definition wp {A} (m : M A) (post : A -> World -> Prop) (w : World) : Prop :=
  post (fst (m w)) (snd (m w)).

(** ** Scenarios *)

Module Scenario.

(** A provider that is down, and a [Date] that parses nothing. *)
Definition offline : Runtime :=
  {| liveRates := fun _ _ => None;
     dateYearMonth := fun _ => None;
     monthDays := fun _ => None |}.

Definition newYear : Clock :=
  {| epochMs := 1767225600000; nowYear := 2026; nowMonth := 0; nowDay := 1 |}.

Definition start : World := initialWorld newYear.

Definition aed (a : Q) : Money := Budget.baseMoney a "AED" 0.

Definition salary (a : Q) : IncomeSource :=
  {| inc_id := "inc-1"; inc_name := "salary"; inc_money := aed a;
     inc_isActive := true |}.

Definition debt (id : string) (principal rate minPayment : Q) : Debt :=
  {| debt_id := id; debt_name := id; debt_currency := "AED";
     debt_outstandingPrincipal := aed principal;
     debt_interestRateAnnual := rate;
     debt_minMonthlyPayment := aed minPayment; debt_country := "AE" |}.

(** Savings at 25% of income with a 50% savings floor. *)
Definition thriftyRules : BudgetRuleSet :=
  {| rs_id := "rules-1"; rs_userId := "u1"; rs_strategyType := percentage;
     rs_buckets :=
       {| pct_needs := 50; pct_wants := 25; pct_savings := 25; pct_debt := 0 |};
     rs_minSavingsPercent := 50; rs_minDebtPercent := 5;
     rs_liabilityOriginPolicy := DEFAULT_POLICY; rs_emergencyFundPolicy := 6;
     rs_debtStrategy := avalanche; rs_createdAt := 0; rs_updatedAt := 0 |}.

(** The world after [setFxRate("AED", "AED", 2)]. *)
Definition doubledSelfRate : World :=
  snd (Fx.setFxRate "AED" "AED" 2 start).

(** A plan, then two expenses of 10 in the unplanned category "pets". *)
Definition petsTwice : list Op :=
  [ OpGenerateBudgetPlan "u1" "2026-01" "AED" [salary 10000] [] [] None;
    OpLogTransaction "u1" "2026-01" 10 "AED" "AED" "pets" NEEDS "vet" None [];
    OpLogTransaction "u1" "2026-01" 10 "AED" "AED" "pets" NEEDS "food" None [] ].

(** One debt whose principal (50) is below its minimum payment (100). *)
Definition nearlyPaid : Debt := debt "card" 50 10 100.


End Scenario.

(** ** Further vocabulary *)

(** The cache entry that [fetchFxRate] would return without fetching. *)
Definition cachedFresh (w : World) (from to : Currency) : option FxRate :=
  match fxRateCache w !! Fx.getCacheKey from to with
  | Some c => if Fx.fresh (epochMs (clock w)) c then Some c else None
  | None => None
  end.

(** Every cached rate is an identity rate. *)
Definition identityRates (w : World) : Prop :=
  forall k c, fxRateCache w !! k = Some c -> fx_rate c == 1.

(** The calls that convert only between a currency and itself, as all
    calls made by the budget routes do. *)
Definition sameCurrencyOp (o : Op) : bool :=
  match o with
  | OpGenerateBudgetPlan _ _ _ _ _ _ _ => true
  | OpLogTransaction _ _ _ cur baseCurrency _ _ _ _ _ => String.eqb cur baseCurrency
  | OpGenerateInsights _ _ => true
  | OpCreateMoney _ cur baseCurrency => String.eqb cur baseCurrency
  | OpSetFxRate _ _ _ => false
  | OpClearFxCache => true
  | OpClock _ => true
  end.

(** A step that keeps the cache free of non-identity rates. *)
Definition keepsIdentity (w w' : World) : Prop :=
  identityRates w -> identityRates w'.

(** Steps 2 and 3 of [generateBudgetPlan], per bucket. *)
Definition percentOf (total pct : Q) : Q := (total * pct) / 100.

Definition minDebtPayments (debts : list Debt) : Q :=
  fold_left (fun sum d => sum + baseAmount (debt_minMonthlyPayment d)) debts 0.

Definition raisedTo (planned floor : Q) : Q :=
  if Qltb planned floor then floor else planned.

Definition plannedFor (rules : BudgetRuleSet) (total : Q) (debts : list Debt)
    (b : BucketType) : Q :=
  match b with
  | NEEDS => percentOf total (pct_needs (rs_buckets rules))
  | WANTS => percentOf total (pct_wants (rs_buckets rules))
  | SAVINGS =>
      raisedTo (percentOf total (pct_savings (rs_buckets rules)))
        (savingsFloor rules total)
  | DEBT =>
      raisedTo (percentOf total (pct_debt (rs_buckets rules)))
        (minDebtPayments debts)
  end.

(** How a snapshot's payment relates to its debt and the debt budget. *)
Definition allocationOf (budget : Q) (base : Currency) (d : Debt)
    (s : DebtSnapshot) : Prop :=
  snapshotOf d s /\
  currency (ds_allocatedPayment s) = base /\
  if ds_isMinimumPayment s
  then amount (ds_allocatedPayment s) = baseAmount (debt_minMonthlyPayment d)
  else baseAmount (debt_minMonthlyPayment d) < budget /\
       amount (ds_allocatedPayment s)
       = Math_min budget (baseAmount (debt_outstandingPrincipal d)).

(** How a goal snapshot relates to its goal at a given date. *)
Definition projectionOf (rt : Runtime) (now : Clock) (base : Currency)
    (g : Goal) (s : GoalSnapshot) : Prop :=
  gs_goalId s = goal_id g /\ gs_name s = goal_name g /\
  gs_targetAmount s = goal_targetAmount g /\
  gs_currentAmount s = goal_currentAmount g /\
  currency (gs_monthlyContribution s) = base /\
  baseAmount (gs_monthlyContribution s) = amount (gs_monthlyContribution s) /\
  match dateYearMonth rt (goal_targetDate g) with
  | None => baseAmount (gs_monthlyContribution s) = 0
  | Some (y, m) =>
      let months := ((y - nowYear now) * 12 + (m - nowMonth now))%Z in
      if (0 <? months)%Z
      then baseAmount (gs_monthlyContribution s)
           = (baseAmount (goal_targetAmount g) - baseAmount (goal_currentAmount g))
             / inject_Z months
      else baseAmount (gs_monthlyContribution s) = 0
  end /\
  (baseAmount (goal_targetAmount g) <= 0 -> gs_progressPercent s = 0) /\
  (0 < baseAmount (goal_targetAmount g) ->
   gs_progressPercent s
   = baseAmount (goal_currentAmount g) / baseAmount (goal_targetAmount g) * 100).

(** What an insight says, apart from its identifier and creation time. *)
Definition InsightContent : Type :=
  InsightType * Message * option BucketType * option string.

Definition insightContent (i : BudgetInsight) : InsightContent :=
  (ins_type i, ins_message i, ins_bucket i, ins_category i).

(** The update that [logTransaction] makes in place, with [m] the
    transaction's [money.baseAmount]: on the categories of the bucket, on
    the bucket, and on the plan. *)
Definition loggedCategories (cats : list (string * CategoryBudget))
    (category : string) (m : Q) : list (string * CategoryBudget) :=
  match obj_read cats category with
  | Own cat =>
      let spent := cat_spent cat + m in
      obj_set cats category
        {| cat_name := cat_name cat; cat_planned := cat_planned cat;
           cat_spent := spent; cat_remaining := cat_planned cat - spent;
           cat_status := Budget.calculateStatus spent (cat_planned cat) |}
  | Inherited => cats
  | Undefined =>
      obj_set cats category
        {| cat_name := category; cat_planned := 0; cat_spent := m;
           cat_remaining := - m; cat_status := OVER |}
  end.

Definition loggedBucket (bucketData : BudgetBucket) (category : string)
    (m : Q) : BudgetBucket :=
  let spentBase := baseAmount (bk_spent bucketData) + m in
  let remainingBase := baseAmount (bk_planned bucketData) - spentBase in
  {| bk_type := bk_type bucketData;
     bk_planned := bk_planned bucketData;
     bk_spent :=
       {| amount := amount (bk_spent bucketData) + m;
          currency := currency (bk_spent bucketData);
          baseAmount := spentBase; fxRate := fxRate (bk_spent bucketData);
          fxTimestamp := fxTimestamp (bk_spent bucketData) |};
     bk_remaining :=
       {| amount := remainingBase;
          currency := currency (bk_remaining bucketData);
          baseAmount := remainingBase;
          fxRate := fxRate (bk_remaining bucketData);
          fxTimestamp := fxTimestamp (bk_remaining bucketData) |};
     bk_status :=
       Budget.calculateStatus spentBase (baseAmount (bk_planned bucketData));
     bk_categories := loggedCategories (bk_categories bucketData) category m;
     bk_savingsAllocation := bk_savingsAllocation bucketData;
     bk_debtAllocation := bk_debtAllocation bucketData |}.

Definition loggedPlan (plan : MonthlyBudgetPlan) (bucket : BucketType)
    (category : string) (m : Q) (newInsights : list BudgetInsight)
    (now : Timestamp) : MonthlyBudgetPlan :=
  {| plan_id := plan_id plan; plan_userId := plan_userId plan;
     plan_month := plan_month plan;
     plan_baseCurrency := plan_baseCurrency plan;
     plan_totalIncome := plan_totalIncome plan;
     plan_buckets :=
       setBucket (plan_buckets plan) bucket
         (loggedBucket (getBucket (plan_buckets plan) bucket) category m);
     plan_debtsSnapshot := plan_debtsSnapshot plan;
     plan_goalsSnapshot := plan_goalsSnapshot plan;
     plan_insights := plan_insights plan ++ newInsights;
     plan_createdAt := plan_createdAt plan; plan_updatedAt := now |}.

(** The insights that [logTransaction] derives from the bucket it has
    just updated. *)
Definition triggeredInsights (bucket : BucketType) (updated : BudgetBucket)
    (category : string) (baseCurrency : Currency) : list InsightContent :=
  (if BucketStatus_eqb (bk_status updated) NEAR_LIMIT
   then [(warning,
          MsgApproachingLimit bucket
            (Math_round
               (baseAmount (bk_spent updated) / baseAmount (bk_planned updated) * 100)),
          Some bucket, None)]
   else []) ++
  (if BucketStatus_eqb (bk_status updated) OVER
   then [(alert,
          MsgExceededBy bucket
            (Math_round
               (baseAmount (bk_spent updated) - baseAmount (bk_planned updated)))
            baseCurrency,
          Some bucket, None)]
   else []) ++
  match obj_get (bk_categories updated) category with
  | Some cat =>
      if BucketStatus_eqb (cat_status cat) OVER
      then [(alert, MsgOverBudgetIn category, Some bucket, Some category)]
      else []
  | None => []
  end.

(** The plan that [logTransaction] works on: the stored one, or else a
    plan generated on the spot from no income, no debt and no goal. *)
Definition planToUpdate (rt : Runtime) (userId month : string)
    (baseCurrency : Currency) (w : World) : MonthlyBudgetPlan * World :=
  match budgetPlans w !! Budget.getPlanKey userId month with
  | Some p => (p, w)
  | None => Budget.generateBudgetPlan rt userId month baseCurrency [] [] [] None w
  end.

(** A property of buckets that holds for every bucket of every stored plan. *)
Definition storeSatisfies (I : BudgetBucket -> Prop) (w : World) : Prop :=
  forall k p b,
    budgetPlans w !! k = Some p -> I (getBucket (plan_buckets p) b).

(** Remaining amounts are planned minus spent, for the bucket and for
    each of its categories. *)
Definition remainingSettled (bd : BudgetBucket) : Prop :=
  baseAmount (bk_remaining bd)
  == baseAmount (bk_planned bd) - baseAmount (bk_spent bd) /\
  Forall
    (fun e => cat_remaining (snd e) == cat_planned (snd e) - cat_spent (snd e))
    (bk_categories bd).

(** The amounts of a bucket are base-currency amounts. *)
Definition inBaseCurrency (bd : BudgetBucket) : Prop :=
  amount (bk_planned bd) = baseAmount (bk_planned bd) /\
  amount (bk_spent bd) == baseAmount (bk_spent bd) /\
  amount (bk_remaining bd) = baseAmount (bk_remaining bd) /\
  fxRate (bk_planned bd) = 1 /\ fxRate (bk_spent bd) = 1 /\
  fxRate (bk_remaining bd) = 1.

Definition statusSettled (bd : BudgetBucket) : Prop :=
  bk_status bd
  = Budget.calculateStatus (baseAmount (bk_spent bd)) (baseAmount (bk_planned bd)).

(** Whether a category is one of the default categories of a bucket. *)
Definition isDefaultCategory (b : BucketType) (category : string) : bool :=
  existsb (fun name => String.eqb name category) (DEFAULT_CATEGORIES b).

(** The share of a bucket's planned amount that [createBucket] gives to
    each default category. *)
Definition categoryShare (bd : BudgetBucket) : Q :=
  baseAmount (bk_planned bd)
  / inject_Z (Z.of_nat (length (DEFAULT_CATEGORIES (bk_type bd)))).

(** Every default category of the bucket is there. *)
Definition defaultsPresent (bd : BudgetBucket) : Prop :=
  forall name,
    isDefaultCategory (bk_type bd) name = true ->
    exists cat, obj_get (bk_categories bd) name = Some cat.

(** Category plans are as they were created: every default category of
    the bucket is there, with its share of the bucket's planned amount, and
    every other category is planned 0. *)
Definition plannedAsCreated (bd : BudgetBucket) : Prop :=
  defaultsPresent bd /\
  Forall
    (fun e =>
       cat_planned (snd e)
       = if isDefaultCategory (bk_type bd) (fst e) then categoryShare bd else 0)
    (bk_categories bd).













(** Whether the debt of a snapshot, the first debt with the snapshot's
    id, is held in the base currency. *)
Definition heldInBase (debts : list Debt) (base : Currency) (s : DebtSnapshot)
  : bool :=
  match Budget.findDebt debts s with
  | Some debt => String.eqb (debt_currency debt) base
  | None => false
  end.

(** A computation whose insights, identifiers apart, depend on the clock
    only. *)
Definition contentDetermined (m : M (list BudgetInsight)) : Prop :=
  forall w1 w2,
    clock w1 = clock w2 ->
    map insightContent (fst (m w1)) = map insightContent (fst (m w2)).

(** A computation that returns an insight with the given content. *)
Definition yields (m : M (list BudgetInsight)) (c : InsightContent) : Prop :=
  forall w, exists i, In i (fst (m w)) /\ insightContent i = c.

(** The order of the three statuses. *)
Definition statusRank (s : BucketStatus) : nat :=
  match s with
  | UNDER => 0
  | NEAR_LIMIT => 1
  | OVER => 2
  end.

(** ** Further scenarios *)

Module Examples.

(** Half an hour after [Scenario.newYear]. *)
Definition halfPastMidnight : Clock :=
  {| epochMs := 1767227400000; nowYear := 2026; nowMonth := 0; nowDay := 1 |}.

(** The world after a plan was generated from an income of 10000. *)
Definition planned : World :=
  snd (Budget.generateBudgetPlan Scenario.offline "u1" "2026-01" "AED"
         [Scenario.salary 10000] [] [] None Scenario.start).

Definition thePlan : MonthlyBudgetPlan :=
  fst (Budget.generateBudgetPlan Scenario.offline "u1" "2026-01" "AED"
         [Scenario.salary 10000] [] [] None Scenario.start).

(** That plan after all of its NEEDS budget, 5000, was spent on rent. *)
Definition rentPaid : MonthlyBudgetPlan :=
  snd (fst (fst (Budget.logTransaction Scenario.offline "u1" "2026-01" 5000
                   "AED" "AED" "rent" NEEDS "rent" None [] planned))).

(** The plan made on the spot for an expense in the category "pets". *)
Definition petsOnly : MonthlyBudgetPlan :=
  snd (fst (fst (Budget.logTransaction Scenario.offline "u1" "2026-01" 10
                   "AED" "AED" "pets" NEEDS "vet" None [] Scenario.start))).

(** Two debts in avalanche order. *)
Definition twoDebts : list Debt :=
  [Scenario.debt "card" 2000 24 100; Scenario.debt "car" 9000 6 300].

End Examples.

(** ** Numbers *)

Lemma Qltb_lt (a b : Q) : Qltb a b = true <-> a < b.
Proof.
  unfold Qltb. rewrite negb_true_iff.
  split; intros H.
  - apply Qnot_le_lt. intros Hle. apply Qle_bool_iff in Hle. congruence.
  - destruct (Qle_bool b a) eqn:E; [|reflexivity].
    apply Qle_bool_iff in E. lra.
Qed.

Lemma Qltb_ge (a b : Q) : Qltb a b = false <-> b <= a.
Proof.
  unfold Qltb. rewrite negb_false_iff. apply Qle_bool_iff.
Qed.

Lemma Qle_bool_gt (a b : Q) : Qle_bool a b = false <-> b < a.
Proof.
  split; intros H.
  - apply Qnot_le_lt. intros Hle. apply Qle_bool_iff in Hle. congruence.
  - destruct (Qle_bool a b) eqn:E; [|reflexivity].
    apply Qle_bool_iff in E. lra.
Qed.

Lemma Qeq_bool_false (a b : Q) : Qeq_bool a b = false <-> ~ a == b.
Proof.
  split.
  - intros H Heq. apply Qeq_bool_iff in Heq. congruence.
  - intros H. destruct (Qeq_bool a b) eqn:E; [|reflexivity].
    apply Qeq_bool_iff in E. contradiction.
Qed.

Lemma ratio_pos (s p : Q) (c : Q) : 0 < p -> (c < s / p <-> c * p < s).
Proof.
  intros Hp. split; intros H.
  - assert (E : s == (s / p) * p) by (field; lra). rewrite E.
    apply Qmult_lt_compat_r; assumption.
  - apply Qlt_shift_div_l; assumption.
Qed.

Lemma ratio_pos_le (s p : Q) (c : Q) : 0 < p -> (c <= s / p <-> c * p <= s).
Proof.
  intros Hp. split; intros H.
  - assert (E : s == (s / p) * p) by (field; lra). rewrite E.
    apply Qmult_le_compat_r; lra.
  - apply Qle_shift_div_l; assumption.
Qed.

Lemma ratio_neg (s p : Q) (c : Q) : p < 0 -> (c < s / p <-> s < c * p).
Proof.
  intros Hp.
  assert (E : s / p == (- s) / (- p)) by (field; lra).
  rewrite E, ratio_pos by lra. split; intros; lra.
Qed.

Lemma ratio_neg_le (s p : Q) (c : Q) : p < 0 -> (c <= s / p <-> s <= c * p).
Proof.
  intros Hp.
  assert (E : s / p == (- s) / (- p)) by (field; lra).
  rewrite E, ratio_pos_le by lra. split; intros; lra.
Qed.

Lemma calculateStatus_case spent planned :
  StatusCase spent planned (Budget.calculateStatus spent planned).
Proof.
  unfold Budget.calculateStatus.
  destruct (Qeq_bool planned 0) eqn:E0.
  - apply CaseZero. now apply Qeq_bool_iff.
  - apply Qeq_bool_false in E0.
    destruct (Qltb 1 (spent / planned)) eqn:E1.
    + apply CaseOver; [assumption | now apply Qltb_lt].
    + apply Qltb_ge in E1.
      destruct (Qle_bool (8 # 10) (spent / planned)) eqn:E2.
      * apply CaseNear; [assumption | assumption | now apply Qle_bool_iff].
      * apply CaseUnder; [assumption | now apply Qle_bool_gt].
Qed.

(** ** Frames *)

Section Frames.
Context (R : World -> World -> Prop).
Hypothesis R_refl : forall w, R w w.
Hypothesis R_trans : forall w1 w2 w3, R w1 w2 -> R w2 w3 -> R w1 w3.

Lemma preserves_ret {A} (a : A) : preserves R (ret a).
Proof. intros w. apply R_refl. Qed.

Lemma preserves_bind {A B} (m : M A) (f : A -> M B) :
  preserves R m -> (forall a, preserves R (f a)) -> preserves R (bind m f).
Proof.
  intros Hm Hf w. unfold bind.
  specialize (Hm w). destruct (m w) as [a w1]. simpl in Hm.
  eapply R_trans; [exact Hm | apply Hf].
Qed.

Lemma preserves_forM {A B} (f : A -> M B) (l : list A) :
  (forall a, preserves R (f a)) -> preserves R (forM f l).
Proof.
  intros Hf. induction l as [|x l IH]; simpl.
  - apply preserves_ret.
  - apply preserves_bind; [apply Hf | intros y].
    apply preserves_bind; [exact IH | intros ys]. apply preserves_ret.
Qed.

Lemma preserves_collectM {A B} (f : A -> M (list B)) (l : list A) :
  (forall a, preserves R (f a)) -> preserves R (Budget.collectM f l).
Proof.
  intros Hf. induction l as [|x l IH]; simpl.
  - apply preserves_ret.
  - apply preserves_bind; [apply Hf | intros y].
    apply preserves_bind; [exact IH | intros ys]. apply preserves_ret.
Qed.

End Frames.

Lemma sameStores_refl w : sameStores w w.
Proof. repeat split. Qed.

Lemma sameStores_trans w1 w2 w3 :
  sameStores w1 w2 -> sameStores w2 w3 -> sameStores w1 w3.
Proof.
  intros (Hp & Ht & Hc) (Hp' & Ht' & Hc').
  repeat split; congruence.
Qed.

Lemma sameState_refl w : sameState w w.
Proof. split; [apply sameStores_refl | reflexivity]. Qed.

Lemma sameState_trans w1 w2 w3 :
  sameState w1 w2 -> sameState w2 w3 -> sameState w1 w3.
Proof.
  intros [Hs Hf] [Hs' Hf'].
  split; [eapply sameStores_trans; eassumption | congruence].
Qed.

Lemma sameState_sameStores {A} (m : M A) :
  preserves sameState m -> preserves sameStores m.
Proof. intros H w. apply H. Qed.

Create HintDb frame.


Ltac frame_step :=
  match goal with
  | |- preserves sameState (bind _ _) =>
      apply (preserves_bind sameState sameState_trans); [ | intros ?]
  | |- preserves sameStores (bind _ _) =>
      apply (preserves_bind sameStores sameStores_trans); [ | intros ?]
  | |- preserves sameState (ret _) => apply (preserves_ret sameState sameState_refl)
  | |- preserves sameStores (ret _) => apply (preserves_ret sameStores sameStores_refl)
  | |- preserves sameState (forM _ _) =>
      apply (preserves_forM sameState sameState_refl sameState_trans); intros ?
  | |- preserves sameState (Budget.collectM _ _) =>
      apply (preserves_collectM sameState sameState_refl sameState_trans); intros ?
  | |- preserves _ (if ?b then _ else _) => destruct b
  | |- preserves _ (match ?x with _ => _ end) => destruct x
  | |- preserves _ _ => solve [auto with frame]
  end.

Ltac frame := repeat frame_step.

Lemma Date_now_state : preserves sameState Date_now.
Proof. intros w. apply sameState_refl. Qed.

Lemma getClock_state : preserves sameState getClock.
Proof. intros w. apply sameState_refl. Qed.

Lemma uuidv4_state : preserves sameState uuidv4.
Proof. intros w. repeat split. Qed.

Lemma budgetPlans_get_state k : preserves sameState (budgetPlans_get k).
Proof. intros w. apply sameState_refl. Qed.

Lemma fxRateCache_get_state k : preserves sameState (fxRateCache_get k).
Proof. intros w. apply sameState_refl. Qed.

Lemma fxRateCache_set_stores k r : preserves sameStores (fxRateCache_set k r).
Proof. intros w. repeat split. Qed.

#[local] Hint Resolve Date_now_state getClock_state uuidv4_state
  budgetPlans_get_state fxRateCache_get_state fxRateCache_set_stores
  sameState_sameStores : frame.

Lemma mkInsight_state ty msg b c : preserves sameState (Budget.mkInsight ty msg b c).
Proof. unfold Budget.mkInsight. frame. Qed.

Lemma createBucket_state ty planned base names :
  preserves sameState (Budget.createBucket ty planned base names).
Proof. unfold Budget.createBucket. frame. Qed.

#[local] Hint Resolve mkInsight_state createBucket_state : frame.

Section FrameRuntime.
Variable rt : Runtime.

Lemma fetchFxRate_miss_stores from to key :
  preserves sameStores (Fx.fetchFxRate_miss rt from to key).
Proof. unfold Fx.fetchFxRate_miss. frame. Qed.

Lemma fetchFxRate_stores from to : preserves sameStores (Fx.fetchFxRate rt from to).
Proof.
  pose proof fetchFxRate_miss_stores.
  unfold Fx.fetchFxRate. frame.
Qed.

Lemma createMoney_stores amt cur base :
  preserves sameStores (Fx.createMoney rt amt cur base).
Proof.
  pose proof fetchFxRate_stores.
  unfold Fx.createMoney, Fx.convertCurrency. frame.
Qed.

Lemma allocateDebts_stores base sorted remaining snaps :
  preserves sameStores (Budget.allocateDebts rt base sorted remaining snaps).
Proof.
  revert remaining snaps.
  induction sorted as [|d rest IH]; intros remaining snaps; simpl.
  - frame.
  - frame_step; [apply createMoney_stores | apply IH].
Qed.

Lemma goalSnapshot_state base goal : preserves sameState (Budget.goalSnapshot rt base goal).
Proof. unfold Budget.goalSnapshot, Budget.calculateMonthsRemaining. frame. Qed.

Lemma categoryInsights_state base b e :
  preserves sameState (Budget.categoryInsights base b e).
Proof. unfold Budget.categoryInsights. frame. Qed.

Lemma bucketInsights_state base e : preserves sameState (Budget.bucketInsights base e).
Proof.
  pose proof categoryInsights_state.
  unfold Budget.bucketInsights. destruct e as [bucketType bucket]. frame.
Qed.

Lemma goalInsights_state g : preserves sameState (Budget.goalInsights g).
Proof. unfold Budget.goalInsights. frame. Qed.

Lemma generateInsights_state plan : preserves sameState (Budget.generateInsights rt plan).
Proof.
  pose proof bucketInsights_state. pose proof goalInsights_state.
  unfold Budget.generateInsights. frame.
Qed.

End FrameRuntime.

(** ** Weakest preconditions *)

Lemma wp_ret {A} (a : A) (post : A -> World -> Prop) w : post a w -> wp (ret a) post w.
Proof. exact (fun H => H). Qed.

Lemma wp_bind {A B} (m : M A) (f : A -> M B) (post : B -> World -> Prop) w :
  wp m (fun a w1 => wp (f a) post w1) w -> wp (bind m f) post w.
Proof. unfold wp, bind. destruct (m w) as [a w1]. exact (fun H => H). Qed.

Lemma wp_call {A} (R : World -> World -> Prop) (m : M A)
    (post : A -> World -> Prop) w :
  preserves R m ->
  (forall a w1, m w = (a, w1) -> R w w1 -> post a w1) -> wp m post w.
Proof.
  intros Hm Hpost. unfold wp. specialize (Hm w).
  destruct (m w) as [a w1] eqn:E. now apply Hpost.
Qed.

Lemma wp_pure {A} (m : M A) (post : A -> World -> Prop) w :
  snd (m w) = w -> post (fst (m w)) w -> wp m post w.
Proof. unfold wp. intros ->. exact (fun H => H). Qed.

(** ** FX service *)

Section FxFacts.
Variable rt : Runtime.

Lemma fetchFxRate_self_rate (X : Currency) (w : World) :
  selfRateIsOne w X = true ->
  fx_rate (fst (Fx.fetchFxRate rt X X w)) == 1.
Proof.
  unfold selfRateIsOne, Fx.fetchFxRate, Fx.fetchFxRate_miss, bind,
    fxRateCache_get, Date_now, fxRateCache_set, ret.
  rewrite String.eqb_refl.
  destruct (fxRateCache w !! Fx.getCacheKey X X) as [c|]; simpl.
  - destruct (Fx.fresh (epochMs (clock w)) c); simpl.
    + intros H. now apply Qeq_bool_iff.
    + reflexivity.
  - reflexivity.
Qed.

Lemma createMoney_fields (amt : Q) (cur base : Currency) (w : World) :
  let m := fst (Fx.createMoney rt amt cur base w) in
  amount m = amt /\ currency m = cur /\
  fxRate m = fx_rate (fst (Fx.fetchFxRate rt cur base w)) /\
  baseAmount m = amt * fxRate m.
Proof.
  unfold Fx.createMoney, Fx.convertCurrency, bind, ret.
  destruct (Fx.fetchFxRate rt cur base w) as [r w1]. simpl. auto.
Qed.

End FxFacts.

(** ** Sorting *)

Section Sorting.
Context {A : Type} (cmp : A -> A -> Q).

Let le (a b : A) : Prop := cmp a b <= 0.

Hypothesis le_total : forall a b, le a b \/ le b a.
Hypothesis le_trans : forall a b c, le a b -> le b c -> le a c.

Lemma sort_insert_perm (x : A) (l : list A) :
  Permutation (Budget.sort_insert cmp x l) (x :: l).
Proof.
  induction l as [|y l IH]; simpl.
  - apply Permutation_refl.
  - destruct (Qle_bool (cmp x y) 0).
    + apply Permutation_refl.
    + apply Permutation_trans with (y :: x :: l).
      * apply perm_skip, IH.
      * apply perm_swap.
Qed.

Lemma Array_sort_perm (l : list A) : Permutation (Budget.Array_sort cmp l) l.
Proof.
  induction l as [|x l IH]; simpl.
  - apply perm_nil.
  - eapply Permutation_trans; [apply sort_insert_perm | apply perm_skip, IH].
Qed.

Lemma sort_insert_sorted (x : A) (l : list A) :
  StronglySorted le l -> StronglySorted le (Budget.sort_insert cmp x l).
Proof.
  induction 1 as [|y l Hl IH Hy]; simpl.
  - constructor; constructor.
  - destruct (Qle_bool (cmp x y) 0) eqn:E.
    + apply Qle_bool_iff in E.
      constructor; [constructor; assumption|].
      constructor; [exact E|].
      eapply List.Forall_impl; [|exact Hy].
      intros z Hz. eapply le_trans; [exact E | exact Hz].
    + constructor; [exact IH|].
      assert (Hyx : le y x).
      { destruct (le_total x y) as [H|H]; [|exact H].
        apply Qle_bool_iff in H. unfold le in H. congruence. }
      eapply Permutation_Forall;
        [apply Permutation_sym, sort_insert_perm|].
      constructor; assumption.
Qed.

Lemma Array_sort_sorted (l : list A) : StronglySorted le (Budget.Array_sort cmp l).
Proof.
  induction l as [|x l IH]; simpl.
  - constructor.
  - apply sort_insert_sorted, IH.
Qed.

End Sorting.

Lemma StronglySorted_pairs {A} (R : A -> A -> Prop) (l : list A) :
  StronglySorted R l -> ForallOrdPairs R l.
Proof.
  induction 1 as [|x l _ IH Hx]; constructor; assumption.
Qed.

Lemma StronglySorted_weaken {A} (R S : A -> A -> Prop) (l : list A) :
  (forall a b, R a b -> S a b) -> StronglySorted R l -> StronglySorted S l.
Proof.
  intros HRS. induction 1 as [|x l _ IH Hx]; constructor.
  - exact IH.
  - eapply List.Forall_impl; [|exact Hx]. intros b. apply HRS.
Qed.

Lemma sortDebts_perm (strategy : DebtStrategy) (debts : list Debt) :
  Permutation (Budget.sortDebts strategy debts) debts.
Proof. destruct strategy; apply Array_sort_perm. Qed.

Lemma sortDebts_sorted (strategy : DebtStrategy) (debts : list Debt) :
  StronglySorted (debtBefore strategy) (Budget.sortDebts strategy debts).
Proof.
  destruct strategy; simpl.
  - eapply StronglySorted_weaken;
      [|apply (Array_sort_sorted Budget.bySmallestPrincipal)].
    + intros a b. unfold Budget.bySmallestPrincipal. simpl. lra.
    + intros a b. unfold Budget.bySmallestPrincipal. lra.
    + intros a b c. unfold Budget.bySmallestPrincipal. lra.
  - eapply StronglySorted_weaken;
      [|apply (Array_sort_sorted Budget.byHighestInterest)].
    + intros a b. unfold Budget.byHighestInterest. simpl. lra.
    + intros a b. unfold Budget.byHighestInterest. lra.
    + intros a b c. unfold Budget.byHighestInterest. lra.
Qed.

(** ** The debt loop *)

Section DebtLoop.
Variable rt : Runtime.

Lemma allocateDebts_later (base : Currency) (sorted : list Debt) :
  forall (remaining : Q) (snaps : list DebtSnapshot) (w : World),
    snaps <> [] ->
    exists new,
      fst (Budget.allocateDebts rt base sorted remaining snaps w) = snaps ++ new /\
      Forall2 snapshotOf sorted new /\ Forall paidMinimum new.
Proof.
  induction sorted as [|d rest IH]; intros remaining snaps w Hne; simpl.
  - exists []. rewrite app_nil_r. repeat split; constructor.
  - unfold bind.
    destruct snaps as [|s0 snaps0]; [congruence|].
    rewrite andb_false_r.
    destruct (Fx.createMoney rt _ base base w) as [paid w1].
    edestruct IH as (new & Hres & Hsnap & Hmin);
      [|rewrite Hres; eexists; split; [rewrite <- app_assoc; reflexivity|]].
    + destruct snaps0; discriminate.
    + split; constructor; try assumption; repeat split.
Qed.

Lemma allocateDebts_first (base : Currency) (sorted : list Debt)
    (remaining : Q) (w : World) :
  exists new,
    fst (Budget.allocateDebts rt base sorted remaining [] w) = new /\
    Forall2 snapshotOf sorted new /\ Forall paidMinimum (tl new).
Proof.
  destruct sorted as [|d rest]; simpl.
  - exists []. repeat split; constructor.
  - unfold bind.
    destruct (Fx.createMoney rt _ base base w) as [paid w1].
    edestruct (allocateDebts_later base rest) as (new & Hres & Hsnap & Hmin);
      [|rewrite Hres; eexists; split; [reflexivity|]].
    + discriminate.
    + split; [constructor; [repeat split | assumption] | exact Hmin].
Qed.

Lemma extraPayments_minimum (l : list DebtSnapshot) :
  Forall paidMinimum l -> extraPayments l = [].
Proof.
  induction 1 as [|s l Hs _ IH]; simpl; [reflexivity|].
  unfold paidMinimum in Hs. rewrite Hs. exact IH.
Qed.

End DebtLoop.

(** ** Buckets as created *)

Lemma sumSpent_unspent (cats : list (string * CategoryBudget)) :
  Forall (fun e => cat_spent (snd e) == 0) cats -> sumSpent cats == 0.
Proof.
  induction 1 as [|e cats He _ IH]; simpl; [reflexivity|].
  rewrite He, IH. lra.
Qed.

Lemma obj_set_Forall {A} (P : string * A -> Prop) (o : list (string * A))
    (k : string) (v : A) :
  (forall k', P (k', v)) -> Forall P o -> Forall P (obj_set o k v).
Proof.
  intros Hv. induction 1 as [|[k0 v0] o H0 Ho IH]; simpl.
  - constructor; [apply Hv | constructor].
  - destruct (String.eqb k0 k); constructor; auto.
Qed.

Lemma createBucket_unspent (perCategory : Q) (names : list string) :
  forall acc : list (string * CategoryBudget),
    Forall (fun e => cat_spent (snd e) == 0) acc ->
    Forall (fun e => cat_spent (snd e) == 0)
      (fold_left
         (fun cats name =>
            obj_set cats name
              {| cat_name := name; cat_planned := perCategory; cat_spent := 0;
                 cat_remaining := perCategory; cat_status := UNDER |})
         names acc).
Proof.
  induction names as [|n names IH]; intros acc Hacc; simpl; [exact Hacc|].
  apply IH, obj_set_Forall; [reflexivity | exact Hacc].
Qed.

Lemma createBucket_spec (ty : BucketType) (planned : Q) (base : Currency)
    (names : list string) (w : World) :
  let r := Budget.createBucket ty planned base names w in
  snd r = w /\ bucketConsistent (fst r) /\
  baseAmount (bk_planned (fst r)) = planned.
Proof.
  simpl. repeat split.
  unfold bucketConsistent. simpl.
  symmetry. apply sumSpent_unspent, createBucket_unspent. constructor.
Qed.

Lemma wp_createBucket (ty : BucketType) (planned : Q) (base : Currency)
    (names : list string) (post : BudgetBucket -> World -> Prop) (w : World) :
  (forall b, bucketConsistent b -> baseAmount (bk_planned b) = planned -> post b w) ->
  wp (Budget.createBucket ty planned base names) post w.
Proof.
  intros Hpost.
  destruct (createBucket_spec ty planned base names w) as (Hw & Hc & Hp).
  apply wp_pure; [exact Hw|]. now apply Hpost.
Qed.

Lemma mkInsight_fields (ty : InsightType) (msg : Message)
    (b : option BucketType) (c : option string) (w : World) :
  let i := fst (Budget.mkInsight ty msg b c w) in
  ins_type i = ty /\ ins_bucket i = b /\ ins_category i = c.
Proof. simpl. auto. Qed.

Lemma wp_optional_insight (c : bool) (ty : InsightType) (msg : Message)
    (b : option BucketType) (cat : option string)
    (post : list BudgetInsight -> World -> Prop) (w : World) :
  (forall l w',
      sameState w w' ->
      Forall (fun i => ins_type i = ty /\ ins_bucket i = b) l -> post l w') ->
  wp (if c then let* i := Budget.mkInsight ty msg b cat in ret [i] else ret [])
     post w.
Proof.
  intros Hpost. destruct c.
  - apply wp_bind, (wp_call sameState); [apply mkInsight_state|].
    intros i w' Ei Fi. apply wp_ret, Hpost; [exact Fi|].
    apply (f_equal fst) in Ei. simpl fst in Ei. subst i.
    constructor; [split; reflexivity | constructor].
  - apply wp_ret, Hpost; [apply sameState_refl | constructor].
Qed.

Lemma Qltb_floor (a b : Q) : Qltb (if Qltb a b then b else a) b = false.
Proof.
  destruct (Qltb a b) eqn:E; [|exact E].
  apply Qltb_ge. lra.
Qed.

Lemma floor_le (a b : Q) : b <= (if Qltb a b then b else a).
Proof.
  destruct (Qltb a b) eqn:E; [lra|]. now apply Qltb_ge.
Qed.

(** ** Plans *)

Section Plans.
Variable rt : Runtime.

(** What [generateBudgetPlan] returns and stores. *)
Lemma generateBudgetPlan_shape (userId month : string) (base : Currency)
    (incomes : list IncomeSource) (debts : list Debt) (goals : list Goal)
    (rules : option BudgetRuleSet) (w : World) :
  let rules' := effectiveRules userId (epochMs (clock w)) rules in
  let total := totalIncomeBaseOf incomes in
  wp (Budget.generateBudgetPlan rt userId month base incomes debts goals rules)
    (fun plan w' =>
       budgetPlans w' = <[Budget.getPlanKey userId month := plan]> (budgetPlans w) /\
       transactions w' = transactions w /\
       clock w' = clock w /\
       plan_totalIncome plan = fst (Fx.createMoney rt total base base w) /\
       (exists debtPlanned w1,
           plan_debtsSnapshot plan =
           fst (Budget.allocateDebts rt base
                  (Budget.sortDebts (rs_debtStrategy rules') debts)
                  debtPlanned [] w1)) /\
       baseAmount (bk_planned (b_SAVINGS (plan_buckets plan))) =
         (if Qltb (percentSavings rules' total) (savingsFloor rules' total)
          then savingsFloor rules' total else percentSavings rules' total) /\
       planConsistent plan /\
       existsb isSavingsWarning (plan_insights plan) = false) w.
Proof.
  intros rules' total.
  unfold Budget.generateBudgetPlan.
  apply wp_bind, wp_pure; [reflexivity|].
  change (fst (Date_now w)) with (epochMs (clock w)).
  fold (effectiveRules userId (epochMs (clock w)) rules). fold rules'.
  fold (totalIncomeBaseOf incomes). fold total.
  apply wp_bind, (wp_call sameStores); [apply createMoney_stores|].
  intros totalIncome w1 E1 F1.
  apply wp_bind, (wp_call sameStores); [apply allocateDebts_stores|].
  intros debtSnapshots w2 E2 F2.
  pose proof (sameStores_trans _ _ _ F1 F2) as F12. clear F1 F2.
  apply wp_bind, (wp_call sameStores);
    [apply sameState_sameStores, (preserves_forM sameState sameState_refl sameState_trans);
     intros g; apply goalSnapshot_state|].
  intros goalsSnapshots w3 _ F3.
  pose proof (sameStores_trans _ _ _ F12 F3) as F. clear F12 F3.
  set (debtPlanned := if Qltb (total * pct_debt _ / 100) _ then _ else _) in *.
  apply wp_bind, wp_createBucket. intros needs Cneeds _.
  apply wp_bind, wp_createBucket. intros wants Cwants _.
  apply wp_bind, wp_createBucket. intros savings Csavings Psavings.
  apply wp_bind, wp_createBucket. intros debt Cdebt _.
  rewrite Qltb_floor.
  apply wp_bind, wp_ret.
  apply wp_bind, wp_optional_insight. intros insights2 w4 [F4 _] Hins.
  pose proof (sameStores_trans _ _ _ F F4) as (Hplans & Htx & Hclock).
  unfold wp. cbn.
  rewrite E1.
  repeat split; try assumption; try congruence.
  - exists debtPlanned, w1. now rewrite E2.
  - intros [| | |]; assumption.
  - clear -Hins. induction Hins as [|i l [Hty Hb] _ IH]; simpl; [reflexivity|].
    unfold isSavingsWarning at 1. rewrite Hty. exact IH.
Qed.

End Plans.

(** ** Claims *)

Section Claims.
Variable rt : Runtime.

(** The savings warning of step 8 is never emitted: the test reads the
    allocation after step 3 has raised it to the floor. *)
Lemma generateBudgetPlan_never_warns_savings (userId month : string)
    (base : Currency) (incomes : list IncomeSource) (debts : list Debt)
    (goals : list Goal) (rules : option BudgetRuleSet) (w : World) :
  existsb isSavingsWarning
    (plan_insights
       (fst (Budget.generateBudgetPlan rt userId month base incomes debts goals rules w)))
  = false.
Proof.
  apply (generateBudgetPlan_shape rt userId month base incomes debts goals rules w).
Qed.

(** C4. The debt snapshots of a generated plan are the snapshots, position
    by position, of a rearrangement of the given debts in which every debt
    has priority over all later ones: no lower interest rate under
    avalanche, no larger outstanding principal under snowball. *)
Theorem debtsSnapshot_ordered (userId month : string) (base : Currency)
    (incomes : list IncomeSource) (debts : list Debt) (goals : list Goal)
    (rules : option BudgetRuleSet) (w : World) :
  let plan :=
    fst (Budget.generateBudgetPlan rt userId month base incomes debts goals rules w) in
  let strategy := rs_debtStrategy (effectiveRules userId (epochMs (clock w)) rules) in
  exists sorted : list Debt,
    Permutation sorted debts /\
    Forall2 snapshotOf sorted (plan_debtsSnapshot plan) /\
    ForallOrdPairs (debtBefore strategy) sorted.
Proof.
  intros plan strategy.
  destruct (generateBudgetPlan_shape rt userId month base incomes debts goals rules w)
    as (_ & _ & _ & _ & (debtPlanned & w1 & Hsnaps) & _).
  fold plan in Hsnaps. fold strategy in Hsnaps.
  exists (Budget.sortDebts strategy debts).
  split; [apply sortDebts_perm|].
  split; [|apply StronglySorted_pairs, sortDebts_sorted].
  destruct (allocateDebts_first rt base (Budget.sortDebts strategy debts) debtPlanned w1)
    as (new & Hnew & Hof & _).
  rewrite Hsnaps, Hnew. exact Hof.
Qed.

(** C5. At most one debt snapshot of a generated plan has
    [isMinimumPayment == false]. *)
Theorem at_most_one_extra_payment (userId month : string) (base : Currency)
    (incomes : list IncomeSource) (debts : list Debt) (goals : list Goal)
    (rules : option BudgetRuleSet) (w : World) :
  let plan :=
    fst (Budget.generateBudgetPlan rt userId month base incomes debts goals rules w) in
  (length (extraPayments (plan_debtsSnapshot plan)) <= 1)%nat.
Proof.
  intros plan.
  destruct (generateBudgetPlan_shape rt userId month base incomes debts goals rules w)
    as (_ & _ & _ & _ & (debtPlanned & w1 & Hsnaps) & _).
  fold plan in Hsnaps. rewrite Hsnaps.
  destruct (allocateDebts_first rt base
              (Budget.sortDebts
                 (rs_debtStrategy (effectiveRules userId (epochMs (clock w)) rules))
                 debts) debtPlanned w1)
    as (new & -> & _ & Hmin).
  destruct new as [|s new]; simpl; [lia|].
  simpl in Hmin. rewrite (extraPayments_minimum _ Hmin).
  destruct (ds_isMinimumPayment s); simpl; lia.
Qed.

(** C6, as amended. For a planned amount that is not negative, the status
    is OVER iff [spent > planned] and [planned != 0], NEAR_LIMIT iff
    [planned != 0] and [0.8 * planned <= spent <= planned], and UNDER
    otherwise; it is UNDER whenever [planned == 0]. *)
Theorem calculateStatus_nonneg_planned (spent planned : Q) :
  0 <= planned ->
  (Budget.calculateStatus spent planned = OVER <-> planned < spent /\ ~ planned == 0) /\
  (Budget.calculateStatus spent planned = NEAR_LIMIT <->
     ~ planned == 0 /\ (8 # 10) * planned <= spent /\ spent <= planned) /\
  (Budget.calculateStatus spent planned = UNDER <->
     ~ (planned < spent /\ ~ planned == 0) /\
     ~ (~ planned == 0 /\ (8 # 10) * planned <= spent /\ spent <= planned)) /\
  (planned == 0 -> Budget.calculateStatus spent planned = UNDER).
Proof.
  intros Hp.
  destruct (calculateStatus_case spent planned) as [Hz | Hnz Hr | Hnz Hr1 Hr2 | Hnz Hr].
  - repeat split; try discriminate; try tauto; intros; lra.
  - assert (Hpos : 0 < planned) by lra.
    apply (ratio_pos spent planned 1 Hpos) in Hr.
    repeat split; try discriminate; try tauto; intros; try lra.
  - assert (Hpos : 0 < planned) by lra.
    apply (ratio_pos_le spent planned (8 # 10) Hpos) in Hr2.
    assert (Hr1' : ~ 1 < spent / planned) by lra.
    rewrite (ratio_pos spent planned 1 Hpos) in Hr1'.
    repeat split; try discriminate; try tauto; intros; try lra.
  - assert (Hpos : 0 < planned) by lra.
    assert (Hr' : ~ 8 # 10 <= spent / planned) by lra.
    rewrite (ratio_pos_le spent planned (8 # 10) Hpos) in Hr'.
    repeat split; try discriminate; try tauto; intros; try lra.
Qed.

(** Under a negative planned amount the comparisons are mirrored. *)
Lemma calculateStatus_negative_planned (spent planned : Q) :
  planned < 0 ->
  (Budget.calculateStatus spent planned = OVER <-> spent < planned) /\
  (Budget.calculateStatus spent planned = NEAR_LIMIT <->
     planned <= spent /\ spent <= (8 # 10) * planned).
Proof.
  intros Hp.
  destruct (calculateStatus_case spent planned) as [Hz | Hnz Hr | Hnz Hr1 Hr2 | Hnz Hr].
  - lra.
  - apply (ratio_neg spent planned 1 Hp) in Hr.
    repeat split; try discriminate; intros; lra.
  - apply (ratio_neg_le spent planned (8 # 10) Hp) in Hr2.
    assert (Hr1' : ~ 1 < spent / planned) by lra.
    rewrite (ratio_neg spent planned 1 Hp) in Hr1'.
    repeat split; try discriminate; intros; lra.
  - assert (Hr' : ~ 8 # 10 <= spent / planned) by lra.
    rewrite (ratio_neg_le spent planned (8 # 10) Hp) in Hr'.
    repeat split; try discriminate; intros; lra.
Qed.

(** With an identity rate for the pair [(X, X)], conversion is the
    identity. *)
Lemma createMoney_identity (amt : Q) (X : Currency) (w : World) :
  selfRateIsOne w X = true ->
  baseAmount (fst (Fx.createMoney rt amt X X w)) == amt /\
  fxRate (fst (Fx.createMoney rt amt X X w)) == 1.
Proof.
  intros Hw.
  destruct (createMoney_fields rt amt X X w) as (_ & _ & Hrate & Hbase).
  pose proof (fetchFxRate_self_rate rt X w Hw) as Hone.
  rewrite <- Hrate in Hone. rewrite Hbase, Hone.
  split; [ring | reflexivity].
Qed.

(** C7, as amended. From every state of the rate cache in which no entry
    that is still fresh for the pair [(X, X)] carries a rate other than 1,
    [createMoney(amount, X, X)] returns a Money with
    [baseAmount == amount] and [fxRate == 1]. *)
Theorem createMoney_same_currency (amt : Q) (X : Currency) (w : World) :
  selfRateIsOne w X = true ->
  let money := fst (Fx.createMoney rt amt X X w) in
  baseAmount money == amt /\ fxRate money == 1.
Proof.
  intros Hw money. now apply createMoney_identity.
Qed.

(** C8, as amended. When no entry that is still fresh for the pair
    (baseCurrency, baseCurrency) carries a rate other than 1, the plan
    returned by [generateBudgetPlan] satisfies
    [SAVINGS.planned.baseAmount >= totalIncome.baseAmount * (minSavingsPercent / 100)]:
    the floor is the product that step 3 computes, in which the
    percentage is divided by 100 before it multiplies the income. *)
Theorem savings_floor (userId month : string) (base : Currency)
    (incomes : list IncomeSource) (debts : list Debt) (goals : list Goal)
    (rules : option BudgetRuleSet) (w : World) :
  selfRateIsOne w base = true ->
  let plan :=
    fst (Budget.generateBudgetPlan rt userId month base incomes debts goals rules w) in
  let minSavingsPercent :=
    rs_minSavingsPercent (effectiveRules userId (epochMs (clock w)) rules) in
  baseAmount (plan_totalIncome plan) * (minSavingsPercent / 100) <=
  baseAmount (bk_planned (b_SAVINGS (plan_buckets plan))).
Proof.
  intros Hw plan minSavingsPercent.
  destruct (generateBudgetPlan_shape rt userId month base incomes debts goals rules w)
    as (_ & _ & _ & Htotal & _ & Hsavings & _).
  fold plan in Htotal, Hsavings.
  destruct (createMoney_identity (totalIncomeBaseOf incomes) base w Hw) as [Hbase _].
  rewrite <- Htotal in Hbase.
  rewrite Hsavings, Hbase.
  apply floor_le.
Qed.

(** The floor always holds against the income that was summed, which is
    the [amount] of the plan's total income. *)
Lemma floor_of_summed_income (userId month : string) (base : Currency)
    (incomes : list IncomeSource) (debts : list Debt) (goals : list Goal)
    (rules : option BudgetRuleSet) (w : World) :
  let plan :=
    fst (Budget.generateBudgetPlan rt userId month base incomes debts goals rules w) in
  let minSavingsPercent :=
    rs_minSavingsPercent (effectiveRules userId (epochMs (clock w)) rules) in
  amount (plan_totalIncome plan) = totalIncomeBaseOf incomes /\
  amount (plan_totalIncome plan) * (minSavingsPercent / 100) <=
  baseAmount (bk_planned (b_SAVINGS (plan_buckets plan))).
Proof.
  intros plan minSavingsPercent.
  destruct (generateBudgetPlan_shape rt userId month base incomes debts goals rules w)
    as (_ & _ & _ & Htotal & _ & Hsavings & _).
  fold plan in Htotal, Hsavings.
  destruct (createMoney_fields rt (totalIncomeBaseOf incomes) base base w) as (Hamt & _).
  rewrite <- Htotal in Hamt.
  split; [exact Hamt|].
  rewrite Hsavings, Hamt.
  apply floor_le.
Qed.

(** C9. [generateInsights] changes neither the plan store, nor the
    transaction store, nor the rate cache, nor the clock: every stored
    plan, with its buckets, categories, snapshots, insight list and
    timestamps, reads the same afterwards. The insights are the returned
    value only. *)
Theorem generateInsights_reads_only (plan : MonthlyBudgetPlan) (w : World) :
  let w' := snd (Budget.generateInsights rt plan w) in
  budgetPlans w' = budgetPlans w /\
  transactions w' = transactions w /\
  fxRateCache w' = fxRateCache w /\
  clock w' = clock w.
Proof.
  destruct (generateInsights_state rt plan w) as [(Hp & Ht & Hc) Hf].
  simpl. auto.
Qed.

End Claims.

(** ** The claims on concrete runs *)

(** C1. An income of 1000 under rules that allocate 25% to savings with a
    50% floor: the percentage-derived allocation (250) is below the floor
    (500), and the returned plan carries no warning for SAVINGS. *)
Theorem savings_below_floor_not_warned :
  let rules := Scenario.thriftyRules in
  let incomes := [Scenario.salary 1000] in
  let plan :=
    fst (Budget.generateBudgetPlan Scenario.offline "u1" "2026-01" "AED"
           incomes [] [] (Some rules) Scenario.start) in
  percentSavings rules (totalIncomeBaseOf incomes)
    < savingsFloor rules (totalIncomeBaseOf incomes) /\
  baseAmount (bk_planned (b_SAVINGS (plan_buckets plan))) == 500 /\
  existsb isSavingsWarning (plan_insights plan) = false /\
  plan_insights plan = [].
Proof.
  repeat split.
Qed.

(** C2. Two expenses of 10 in the unplanned category "pets": after the
    first the category is OVER; after the second it has planned 0, spent
    20 and status UNDER. *)
Theorem unplanned_category_reverts_to_under :
  let lookup (ops : list Op) :=
    match budgetPlans (run Scenario.offline ops Scenario.start) !! "u1_2026-01" with
    | Some plan => obj_get (bk_categories (b_NEEDS (plan_buckets plan))) "pets"
    | None => None
    end in
  (exists cat,
      lookup (firstn 2 Scenario.petsTwice) = Some cat /\
      cat_planned cat == 0 /\ cat_spent cat == 10 /\ cat_status cat = OVER) /\
  (exists cat,
      lookup Scenario.petsTwice = Some cat /\
      cat_planned cat == 0 /\ cat_spent cat == 20 /\ 0 < cat_spent cat /\
      cat_status cat = UNDER).
Proof.
  split; eexists; (split; [vm_compute; reflexivity|]); repeat split.
Qed.

(** C3. A single debt with outstanding principal 50 and minimum payment
    100, against a debt budget of 1500: the snapshot is allocated 50. *)
Theorem first_debt_below_minimum :
  let plan :=
    fst (Budget.generateBudgetPlan Scenario.offline "u1" "2026-01" "AED"
           [Scenario.salary 10000] [Scenario.nearlyPaid] [] None Scenario.start) in
  baseAmount (bk_planned (b_DEBT (plan_buckets plan))) == 1500 /\
  exists s,
    plan_debtsSnapshot plan = [s] /\
    ds_debtId s = debt_id Scenario.nearlyPaid /\
    baseAmount (debt_minMonthlyPayment Scenario.nearlyPaid) == 100 /\
    baseAmount (ds_allocatedPayment s) == 50 /\
    baseAmount (ds_allocatedPayment s)
      < baseAmount (debt_minMonthlyPayment Scenario.nearlyPaid) /\
    ds_isMinimumPayment s = false.
Proof.
  split; [reflexivity|].
  eexists. split; [vm_compute; reflexivity|]. repeat split.
Qed.


(** C6, the claim as stated fails: with planned -10 and spent -20 the
    status is OVER although spent is not above planned. *)
Lemma calculateStatus_negative_planned_counterexample :
  ~ (Budget.calculateStatus (-20) (-10) = OVER <-> -10 < -20 /\ ~ -10 == 0).
Proof.
  intros [H _]. destruct (H eq_refl) as [Hlt _]. discriminate Hlt.
Qed.

(** C6, an instance: 900 spent against the 5000/6 planned for groceries. *)
Lemma calculateStatus_nonneg_planned_witness :
  0 <= 5000 # 6 /\
  (Budget.calculateStatus 900 (5000 # 6) = OVER <->
     5000 # 6 < 900 /\ ~ 5000 # 6 == 0).
Proof.
  assert (H : 0 <= 5000 # 6) by discriminate.
  split; [exact H|].
  exact (proj1 (calculateStatus_nonneg_planned 900 (5000 # 6) H)).
Defined.

(** C7, the claim as stated fails: after [setFxRate("AED", "AED", 2)],
    [createMoney(100, "AED", "AED")] has baseAmount 200 and fxRate 2. *)
Lemma createMoney_same_currency_counterexample :
  ~ (baseAmount
       (fst (Fx.createMoney Scenario.offline 100 "AED" "AED" Scenario.doubledSelfRate))
     == 100 /\
     fxRate
       (fst (Fx.createMoney Scenario.offline 100 "AED" "AED" Scenario.doubledSelfRate))
     == 1).
Proof.
  intros [H _]. vm_compute in H. discriminate H.
Qed.

(** C7, an instance: the first conversion after the modules are loaded. *)
Lemma createMoney_same_currency_witness :
  selfRateIsOne Scenario.start "AED" = true /\
  baseAmount (fst (Fx.createMoney Scenario.offline 100 "AED" "AED" Scenario.start))
  == 100 /\
  fxRate (fst (Fx.createMoney Scenario.offline 100 "AED" "AED" Scenario.start))
  == 1.
Proof.
  split; [reflexivity|].
  apply (createMoney_same_currency Scenario.offline 100 "AED" Scenario.start).
  reflexivity.
Defined.

(** C8, the claim as stated fails: after [setFxRate("AED", "AED", 2)] an
    income of 1000 under the default rules gives a total income with
    baseAmount 2000, whose 10% is 200, and a savings bucket of 150. *)
Lemma savings_floor_counterexample :
  ~ (baseAmount
       (plan_totalIncome
          (fst (Budget.generateBudgetPlan Scenario.offline "u1" "2026-01" "AED"
                  [Scenario.salary 1000] [] [] None Scenario.doubledSelfRate)))
     * 10 / 100
     <= baseAmount
          (bk_planned
             (b_SAVINGS
                (plan_buckets
                   (fst (Budget.generateBudgetPlan Scenario.offline "u1" "2026-01"
                           "AED" [Scenario.salary 1000] [] [] None
                           Scenario.doubledSelfRate)))))).
Proof.
  intros H. vm_compute in H. apply H. reflexivity.
Qed.

(** C8, an instance: an income of 10000 under the default rules. *)
Lemma savings_floor_witness :
  selfRateIsOne Scenario.start "AED" = true /\
  baseAmount
    (plan_totalIncome
       (fst (Budget.generateBudgetPlan Scenario.offline "u1" "2026-01" "AED"
               [Scenario.salary 10000] [] [] None Scenario.start)))
  * (10 / 100)
  <= baseAmount
       (bk_planned
          (b_SAVINGS
             (plan_buckets
                (fst (Budget.generateBudgetPlan Scenario.offline "u1" "2026-01"
                        "AED" [Scenario.salary 10000] [] [] None Scenario.start))))).
Proof.
  split; [reflexivity|].
  apply (savings_floor Scenario.offline "u1" "2026-01" "AED"
           [Scenario.salary 10000] [] [] None Scenario.start).
  reflexivity.
Defined.

(** * Further properties *)

(** ** FX rate cache *)

Section FxCache.
Variable rt : Runtime.

Lemma fetchFxRate_hit (from to : Currency) (w : World) (c : FxRate) :
  cachedFresh w from to = Some c -> Fx.fetchFxRate rt from to w = (c, w).
Proof.
  unfold cachedFresh, Fx.fetchFxRate, bind, fxRateCache_get, Date_now, ret.
  destruct (fxRateCache w !! Fx.getCacheKey from to) as [c0|]; [|discriminate].
  destruct (Fx.fresh (epochMs (clock w)) c0); [|discriminate].
  now intros [= ->].
Qed.

Lemma fetchFxRate_miss_eq (from to : Currency) (w : World) :
  cachedFresh w from to = None ->
  Fx.fetchFxRate rt from to w
  = Fx.fetchFxRate_miss rt from to (Fx.getCacheKey from to) w.
Proof.
  unfold cachedFresh, Fx.fetchFxRate, bind, fxRateCache_get, Date_now, ret.
  destruct (fxRateCache w !! Fx.getCacheKey from to) as [c0|]; [|reflexivity].
  destruct (Fx.fresh (epochMs (clock w)) c0); [discriminate | reflexivity].
Qed.

(** What a fetch that missed the cache returns and stores. *)
Lemma fetchFxRate_miss_spec (from to : Currency) (key : string) (w : World) :
  exists rate,
    Fx.fetchFxRate_miss rt from to key w
    = (Fx.mkRate from to rate (epochMs (clock w)),
       snd (fxRateCache_set key (Fx.mkRate from to rate (epochMs (clock w))) w)) /\
    ~ rate == 0 /\
    (String.eqb from to = true -> rate = 1) /\
    (String.eqb from to = false ->
     liveRates rt (epochMs (clock w)) from = None ->
     rate = num_or (obj_get Fx.DEFAULT_RATES key) 1).
Proof.
  assert (Hor : forall a b, ~ b == 0 -> ~ num_or a b == 0).
  { intros [r|] b Hb; simpl; [|exact Hb].
    destruct (Qeq_bool r 0) eqn:E; [exact Hb | now apply Qeq_bool_false]. }
  assert (H1 : ~ 1 == 0) by discriminate.
  unfold Fx.fetchFxRate_miss, bind, Date_now, fxRateCache_set, ret. simpl.
  destruct (String.eqb from to).
  - exists 1. repeat split; [exact H1 | discriminate].
  - destruct (liveRates rt (epochMs (clock w)) from) as [rates|].
    + eexists. repeat split; [auto | discriminate | discriminate].
    + eexists. repeat split; [auto | discriminate].
Qed.

Lemma fresh_now (from to : Currency) (rate : Q) (now : Timestamp) :
  Fx.fresh now (Fx.mkRate from to rate now) = true.
Proof. unfold Fx.fresh. simpl. rewrite Z.sub_diag. reflexivity. Qed.

(** X1. A rate set by hand is the rate used for the pair as long as the
    clock has advanced by less than an hour. *)
Theorem setFxRate_then_fetch (from to : Currency) (rate : Q) (w : World)
    (later : Clock) :
  (epochMs later - epochMs (clock w) < 3600000)%Z ->
  let w1 := snd (setClock later (snd (Fx.setFxRate from to rate w))) in
  fx_rate (fst (Fx.fetchFxRate rt from to w1)) = rate /\
  snd (Fx.fetchFxRate rt from to w1) = w1.
Proof.
  intros Hlater w1.
  assert (Hhit : cachedFresh w1 from to
                 = Some (Fx.mkRate from to rate (epochMs (clock w)))).
  { unfold cachedFresh, w1. simpl. rewrite lookup_insert_eq.
    unfold Fx.fresh. simpl.
    destruct (epochMs later - epochMs (clock w) <? 3600000)%Z eqn:E;
      [reflexivity|]. apply Z.ltb_ge in E. lia. }
  rewrite (fetchFxRate_hit _ _ _ _ Hhit). split; reflexivity.
Qed.

(** X2. A second lookup of the same pair at the same time is served from
    the cache: it returns the same rate record and changes nothing. *)
Theorem fetchFxRate_repeat (from to : Currency) (w : World) :
  Fx.fetchFxRate rt from to (snd (Fx.fetchFxRate rt from to w))
  = Fx.fetchFxRate rt from to w.
Proof.
  destruct (cachedFresh w from to) as [c|] eqn:E.
  - rewrite (fetchFxRate_hit _ _ _ _ E). simpl. apply fetchFxRate_hit, E.
  - rewrite (fetchFxRate_miss_eq _ _ _ E).
    destruct (fetchFxRate_miss_spec from to (Fx.getCacheKey from to) w)
      as (rate & -> & _).
    apply fetchFxRate_hit.
    unfold cachedFresh. simpl. rewrite lookup_insert_eq, fresh_now. reflexivity.
Qed.

Lemma fetchFxRate_stores_result (from to : Currency) (w : World) :
  let r := Fx.fetchFxRate rt from to w in
  fxRateCache (snd r) !! Fx.getCacheKey from to = Some (fst r) /\
  delete (Fx.getCacheKey from to) (fxRateCache (snd r))
  = delete (Fx.getCacheKey from to) (fxRateCache w).
Proof.
  destruct (cachedFresh w from to) as [c|] eqn:E; simpl.
  - rewrite (fetchFxRate_hit _ _ _ _ E). simpl. split; [|reflexivity].
    unfold cachedFresh in E.
    destruct (fxRateCache w !! Fx.getCacheKey from to) as [c0|]; [|discriminate].
    destruct (Fx.fresh _ c0); congruence.
  - rewrite (fetchFxRate_miss_eq _ _ _ E).
    destruct (fetchFxRate_miss_spec from to (Fx.getCacheKey from to) w)
      as (rate & -> & _).
    simpl. split; [apply lookup_insert_eq | apply delete_insert_eq].
Qed.

(** X3. After a lookup the cache holds, under the pair's key, exactly the
    record that was returned, and every other key is as before. *)
Theorem fetchFxRate_cache (from to : Currency) (w : World) :
  let r := Fx.fetchFxRate rt from to w in
  fxRateCache (snd r) !! Fx.getCacheKey from to = Some (fst r) /\
  delete (Fx.getCacheKey from to) (fxRateCache (snd r))
  = delete (Fx.getCacheKey from to) (fxRateCache w).
Proof. apply fetchFxRate_stores_result. Qed.

(** X4. A rate that had to be fetched is never zero, whatever the
    provider answered. *)
Theorem fetched_rate_nonzero (from to : Currency) (w : World) :
  cachedFresh w from to = None ->
  ~ fx_rate (fst (Fx.fetchFxRate rt from to w)) == 0.
Proof.
  intros E. rewrite (fetchFxRate_miss_eq _ _ _ E).
  destruct (fetchFxRate_miss_spec from to (Fx.getCacheKey from to) w)
    as (rate & -> & Hrate & _).
  exact Hrate.
Qed.

Lemma DEFAULT_RATES_nonzero (key : string) (r : Q) :
  obj_get Fx.DEFAULT_RATES key = Some r -> Qeq_bool r 0 = false.
Proof.
  unfold Fx.DEFAULT_RATES. simpl.
  repeat match goal with
         | |- (if ?b then _ else _) = _ -> _ =>
             destruct b; [now intros [= <-]|]
         end.
  discriminate.
Qed.

(** X5. With the provider unavailable and nothing fresh in the cache, a
    pair of different currencies gets the rate of the default table, and
    a pair the table does not list gets the rate 1. *)
Theorem fetchFxRate_offline (from to : Currency) (w : World) :
  cachedFresh w from to = None ->
  String.eqb from to = false ->
  liveRates rt (epochMs (clock w)) from = None ->
  fx_rate (fst (Fx.fetchFxRate rt from to w))
  = match obj_get Fx.DEFAULT_RATES (Fx.getCacheKey from to) with
    | Some r => r
    | None => 1
    end.
Proof.
  intros E Hne Hdown. rewrite (fetchFxRate_miss_eq _ _ _ E).
  destruct (fetchFxRate_miss_spec from to (Fx.getCacheKey from to) w)
    as (rate & -> & _ & _ & Hoff).
  cbn [fst Fx.mkRate fx_rate]. rewrite (Hoff Hne Hdown).
  destruct (obj_get Fx.DEFAULT_RATES (Fx.getCacheKey from to)) as [r|] eqn:Er;
    unfold num_or; [|reflexivity].
  now rewrite (DEFAULT_RATES_nonzero _ _ Er).
Qed.

(** X6. A Money records its provenance: [baseAmount] is [amount] times
    [fxRate], and [fxRate] and [fxTimestamp] are those of the cache entry
    that the pair has once the call returns. *)
Theorem createMoney_provenance (amt : Q) (cur base : Currency) (w : World) :
  let money := fst (Fx.createMoney rt amt cur base w) in
  let w' := snd (Fx.createMoney rt amt cur base w) in
  amount money = amt /\ currency money = cur /\
  baseAmount money = amt * fxRate money /\
  exists entry,
    fxRateCache w' !! Fx.getCacheKey cur base = Some entry /\
    fx_rate entry = fxRate money /\ fx_timestamp entry = fxTimestamp money.
Proof.
  pose proof (fetchFxRate_stores_result cur base w) as Hcache.
  unfold Fx.createMoney, Fx.convertCurrency, bind, ret. simpl in *.
  destruct (Fx.fetchFxRate rt cur base w) as [r w1]. simpl in *.
  repeat split. exists r. repeat split. apply Hcache.
Qed.

End FxCache.

(** ** Same-currency histories *)

Lemma keepsIdentity_refl (w : World) : keepsIdentity w w.
Proof. exact (fun H => H). Qed.

Lemma keepsIdentity_trans (w1 w2 w3 : World) :
  keepsIdentity w1 w2 -> keepsIdentity w2 w3 -> keepsIdentity w1 w3.
Proof. unfold keepsIdentity. auto. Qed.

Lemma sameState_keepsIdentity {A} (m : M A) :
  preserves sameState m -> preserves keepsIdentity m.
Proof.
  intros Hm w Hw k c. destruct (Hm w) as [_ Hcache]. rewrite Hcache. apply Hw.
Qed.

Lemma budgetPlans_set_state_free k p : preserves keepsIdentity (budgetPlans_set k p).
Proof. intros w Hw. exact Hw. Qed.

Lemma transactions_set_state_free k t : preserves keepsIdentity (transactions_set k t).
Proof. intros w Hw. exact Hw. Qed.

Create HintDb identity.

#[local] Hint Resolve budgetPlans_set_state_free transactions_set_state_free : identity.

Ltac identity_step :=
  match goal with
  | |- preserves keepsIdentity (bind _ _) =>
      apply (preserves_bind keepsIdentity keepsIdentity_trans); [ | intros ?]
  | |- preserves keepsIdentity (ret _) =>
      apply (preserves_ret keepsIdentity keepsIdentity_refl)
  | |- preserves keepsIdentity (if ?b then _ else _) => destruct b
  | |- preserves keepsIdentity (match ?x with _ => _ end) => destruct x
  | |- preserves keepsIdentity _ =>
      solve [ auto with identity
            | apply sameState_keepsIdentity; frame ]
  | |- preserves keepsIdentity _ => progress cbv beta zeta
  end.

Ltac identity := repeat identity_step.

Section SameCurrency.
Variable rt : Runtime.

Lemma identityRates_self (w : World) (X : Currency) :
  identityRates w -> selfRateIsOne w X = true.
Proof.
  intros Hw. unfold selfRateIsOne.
  destruct (fxRateCache w !! Fx.getCacheKey X X) as [c|] eqn:E; [|reflexivity].
  destruct (Fx.fresh _ c); [|reflexivity].
  apply Qeq_bool_iff, (Hw _ _ E).
Qed.

Lemma createMoney_self_identity (amt : Q) (X : Currency) :
  preserves keepsIdentity (Fx.createMoney rt amt X X).
Proof.
  intros w Hw k c.
  pose proof (fetchFxRate_stores_result rt X X w) as [Hkey Hrest].
  pose proof (fetchFxRate_self_rate rt X w (identityRates_self w X Hw)) as Hone.
  unfold Fx.createMoney, Fx.convertCurrency, bind, ret.
  destruct (Fx.fetchFxRate rt X X w) as [r w1]. simpl in *.
  destruct (decide (k = Fx.getCacheKey X X)) as [->|Hk].
  - rewrite Hkey. now intros [= <-].
  - intros Hc. apply (Hw k).
    rewrite <- (lookup_delete_ne (fxRateCache w) (Fx.getCacheKey X X) k),
      <- Hrest, lookup_delete_ne by congruence.
    exact Hc.
Qed.

Lemma allocateDebts_identity base sorted remaining snaps :
  preserves keepsIdentity (Budget.allocateDebts rt base sorted remaining snaps).
Proof.
  revert remaining snaps.
  induction sorted as [|d rest IH]; intros remaining snaps; simpl.
  - identity.
  - identity_step; [apply createMoney_self_identity | apply IH].
Qed.

Lemma generateBudgetPlan_identity userId month base incomes debts goals rules :
  preserves keepsIdentity
    (Budget.generateBudgetPlan rt userId month base incomes debts goals rules).
Proof.
  pose proof createMoney_self_identity. pose proof allocateDebts_identity.
  pose proof (goalSnapshot_state rt).
  unfold Budget.generateBudgetPlan. identity.
Qed.

Lemma logTransaction_identity userId month amt X category bucket description
    date tags :
  preserves keepsIdentity
    (Budget.logTransaction rt userId month amt X X category bucket description
       date tags).
Proof.
  pose proof createMoney_self_identity. pose proof generateBudgetPlan_identity.
  unfold Budget.logTransaction. identity.
Qed.

Lemma step_identity (o : Op) (w : World) :
  sameCurrencyOp o = true -> keepsIdentity w (step rt o w).
Proof.
  destruct o; simpl; intros Ho.
  - apply generateBudgetPlan_identity.
  - apply String.eqb_eq in Ho. subst. apply logTransaction_identity.
  - destruct (budgetPlans w !! _); [|apply keepsIdentity_refl].
    apply sameState_keepsIdentity, generateInsights_state.
  - apply String.eqb_eq in Ho. subst. apply createMoney_self_identity.
  - discriminate.
  - intros _ k c. simpl. rewrite lookup_empty. discriminate.
  - exact (fun H => H).
Qed.

Lemma run_identity (ops : list Op) (w : World) :
  forallb sameCurrencyOp ops = true -> keepsIdentity w (run rt ops w).
Proof.
  revert w. induction ops as [|o ops IH]; intros w; simpl.
  - intros _. apply keepsIdentity_refl.
  - intros [Ho Hops]%andb_true_iff.
    eapply keepsIdentity_trans; [apply step_identity, Ho | apply IH, Hops].
Qed.

Lemma initialWorld_identity (c : Clock) : identityRates (initialWorld c).
Proof. intros k r. simpl. rewrite lookup_empty. discriminate. Qed.

(** X7. After any history of calls that only convert a currency into
    itself (all that the budget routes make), converting an amount from a
    currency into itself is the identity with rate 1. *)
Theorem createMoney_after_same_currency_history (ops : list Op) (c : Clock)
    (amt : Q) (X : Currency) :
  forallb sameCurrencyOp ops = true ->
  let money := fst (Fx.createMoney rt amt X X (run rt ops (initialWorld c))) in
  baseAmount money == amt /\ fxRate money == 1.
Proof.
  intros Hops. apply createMoney_identity, identityRates_self.
  apply (run_identity ops (initialWorld c) Hops), initialWorld_identity.
Qed.

(** X8. A plan generated after such a history has a total income whose
    [baseAmount] is the sum over the active incomes, and its savings
    bucket meets the floor that step 3 computes from that [baseAmount],
    the income times the hundredth of the minimum percentage. *)
Theorem generateBudgetPlan_after_same_currency_history (ops : list Op)
    (c : Clock) (userId month : string) (base : Currency)
    (incomes : list IncomeSource) (debts : list Debt) (goals : list Goal)
    (rules : option BudgetRuleSet) :
  forallb sameCurrencyOp ops = true ->
  let w := run rt ops (initialWorld c) in
  let plan :=
    fst (Budget.generateBudgetPlan rt userId month base incomes debts goals rules w) in
  let minSavingsPercent :=
    rs_minSavingsPercent (effectiveRules userId (epochMs (clock w)) rules) in
  baseAmount (plan_totalIncome plan) == totalIncomeBaseOf incomes /\
  baseAmount (plan_totalIncome plan) * (minSavingsPercent / 100)
  <= baseAmount (bk_planned (b_SAVINGS (plan_buckets plan))).
Proof.
  intros Hops w plan minSavingsPercent.
  assert (Hw : selfRateIsOne w base = true).
  { apply identityRates_self, (run_identity ops (initialWorld c) Hops),
      initialWorld_identity. }
  destruct (generateBudgetPlan_shape rt userId month base incomes debts goals rules w)
    as (_ & _ & _ & Htotal & _ & Hsavings & _).
  fold plan in Htotal, Hsavings.
  destruct (createMoney_identity rt (totalIncomeBaseOf incomes) base w Hw) as [Hbase _].
  rewrite <- Htotal in Hbase.
  split; [exact Hbase|].
  rewrite Hsavings, Hbase.
  apply floor_le.
Qed.

End SameCurrency.

(** ** What a generated plan contains *)

Lemma createBucket_clock (ty : BucketType) (planned : Q) (base : Currency)
    (names : list string) (w1 w2 : World) :
  clock w1 = clock w2 ->
  fst (Budget.createBucket ty planned base names w1)
  = fst (Budget.createBucket ty planned base names w2).
Proof. simpl. now intros ->. Qed.

Lemma wp_createBucket_at (w0 : World) (ty : BucketType) (planned : Q)
    (base : Currency) (names : list string)
    (post : BudgetBucket -> World -> Prop) (w : World) :
  clock w = clock w0 ->
  post (fst (Budget.createBucket ty planned base names w0)) w ->
  wp (Budget.createBucket ty planned base names) post w.
Proof.
  intros Hclock Hpost. apply wp_pure; [reflexivity|].
  now rewrite (createBucket_clock _ _ _ _ _ _ Hclock).
Qed.

Section Generated.
Variable rt : Runtime.

Lemma goalSnapshot_clock (base : Currency) (g : Goal) (w1 w2 : World) :
  clock w1 = clock w2 ->
  fst (Budget.goalSnapshot rt base g w1) = fst (Budget.goalSnapshot rt base g w2).
Proof. simpl. now intros ->. Qed.

Lemma forM_goalSnapshot_clock (base : Currency) (goals : list Goal) :
  forall w1 w2,
    clock w1 = clock w2 ->
    fst (forM (Budget.goalSnapshot rt base) goals w1)
    = fst (forM (Budget.goalSnapshot rt base) goals w2).
Proof.
  induction goals as [|g goals IH]; intros w1 w2 Hclock; [reflexivity|].
  cbn [forM]. unfold bind at 1 3.
  pose proof (goalSnapshot_clock base g w1 w2 Hclock) as Hg.
  pose proof (goalSnapshot_state rt base g w1) as [(_ & _ & Hc1) _].
  pose proof (goalSnapshot_state rt base g w2) as [(_ & _ & Hc2) _].
  destruct (Budget.goalSnapshot rt base g w1) as [s1 w1'].
  destruct (Budget.goalSnapshot rt base g w2) as [s2 w2'].
  simpl in Hg, Hc1, Hc2. subst s2.
  unfold bind.
  assert (Hclock' : clock w1' = clock w2') by congruence.
  specialize (IH w1' w2' Hclock').
  destruct (forM _ goals w1') as [l1 w1''].
  destruct (forM _ goals w2') as [l2 w2'']. simpl in *. now subst.
Qed.

(** The plan that [generateBudgetPlan] assembles, field by field. *)
Lemma generateBudgetPlan_fields (userId month : string) (base : Currency)
    (incomes : list IncomeSource) (debts : list Debt) (goals : list Goal)
    (rules : option BudgetRuleSet) (w : World) :
  let rules' := effectiveRules userId (epochMs (clock w)) rules in
  let total := totalIncomeBaseOf incomes in
  let planned := plannedFor rules' total debts in
  let policy := rs_liabilityOriginPolicy rules' in
  wp (Budget.generateBudgetPlan rt userId month base incomes debts goals rules)
    (fun plan w' =>
       plan_userId plan = userId /\ plan_month plan = month /\
       plan_baseCurrency plan = base /\
       plan_createdAt plan = epochMs (clock w) /\
       plan_updatedAt plan = epochMs (clock w) /\
       plan_debtsSnapshot plan
       = fst (Budget.allocateDebts rt base
                (Budget.sortDebts (rs_debtStrategy rules') debts) (planned DEBT) []
                (snd (Fx.createMoney rt total base base w))) /\
       plan_goalsSnapshot plan = fst (forM (Budget.goalSnapshot rt base) goals w) /\
       b_NEEDS (plan_buckets plan)
       = fst (Budget.createBucket NEEDS (planned NEEDS) base (DEFAULT_CATEGORIES NEEDS) w) /\
       b_WANTS (plan_buckets plan)
       = fst (Budget.createBucket WANTS (planned WANTS) base (DEFAULT_CATEGORIES WANTS) w) /\
       b_SAVINGS (plan_buckets plan)
       = Budget.withSavingsAllocation
           (fst (Budget.createBucket SAVINGS (planned SAVINGS) base
                   (DEFAULT_CATEGORIES SAVINGS) w))
           {| localEmergencyFund := planned SAVINGS * lop_local policy;
              homeCountryInvestments := planned SAVINGS * lop_home policy;
              globalInvestments := planned SAVINGS * lop_global policy |} /\
       b_DEBT (plan_buckets plan)
       = Budget.withDebtAllocation
           (fst (Budget.createBucket DEBT (planned DEBT) base
                   (DEFAULT_CATEGORIES DEBT) w))
           (Budget.debtAllocationOf debts base (plan_debtsSnapshot plan))) w.
Proof.
  intros rules' total planned policy.
  unfold Budget.generateBudgetPlan.
  apply wp_bind, wp_pure; [reflexivity|].
  change (fst (Date_now w)) with (epochMs (clock w)).
  fold (effectiveRules userId (epochMs (clock w)) rules). fold rules'.
  fold (totalIncomeBaseOf incomes). fold total.
  apply wp_bind, (wp_call sameStores); [apply createMoney_stores|].
  intros totalIncome w1 E1 F1.
  apply wp_bind, (wp_call sameStores); [apply allocateDebts_stores|].
  intros debtSnapshots w2 E2 F2.
  pose proof (sameStores_trans _ _ _ F1 F2) as F12.
  apply wp_bind, (wp_call sameStores);
    [apply sameState_sameStores, (preserves_forM sameState sameState_refl sameState_trans);
     intros g; apply goalSnapshot_state|].
  intros goalsSnapshots w3 E3 F3.
  pose proof (sameStores_trans _ _ _ F12 F3) as (_ & _ & Hclock3).
  apply wp_bind, (wp_createBucket_at w); [exact Hclock3|].
  apply wp_bind, (wp_createBucket_at w); [exact Hclock3|].
  apply wp_bind, (wp_createBucket_at w); [exact Hclock3|].
  apply wp_bind, (wp_createBucket_at w); [exact Hclock3|].
  apply wp_bind, wp_optional_insight. intros insights1 w4 [F4 _] _.
  apply wp_bind, wp_optional_insight. intros insights2 w5 [F5 _] _.
  pose proof (sameStores_trans _ _ _ F4 F5) as (_ & _ & Hclock5).
  unfold wp. cbn.
  rewrite Hclock5, Hclock3.
  apply (f_equal fst) in E2, E3. simpl in E2, E3.
  apply (f_equal snd) in E1. simpl in E1.
  destruct F12 as (_ & _ & Hclock2).
  repeat split.
  - rewrite E1. symmetry. exact E2.
  - rewrite <- E3. apply forM_goalSnapshot_clock. exact Hclock2.
Qed.

End Generated.

Lemma raisedTo_cases (planned floor : Q) :
  planned <= raisedTo planned floor /\ floor <= raisedTo planned floor /\
  (raisedTo planned floor = planned \/ raisedTo planned floor = floor).
Proof.
  unfold raisedTo. destruct (Qltb planned floor) eqn:E.
  - apply Qltb_lt in E. repeat split; [lra | lra | now right].
  - apply Qltb_ge in E. repeat split; [lra | lra | now left].
Qed.

Lemma filter_partition {A} (p : A -> bool) (l : list A) :
  Permutation (List.filter p l ++ List.filter (fun x => negb (p x)) l) l.
Proof.
  induction l as [|x l IH]; [constructor|].
  cbn [List.filter]. destruct (p x); cbn [negb].
  - simpl. now constructor.
  - symmetry. apply Permutation_cons_app. now symmetry.
Qed.

Section GeneratedPlans.
Variable rt : Runtime.

(** X9. The planned amounts of a generated plan: needs and wants are
    their percentage of the summed income; savings and debt are their
    percentage raised, when it is lower, to the savings floor and to the
    sum of the minimum debt payments. Needs and wants are never reduced
    to pay for a raise. *)
Theorem generateBudgetPlan_planned (userId month : string) (base : Currency)
    (incomes : list IncomeSource) (debts : list Debt) (goals : list Goal)
    (rules : option BudgetRuleSet) (w : World) :
  let plan :=
    fst (Budget.generateBudgetPlan rt userId month base incomes debts goals rules w) in
  let rules' := effectiveRules userId (epochMs (clock w)) rules in
  let pct := rs_buckets rules' in
  let total := amount (plan_totalIncome plan) in
  let planned b := baseAmount (bk_planned (getBucket (plan_buckets plan) b)) in
  total = totalIncomeBaseOf incomes /\
  planned NEEDS = total * pct_needs pct / 100 /\
  planned WANTS = total * pct_wants pct / 100 /\
  total * pct_savings pct / 100 <= planned SAVINGS /\
  total * (rs_minSavingsPercent rules' / 100) <= planned SAVINGS /\
  (planned SAVINGS = total * pct_savings pct / 100 \/
   planned SAVINGS = total * (rs_minSavingsPercent rules' / 100)) /\
  total * pct_debt pct / 100 <= planned DEBT /\
  minDebtPayments debts <= planned DEBT /\
  (planned DEBT = total * pct_debt pct / 100 \/
   planned DEBT = minDebtPayments debts).
Proof.
  intros plan rules' pct total planned.
  destruct (generateBudgetPlan_fields rt userId month base incomes debts goals rules w)
    as (_ & _ & _ & _ & _ & _ & _ & Hn & Hw & Hs & Hd).
  destruct (floor_of_summed_income rt userId month base incomes debts goals rules w)
    as [Htotal _].
  fold plan in Hn, Hw, Hs, Hd, Htotal. fold total in Htotal.
  fold rules' in Hn, Hw, Hs, Hd.
  assert (En : planned NEEDS = total * pct_needs pct / 100).
  { unfold planned. cbn [getBucket]. rewrite Hn, Htotal. reflexivity. }
  assert (Ew : planned WANTS = total * pct_wants pct / 100).
  { unfold planned. cbn [getBucket]. rewrite Hw, Htotal. reflexivity. }
  assert (Es : planned SAVINGS
               = raisedTo (total * pct_savings pct / 100)
                   (total * (rs_minSavingsPercent rules' / 100))).
  { unfold planned. cbn [getBucket]. rewrite Hs, Htotal. reflexivity. }
  assert (Ed : planned DEBT
               = raisedTo (total * pct_debt pct / 100) (minDebtPayments debts)).
  { unfold planned. cbn [getBucket]. rewrite Hd, Htotal. reflexivity. }
  destruct (raisedTo_cases (total * pct_savings pct / 100)
              (total * (rs_minSavingsPercent rules' / 100))) as (Hs1 & Hs2 & Hs3).
  destruct (raisedTo_cases (total * pct_debt pct / 100) (minDebtPayments debts))
    as (Hd1 & Hd2 & Hd3).
  rewrite <- Es in Hs1, Hs2, Hs3. rewrite <- Ed in Hd1, Hd2, Hd3.
  repeat split; assumption.
Qed.

(** X10. Every bucket of a generated plan starts unspent: spent 0,
    remaining equal to planned, status UNDER, and for categories exactly
    the bucket's default names, in order, each with an equal share of the
    planned amount, nothing spent and status UNDER. *)
Theorem generateBudgetPlan_fresh_buckets (userId month : string)
    (base : Currency) (incomes : list IncomeSource) (debts : list Debt)
    (goals : list Goal) (rules : option BudgetRuleSet) (w : World)
    (b : BucketType) :
  let plan :=
    fst (Budget.generateBudgetPlan rt userId month base incomes debts goals rules w) in
  let bucket := getBucket (plan_buckets plan) b in
  let share :=
    baseAmount (bk_planned bucket)
    / inject_Z (Z.of_nat (length (DEFAULT_CATEGORIES b))) in
  bk_type bucket = b /\
  baseAmount (bk_spent bucket) = 0 /\
  bk_remaining bucket = bk_planned bucket /\
  currency (bk_planned bucket) = base /\
  bk_status bucket = UNDER /\
  map fst (bk_categories bucket) = DEFAULT_CATEGORIES b /\
  Forall
    (fun e =>
       cat_name (snd e) = fst e /\ cat_planned (snd e) = share /\
       cat_spent (snd e) = 0 /\ cat_remaining (snd e) = share /\
       cat_status (snd e) = UNDER)
    (bk_categories bucket).
Proof.
  intros plan bucket share.
  destruct (generateBudgetPlan_fields rt userId month base incomes debts goals rules w)
    as (_ & _ & _ & _ & _ & _ & _ & Hn & Hw & Hs & Hd).
  fold plan in Hn, Hw, Hs, Hd.
  unfold share, bucket.
  destruct b; cbn [getBucket]; [rewrite Hn | rewrite Hw | rewrite Hs | rewrite Hd];
    repeat split; repeat constructor.
Qed.

(** X11. The three savings sub-buckets of a generated plan are taken
    from the savings amount the plan ends up with, that is after step 3
    has raised it to the floor: each is that amount times its
    liability-origin weight. Only the savings bucket carries them. *)
Theorem generateBudgetPlan_savingsAllocation (userId month : string)
    (base : Currency) (incomes : list IncomeSource) (debts : list Debt)
    (goals : list Goal) (rules : option BudgetRuleSet) (w : World) :
  let plan :=
    fst (Budget.generateBudgetPlan rt userId month base incomes debts goals rules w) in
  let policy :=
    rs_liabilityOriginPolicy (effectiveRules userId (epochMs (clock w)) rules) in
  let savings := b_SAVINGS (plan_buckets plan) in
  (exists a,
      bk_savingsAllocation savings = Some a /\
      localEmergencyFund a = baseAmount (bk_planned savings) * lop_local policy /\
      homeCountryInvestments a = baseAmount (bk_planned savings) * lop_home policy /\
      globalInvestments a = baseAmount (bk_planned savings) * lop_global policy) /\
  (forall b, b <> SAVINGS ->
             bk_savingsAllocation (getBucket (plan_buckets plan) b) = None).
Proof.
  intros plan policy savings.
  destruct (generateBudgetPlan_fields rt userId month base incomes debts goals rules w)
    as (_ & _ & _ & _ & _ & _ & _ & Hn & Hw & Hs & Hd).
  fold plan in Hn, Hw, Hs, Hd. split.
  - unfold savings. rewrite Hs.
    eexists. split; [reflexivity|]. repeat split.
  - intros b Hb.
    destruct b; cbn [getBucket]; [rewrite Hn | rewrite Hw | congruence | rewrite Hd];
      reflexivity.
Qed.

(** X12. The debt sub-totals of a generated plan split the snapshots in
    two: those whose debt is held in the base currency and all the
    others, so that every snapshot is in exactly one part.
    [baseCurrencyDebt] is the sum of the payments of the first part and
    [homeCountryDebt] that of the second, each added up from 0 in the
    order of the snapshots; [otherDebt] is 0. *)
Theorem generateBudgetPlan_debtAllocation (userId month : string)
    (base : Currency) (incomes : list IncomeSource) (debts : list Debt)
    (goals : list Goal) (rules : option BudgetRuleSet) (w : World) :
  let plan :=
    fst (Budget.generateBudgetPlan rt userId month base incomes debts goals rules w) in
  let inBase := List.filter (heldInBase debts base) (plan_debtsSnapshot plan) in
  let others :=
    List.filter (fun s => negb (heldInBase debts base s)) (plan_debtsSnapshot plan) in
  Permutation (inBase ++ others) (plan_debtsSnapshot plan) /\
  exists a,
    bk_debtAllocation (b_DEBT (plan_buckets plan)) = Some a /\
    baseCurrencyDebt a = Budget.sumAllocated inBase /\
    homeCountryDebt a = Budget.sumAllocated others /\
    otherDebt a = 0.
Proof.
  intros plan inBase others.
  split; [apply filter_partition|].
  destruct (generateBudgetPlan_fields rt userId month base incomes debts goals rules w)
    as (_ & _ & _ & _ & _ & _ & _ & _ & _ & _ & Hd).
  fold plan in Hd. rewrite Hd.
  eexists. split; [reflexivity|].
  cbn [Budget.debtAllocationOf baseCurrencyDebt homeCountryDebt otherDebt].
  repeat split.
  unfold others. f_equal. apply List.filter_ext.
  intros s. unfold heldInBase. destruct (Budget.findDebt debts s); reflexivity.
Qed.

(** X13. Storing then reading: after [generateBudgetPlan] the plan read
    back for the same user and month is the plan that was returned,
    whatever was stored there before; plans under other keys and all
    transactions are untouched. *)
Theorem generateBudgetPlan_then_get (userId month : string) (base : Currency)
    (incomes : list IncomeSource) (debts : list Debt) (goals : list Goal)
    (rules : option BudgetRuleSet) (w : World) :
  let r := Budget.generateBudgetPlan rt userId month base incomes debts goals rules w in
  fst (Budget.getBudgetPlan userId month (snd r)) = Some (fst r) /\
  delete (Budget.getPlanKey userId month) (budgetPlans (snd r))
  = delete (Budget.getPlanKey userId month) (budgetPlans w) /\
  transactions (snd r) = transactions w.
Proof.
  destruct (generateBudgetPlan_shape rt userId month base incomes debts goals rules w)
    as (Hplans & Htx & _).
  simpl. rewrite Hplans.
  split; [apply lookup_insert_eq|]. split; [apply delete_insert_eq | exact Htx].
Qed.

End GeneratedPlans.

(** ** Debt payments and goal projections *)

Lemma Math_min_le (a b : Q) : Math_min a b <= a /\ Math_min a b <= b.
Proof.
  unfold Math_min. destruct (Qle_bool a b) eqn:E.
  - apply Qle_bool_iff in E. split; lra.
  - apply Qle_bool_gt in E. split; lra.
Qed.

Lemma Array_sort_ordered {A} (cmp : A -> A -> Q) (l : list A) :
  StronglySorted (fun a b => cmp a b <= 0) l -> Budget.Array_sort cmp l = l.
Proof.
  induction 1 as [|x l _ IH Hx]; [reflexivity|].
  cbn [Budget.Array_sort fold_right]. fold (Budget.Array_sort cmp l). rewrite IH.
  destruct l as [|y l]; [reflexivity|].
  cbn [Budget.sort_insert].
  apply List.Forall_inv in Hx. apply Qle_bool_iff in Hx. now rewrite Hx.
Qed.

(** X14. Debts that are already in the priority order of the strategy
    keep exactly their order (so sorting twice changes nothing, and debts
    with equal keys are never swapped). *)
Theorem sortDebts_ordered (strategy : DebtStrategy) (debts : list Debt) :
  StronglySorted (debtBefore strategy) debts ->
  Budget.sortDebts strategy debts = debts.
Proof.
  intros Hsorted. destruct strategy; simpl; apply Array_sort_ordered;
    (eapply StronglySorted_weaken; [|exact Hsorted]); intros a b; simpl.
  - unfold Budget.bySmallestPrincipal. lra.
  - unfold Budget.byHighestInterest. lra.
Qed.

Lemma sortDebts_idempotent (strategy : DebtStrategy) (debts : list Debt) :
  Budget.sortDebts strategy (Budget.sortDebts strategy debts)
  = Budget.sortDebts strategy debts.
Proof.
  destruct strategy; simpl; apply Array_sort_ordered, Array_sort_sorted.
  - intros a b. unfold Budget.bySmallestPrincipal. lra.
  - intros a b c. unfold Budget.bySmallestPrincipal. lra.
  - intros a b. unfold Budget.byHighestInterest. lra.
  - intros a b c. unfold Budget.byHighestInterest. lra.
Qed.

Section Payments.
Variable rt : Runtime.

Lemma allocateDebts_later_amounts (budget : Q) (base : Currency)
    (sorted : list Debt) :
  forall (remaining : Q) (snaps : list DebtSnapshot) (w : World),
    snaps <> [] ->
    exists new,
      fst (Budget.allocateDebts rt base sorted remaining snaps w) = snaps ++ new /\
      Forall2 (allocationOf budget base) sorted new.
Proof.
  induction sorted as [|d rest IH]; intros remaining snaps w Hne; simpl.
  - exists []. rewrite app_nil_r. split; constructor.
  - unfold bind.
    destruct snaps as [|s0 snaps0]; [congruence|].
    rewrite andb_false_r.
    pose proof (createMoney_fields rt (baseAmount (debt_minMonthlyPayment d))
                  base base w) as (Hamt & Hcur & _).
    destruct (Fx.createMoney rt _ base base w) as [paid w1]. simpl in Hamt, Hcur.
    edestruct IH as (new & Hres & Hnew);
      [|rewrite Hres; eexists; split; [rewrite <- app_assoc; reflexivity|]].
    + destruct snaps0; discriminate.
    + constructor; [|exact Hnew]. repeat split; assumption.
Qed.

Lemma allocateDebts_first_amounts (base : Currency) (sorted : list Debt)
    (budget : Q) (w : World) :
  Forall2 (allocationOf budget base) sorted
    (fst (Budget.allocateDebts rt base sorted budget [] w)).
Proof.
  destruct sorted as [|d rest]; simpl; [constructor|].
  unfold bind. rewrite andb_true_r.
  match goal with
  | |- context [Fx.createMoney rt ?a base base w] =>
      pose proof (createMoney_fields rt a base base w) as (Hamt & Hcur & _);
      destruct (Fx.createMoney rt a base base w) as [paid w1]
  end.
  simpl in Hamt, Hcur.
  edestruct (allocateDebts_later_amounts budget base rest) as (new & Hres & Hnew);
    [|rewrite Hres].
  - discriminate.
  - constructor; [|exact Hnew].
    repeat split; try assumption. cbn [ds_isMinimumPayment ds_allocatedPayment].
    destruct (Qltb (baseAmount (debt_minMonthlyPayment d)) budget) eqn:E;
      cbn [negb]; [|exact Hamt].
    split; [now apply Qltb_lt | exact Hamt].
Qed.

(** X15. In a generated plan every snapshot flagged [isMinimumPayment]
    is allocated exactly its debt's minimum payment; an unflagged
    snapshot belongs to a debt whose minimum is below the debt budget and
    is allocated the smaller of the debt budget and the outstanding
    principal, hence no more than either. *)
Theorem generateBudgetPlan_payments (userId month : string) (base : Currency)
    (incomes : list IncomeSource) (debts : list Debt) (goals : list Goal)
    (rules : option BudgetRuleSet) (w : World) :
  let plan :=
    fst (Budget.generateBudgetPlan rt userId month base incomes debts goals rules w) in
  let budget := baseAmount (bk_planned (b_DEBT (plan_buckets plan))) in
  exists sorted : list Debt,
    Permutation sorted debts /\
    Forall2
      (fun d s =>
         allocationOf budget base d s /\
         (ds_isMinimumPayment s = false ->
          amount (ds_allocatedPayment s) <= budget /\
          amount (ds_allocatedPayment s)
          <= baseAmount (debt_outstandingPrincipal d)))
      sorted (plan_debtsSnapshot plan).
Proof.
  intros plan budget.
  destruct (generateBudgetPlan_fields rt userId month base incomes debts goals rules w)
    as (_ & _ & _ & _ & _ & Hsnaps & _ & _ & _ & _ & Hd).
  fold plan in Hsnaps, Hd.
  assert (Hbudget : budget
            = plannedFor (effectiveRules userId (epochMs (clock w)) rules)
                (totalIncomeBaseOf incomes) debts DEBT).
  { unfold budget. rewrite Hd. reflexivity. }
  eexists. split; [apply sortDebts_perm|].
  rewrite Hsnaps, <- Hbudget.
  eapply Forall2_impl; [apply allocateDebts_first_amounts|].
  intros d s Halloc. split; [exact Halloc|].
  destruct Halloc as (_ & _ & Hflag). intros Hextra. rewrite Hextra in Hflag.
  destruct Hflag as [_ ->]. apply Math_min_le.
Qed.

Lemma goalSnapshot_projection (base : Currency) (g : Goal) (w : World) :
  projectionOf rt (clock w) base g (fst (Budget.goalSnapshot rt base g w)).
Proof.
  unfold projectionOf. simpl.
  repeat split.
  - destruct (dateYearMonth rt (goal_targetDate g)) as [[y m]|]; [|reflexivity].
    cbv zeta. unfold Math_max0.
    destruct (0 <? (y - nowYear (clock w)) * 12 + (m - nowMonth (clock w)))%Z eqn:E.
    + apply Z.ltb_lt in E. rewrite Z.max_r by lia.
      apply Z.ltb_lt in E. now rewrite E.
    + apply Z.ltb_ge in E. rewrite Z.max_l by lia. reflexivity.
  - intros Hle. destruct (Qltb 0 (baseAmount (goal_targetAmount g))) eqn:E;
      [|reflexivity]. apply Qltb_lt in E. lra.
  - intros Hlt. apply Qltb_lt in Hlt. now rewrite Hlt.
Qed.

Lemma forM_goalSnapshot_projection (base : Currency) (goals : list Goal) :
  forall w,
    Forall2 (projectionOf rt (clock w) base) goals
      (fst (forM (Budget.goalSnapshot rt base) goals w)).
Proof.
  induction goals as [|g goals IH]; intros w; [constructor|].
  cbn [forM]. unfold bind at 1.
  pose proof (goalSnapshot_projection base g w) as Hg.
  pose proof (goalSnapshot_state rt base g w) as [(_ & _ & Hclock) _].
  destruct (Budget.goalSnapshot rt base g w) as [s w1]. simpl in Hg, Hclock.
  unfold bind. specialize (IH w1). rewrite Hclock in IH.
  destruct (forM _ goals w1) as [l w2]. simpl in *.
  constructor; assumption.
Qed.

(** X16. The goal snapshots of a generated plan follow the goals one by
    one and in order. A goal whose target date does not parse, or falls
    in the current month or earlier, gets a monthly contribution of 0;
    otherwise the amount still needed is spread evenly over the months
    left. Progress is 0 for a target that is not positive. *)
Theorem generateBudgetPlan_goals (userId month : string) (base : Currency)
    (incomes : list IncomeSource) (debts : list Debt) (goals : list Goal)
    (rules : option BudgetRuleSet) (w : World) :
  let plan :=
    fst (Budget.generateBudgetPlan rt userId month base incomes debts goals rules w) in
  Forall2 (projectionOf rt (clock w) base) goals (plan_goalsSnapshot plan).
Proof.
  intros plan.
  destruct (generateBudgetPlan_fields rt userId month base incomes debts goals rules w)
    as (_ & _ & _ & _ & _ & _ & Hgoals & _).
  fold plan in Hgoals. rewrite Hgoals.
  apply forM_goalSnapshot_projection.
Qed.

End Payments.

(** ** What a logged transaction changes *)

Lemma wp_optional_insight_content (c : bool) (ty : InsightType) (msg : Message)
    (b : option BucketType) (cat : option string)
    (post : list BudgetInsight -> World -> Prop) (w : World) :
  (forall l w',
      sameState w w' ->
      map insightContent l = (if c then [(ty, msg, b, cat)] else []) ->
      post l w') ->
  wp (if c then let* i := Budget.mkInsight ty msg b cat in ret [i] else ret [])
     post w.
Proof.
  intros Hpost. destruct c.
  - apply wp_bind, (wp_call sameState); [apply mkInsight_state|].
    intros i w' Ei Fi. apply wp_ret, Hpost; [exact Fi|].
    apply (f_equal fst) in Ei. simpl fst in Ei. subst i. reflexivity.
  - apply wp_ret, Hpost; [apply sameState_refl | reflexivity].
Qed.

Section Logged.
Variable rt : Runtime.

Lemma planToUpdate_stores (userId month : string) (base : Currency) (w : World) :
  let r := planToUpdate rt userId month base w in
  transactions (snd r) = transactions w /\ clock (snd r) = clock w /\
  delete (Budget.getPlanKey userId month) (budgetPlans (snd r))
  = delete (Budget.getPlanKey userId month) (budgetPlans w).
Proof.
  unfold planToUpdate.
  destruct (budgetPlans w !! Budget.getPlanKey userId month); [now simpl|].
  destruct (generateBudgetPlan_shape rt userId month base [] [] [] None w)
    as (Hplans & Htx & Hclock & _).
  simpl. rewrite Hplans. repeat split; try assumption. apply delete_insert_eq.
Qed.

(** The result of [logTransaction] and the state it leaves. *)
Lemma logTransaction_shape (userId month : string) (amt : Q)
    (cur base : Currency) (category : string) (bucket : BucketType)
    (description : string) (date : option Timestamp) (tags : list string)
    (w : World) :
  let plan0 := fst (planToUpdate rt userId month base w) in
  let w0 := snd (planToUpdate rt userId month base w) in
  let money := fst (Fx.createMoney rt amt cur base w0) in
  wp (Budget.logTransaction rt userId month amt cur base category bucket
        description date tags)
     (fun r w' =>
        let transaction := fst (fst r) in
        let updatedPlan := snd (fst r) in
        let insights := snd r in
        updatedPlan
        = loggedPlan plan0 bucket category (baseAmount money) insights
            (epochMs (clock w)) /\
        map insightContent insights
        = triggeredInsights bucket (getBucket (plan_buckets updatedPlan) bucket)
            category base /\
        tx_money transaction = money /\
        tx_budgetPlanId transaction = plan_id plan0 /\
        tx_type transaction = (if Qltb amt 0 then income else expense) /\
        tx_userId transaction = userId /\
        tx_category transaction = category /\
        tx_bucket transaction = bucket /\
        tx_date transaction
        = (match date with Some d => d | None => epochMs (clock w) end) /\
        budgetPlans w'
        = <[Budget.getPlanKey userId month := updatedPlan]> (budgetPlans w0) /\
        transactions w'
        = <[tx_id transaction := transaction]> (transactions w0) /\
        clock w' = clock w) w.
Proof.
  intros plan0 w0 money. unfold Budget.logTransaction.
  apply wp_bind, wp_pure; [reflexivity|].
  apply wp_bind, wp_pure; [reflexivity|].
  apply wp_bind.
  assert (Hplan : wp
    (match fst (budgetPlans_get (Budget.getPlanKey userId month) w) with
     | Some p => ret p
     | None => Budget.generateBudgetPlan rt userId month base [] [] [] None
     end)
    (fun plan w1 => plan = plan0 /\ w1 = w0) w).
  { unfold plan0, w0, planToUpdate. simpl fst.
    destruct (budgetPlans w !! _) as [p|]; [now apply wp_ret|].
    unfold wp. split; reflexivity. }
  revert Hplan. unfold wp at 1 2.
  destruct (_ w) as [plan w1]. cbn [fst snd]. intros [-> ->].
  pose proof (planToUpdate_stores userId month base w) as (_ & Hclock0 & _).
  fold w0 in Hclock0.
  apply wp_bind, (wp_call sameStores); [apply createMoney_stores|].
  intros money' w2 E2 F2.
  assert (Hmoney : money' = money) by (unfold money; now rewrite E2).
  subst money'. clear E2.
  apply wp_bind, (wp_call sameStores); [auto with frame|].
  intros txId w3 _ F3.
  apply wp_bind, wp_pure; [reflexivity|].
  apply wp_bind, wp_optional_insight_content. intros near w4 [F4 _] Hnear.
  apply wp_bind, wp_optional_insight_content. intros over w5 [F5 _] Hover.
  apply wp_bind.
  match goal with
  | |- wp (match obj_read ?cats category with _ => _ end) _ _ =>
      assert (Hcat : wp
        (match obj_read cats category with
         | Own cat =>
             if BucketStatus_eqb (cat_status cat) OVER
             then let* i := Budget.mkInsight alert (MsgOverBudgetIn category)
                              (Some bucket) (Some category) in ret [i]
             else ret []
         | Inherited => ret []
         | Undefined => ret []
         end)
        (fun l w6 =>
           sameStores w5 w6 /\
           map insightContent l
           = match obj_get cats category with
             | Some cat =>
                 if BucketStatus_eqb (cat_status cat) OVER
                 then [(alert, MsgOverBudgetIn category, Some bucket, Some category)]
                 else []
             | None => []
             end) w5)
  end.
  { unfold obj_read. destruct (obj_get _ category) as [cat|].
    - apply wp_optional_insight_content. intros l w6 [F6 _] Hl. now split.
    - destruct (inherited category); apply wp_ret;
        (split; [apply sameStores_refl | reflexivity]). }
  revert Hcat. unfold wp at 1 2.
  destruct (_ w5) as [catOver w6]. cbn [fst snd]. intros [F6 Hcat].
  apply wp_bind, wp_pure; [reflexivity|].
  pose proof (sameStores_trans _ _ _
                (sameStores_trans _ _ _
                   (sameStores_trans _ _ _
                      (sameStores_trans _ _ _ F2 F3) F4) F5) F6)
    as (Hplans & Htx & Hclock).
  unfold wp, bind, transactions_set, budgetPlans_set, ret.
  cbn [fst snd budgetPlans transactions clock tx_money tx_budgetPlanId tx_type
       tx_userId tx_category tx_bucket tx_date tx_id Date_now].
  rewrite Hplans, Htx, Hclock, Hclock0.
  assert (Hclock3 : clock w3 = clock w).
  { destruct (sameStores_trans _ _ _ F2 F3) as (_ & _ & H3). congruence. }
  rewrite Hclock3.
  repeat split.
  unfold loggedPlan, triggeredInsights.
  cbn [plan_buckets].
  replace (getBucket (setBucket (plan_buckets plan0) bucket _) bucket)
    with (loggedBucket (getBucket (plan_buckets plan0) bucket) category
            (baseAmount money)) by (destruct bucket; reflexivity).
  rewrite !map_app, Hnear, Hover, Hcat. reflexivity.
Qed.

End Logged.

Lemma obj_get_set_eq {A} (o : list (string * A)) (k : string) (v : A) :
  obj_get (obj_set o k v) k = Some v.
Proof.
  induction o as [|[k0 v0] o IH]; simpl.
  - now rewrite String.eqb_refl.
  - destruct (String.eqb k0 k) eqn:E; simpl; rewrite E; [reflexivity | exact IH].
Qed.

Lemma obj_get_set_ne {A} (o : list (string * A)) (k k' : string) (v : A) :
  k' <> k -> obj_get (obj_set o k v) k' = obj_get o k'.
Proof.
  intros Hne. induction o as [|[k0 v0] o IH]; simpl.
  - destruct (String.eqb k k') eqn:E; [|reflexivity].
    apply String.eqb_eq in E. congruence.
  - destruct (String.eqb k0 k) eqn:E; simpl.
    + apply String.eqb_eq in E. subst k0.
      destruct (String.eqb k k') eqn:E'; [|reflexivity].
      apply String.eqb_eq in E'. congruence.
    + destruct (String.eqb k0 k'); [reflexivity | exact IH].
Qed.

Lemma loggedCategories_other (cats : list (string * CategoryBudget))
    (category k : string) (m : Q) :
  k <> category ->
  obj_get (loggedCategories cats category m) k = obj_get cats k.
Proof.
  intros Hne. unfold loggedCategories, obj_read.
  destruct (obj_get cats category); [now apply obj_get_set_ne|].
  destruct (inherited category); [reflexivity | now apply obj_get_set_ne].
Qed.

Lemma getBucket_setBucket_eq (bs : Buckets) (b : BucketType) (v : BudgetBucket) :
  getBucket (setBucket bs b v) b = v.
Proof. destruct b; reflexivity. Qed.

Lemma getBucket_setBucket_ne (bs : Buckets) (b b' : BucketType) (v : BudgetBucket) :
  b' <> b -> getBucket (setBucket bs b v) b' = getBucket bs b'.
Proof. destruct b, b'; congruence || reflexivity. Qed.

Section LoggedTransactions.
Variable rt : Runtime.

(** X17. Storing then reading: after [logTransaction] the plan read back
    for the user and month is the returned plan, the transaction is
    stored under its own id and points to that plan, the clock is
    unchanged, and plans under every other key are untouched. *)
Theorem logTransaction_then_get (userId month : string) (amt : Q)
    (cur base : Currency) (category : string) (bucket : BucketType)
    (description : string) (date : option Timestamp) (tags : list string)
    (w : World) :
  let r := Budget.logTransaction rt userId month amt cur base category bucket
             description date tags w in
  let transaction := fst (fst (fst r)) in
  let updatedPlan := snd (fst (fst r)) in
  fst (Budget.getBudgetPlan userId month (snd r)) = Some updatedPlan /\
  transactions (snd r) !! tx_id transaction = Some transaction /\
  tx_budgetPlanId transaction = plan_id updatedPlan /\
  delete (Budget.getPlanKey userId month) (budgetPlans (snd r))
  = delete (Budget.getPlanKey userId month) (budgetPlans w) /\
  delete (tx_id transaction) (transactions (snd r))
  = delete (tx_id transaction) (transactions w).
Proof.
  pose proof (logTransaction_shape rt userId month amt cur base category bucket
                description date tags w) as H.
  pose proof (planToUpdate_stores rt userId month base w) as (Htx0 & _ & Hdel).
  unfold wp in H. cbv zeta in H |- *.
  destruct H as (Hplan & _ & _ & Hid & _ & _ & _ & _ & _ & Hplans & Htx & _).
  simpl. rewrite Hplans, Htx, Htx0.
  repeat split.
  - apply lookup_insert_eq.
  - apply lookup_insert_eq.
  - rewrite Hid, Hplan. reflexivity.
  - rewrite delete_insert_eq. exact Hdel.
  - apply delete_insert_eq.
Qed.

(** X18. A transaction logged against a stored plan adds its
    [money.baseAmount] to the spent amount of the one bucket it names,
    recomputes that bucket's remaining amount and status, appends the
    returned insights to the plan's insights and stamps [updatedAt]; the
    other buckets, the planned amounts, the total income, the snapshots
    and the plan's identity are unchanged. *)
Theorem logTransaction_update (userId month : string) (amt : Q)
    (cur base : Currency) (category : string) (bucket : BucketType)
    (description : string) (date : option Timestamp) (tags : list string)
    (w : World) (plan : MonthlyBudgetPlan) :
  budgetPlans w !! Budget.getPlanKey userId month = Some plan ->
  let r := Budget.logTransaction rt userId month amt cur base category bucket
             description date tags w in
  let updatedPlan := snd (fst (fst r)) in
  let insights := snd (fst r) in
  let m := baseAmount (fst (Fx.createMoney rt amt cur base w)) in
  let before := getBucket (plan_buckets plan) bucket in
  let after := getBucket (plan_buckets updatedPlan) bucket in
  plan_id updatedPlan = plan_id plan /\
  plan_userId updatedPlan = plan_userId plan /\
  plan_month updatedPlan = plan_month plan /\
  plan_baseCurrency updatedPlan = plan_baseCurrency plan /\
  plan_totalIncome updatedPlan = plan_totalIncome plan /\
  plan_debtsSnapshot updatedPlan = plan_debtsSnapshot plan /\
  plan_goalsSnapshot updatedPlan = plan_goalsSnapshot plan /\
  plan_createdAt updatedPlan = plan_createdAt plan /\
  plan_updatedAt updatedPlan = epochMs (clock w) /\
  plan_insights updatedPlan = plan_insights plan ++ insights /\
  (forall b, b <> bucket ->
             getBucket (plan_buckets updatedPlan) b = getBucket (plan_buckets plan) b) /\
  bk_planned after = bk_planned before /\
  baseAmount (bk_spent after) = baseAmount (bk_spent before) + m /\
  baseAmount (bk_remaining after)
  = baseAmount (bk_planned after) - baseAmount (bk_spent after) /\
  bk_status after
  = Budget.calculateStatus (baseAmount (bk_spent after))
      (baseAmount (bk_planned after)).
Proof.
  intros Hstored.
  pose proof (logTransaction_shape rt userId month amt cur base category bucket
                description date tags w) as H.
  unfold wp, planToUpdate in H. rewrite Hstored in H. cbv zeta in H |- *.
  cbn [fst snd] in H. destruct H as (Hplan & _).
  rewrite Hplan. unfold loggedPlan. cbn [plan_id plan_userId plan_month
    plan_baseCurrency plan_totalIncome plan_debtsSnapshot plan_goalsSnapshot
    plan_createdAt plan_updatedAt plan_insights plan_buckets].
  rewrite getBucket_setBucket_eq.
  repeat split.
  intros b Hb. now apply getBucket_setBucket_ne.
Qed.

(** X19. The insights returned by [logTransaction] are read off the
    bucket as it stands after the update, in this order: a warning when
    the bucket is NEAR_LIMIT, an alert when it is OVER, an alert when the
    named category is OVER; so there are at most two of them. *)
Theorem logTransaction_insights (userId month : string) (amt : Q)
    (cur base : Currency) (category : string) (bucket : BucketType)
    (description : string) (date : option Timestamp) (tags : list string)
    (w : World) :
  let r := Budget.logTransaction rt userId month amt cur base category bucket
             description date tags w in
  let updatedPlan := snd (fst (fst r)) in
  let insights := snd (fst r) in
  map insightContent insights
  = triggeredInsights bucket (getBucket (plan_buckets updatedPlan) bucket)
      category base /\
  (length insights <= 2)%nat.
Proof.
  pose proof (logTransaction_shape rt userId month amt cur base category bucket
                description date tags w) as H.
  unfold wp in H. cbv zeta in H |- *.
  destruct H as (_ & Hins & _).
  split; [exact Hins|].
  rewrite <- (length_map insightContent), Hins.
  unfold triggeredInsights. rewrite !length_app.
  destruct (bk_status _); cbn [BucketStatus_eqb length];
    (destruct (obj_get _ category) as [cat|];
       [destruct (BucketStatus_eqb (cat_status cat) OVER)|]); simpl; lia.
Qed.


End LoggedTransactions.

(** ** Invariants of the plan store *)

Section StoreInvariant.
Variable rt : Runtime.
Variable I : BudgetBucket -> Prop.

Hypothesis I_fresh :
  forall b planned base w,
    I (fst (Budget.createBucket b planned base (DEFAULT_CATEGORIES b) w)).
Hypothesis I_savings :
  forall bd a, I bd -> I (Budget.withSavingsAllocation bd a).
Hypothesis I_debt :
  forall bd a, I bd -> I (Budget.withDebtAllocation bd a).
Hypothesis I_logged :
  forall bd category m, I bd -> I (loggedBucket bd category m).

Lemma generated_satisfies (userId month : string) (base : Currency)
    (incomes : list IncomeSource) (debts : list Debt) (goals : list Goal)
    (rules : option BudgetRuleSet) (w : World) (b : BucketType) :
  I (getBucket
       (plan_buckets
          (fst (Budget.generateBudgetPlan rt userId month base incomes debts
                  goals rules w))) b).
Proof.
  destruct (generateBudgetPlan_fields rt userId month base incomes debts goals rules w)
    as (_ & _ & _ & _ & _ & _ & _ & Hn & Hw & Hs & Hd).
  destruct b; cbn [getBucket];
    [rewrite Hn | rewrite Hw | rewrite Hs | rewrite Hd]; auto.
Qed.

Lemma storeSatisfies_insert (w w' : World) (k : string) (p : MonthlyBudgetPlan) :
  budgetPlans w' = <[k := p]> (budgetPlans w) ->
  (forall b, I (getBucket (plan_buckets p) b)) ->
  storeSatisfies I w -> storeSatisfies I w'.
Proof.
  unfold storeSatisfies. intros -> Hp Hw k' p' b.
  rewrite lookup_insert. case_decide.
  - intros [= <-]. apply Hp.
  - apply Hw.
Qed.

Lemma planToUpdate_satisfies (userId month : string) (base : Currency) (w : World) :
  storeSatisfies I w ->
  (forall b,
      I (getBucket (plan_buckets (fst (planToUpdate rt userId month base w))) b)) /\
  storeSatisfies I (snd (planToUpdate rt userId month base w)).
Proof.
  intros Hw. unfold planToUpdate.
  destruct (budgetPlans w !! Budget.getPlanKey userId month) as [p|] eqn:E.
  - split; [|exact Hw]. intros b. exact (Hw _ _ b E).
  - split; [intros b; apply generated_satisfies|].
    destruct (generateBudgetPlan_shape rt userId month base [] [] [] None w)
      as (Hplans & _).
    eapply storeSatisfies_insert; [exact Hplans | | exact Hw].
    intros b. apply generated_satisfies.
Qed.

Lemma step_satisfies (o : Op) (w : World) :
  storeSatisfies I w -> storeSatisfies I (step rt o w).
Proof.
  intros Hw. destruct o; simpl.
  - destruct (generateBudgetPlan_shape rt userId month baseCurrency incomes debts
                goals rules w) as (Hplans & _).
    eapply storeSatisfies_insert; [exact Hplans | | exact Hw].
    intros b. apply generated_satisfies.
  - pose proof (logTransaction_shape rt userId month amt cur baseCurrency category
                  bucket description date tags w) as H.
    unfold wp in H. cbv zeta in H.
    destruct H as (Hplan & _ & _ & _ & _ & _ & _ & _ & _ & Hplans & _).
    destruct (planToUpdate_satisfies userId month baseCurrency w Hw) as [H0 Hw0].
    eapply storeSatisfies_insert; [exact Hplans | | exact Hw0].
    intros b. rewrite Hplan. unfold loggedPlan. cbn [plan_buckets].
    pose proof (I_logged _ category
                  (baseAmount
                     (fst (Fx.createMoney rt amt cur baseCurrency
                             (snd (planToUpdate rt userId month baseCurrency w)))))
                  (H0 bucket)) as Hlogged.
    destruct b, bucket; cbn [getBucket setBucket b_NEEDS b_WANTS b_SAVINGS b_DEBT];
      first [exact Hlogged | apply (H0 NEEDS) | apply (H0 WANTS)
            | apply (H0 SAVINGS) | apply (H0 DEBT)].
  - destruct (budgetPlans w !! _) as [plan|]; [|exact Hw].
    destruct (generateInsights_state rt plan w) as [(Hplans & _) _].
    unfold storeSatisfies. rewrite Hplans. exact Hw.
  - destruct (createMoney_stores rt amt cur baseCurrency w) as (Hplans & _).
    unfold storeSatisfies. rewrite Hplans. exact Hw.
  - exact Hw.
  - exact Hw.
  - exact Hw.
Qed.

Lemma run_satisfies (ops : list Op) (c : Clock) :
  storeSatisfies I (run rt ops (initialWorld c)).
Proof.
  assert (H : forall w, storeSatisfies I w -> storeSatisfies I (run rt ops w)).
  { induction ops as [|o ops IH]; intros w Hw; simpl; [exact Hw|].
    apply IH, step_satisfies, Hw. }
  apply H. intros k p b. simpl. rewrite lookup_empty. discriminate.
Qed.

End StoreInvariant.

Lemma calculateStatus_unspent (planned : Q) :
  Budget.calculateStatus 0 planned = UNDER.
Proof.
  destruct (calculateStatus_case 0 planned) as [Hz | Hnz Hr | Hnz Hr1 Hr2 | Hnz Hr];
    try reflexivity.
  - assert (E : 0 / planned == 0) by (field; exact Hnz). lra.
  - assert (E : 0 / planned == 0) by (field; exact Hnz). lra.
Qed.

Lemma loggedCategories_Forall (P : string * CategoryBudget -> Prop)
    (cats : list (string * CategoryBudget)) (category : string) (m : Q) :
  (forall k cat, P (k, cat) ->
     P (k, {| cat_name := cat_name cat; cat_planned := cat_planned cat;
              cat_spent := cat_spent cat + m;
              cat_remaining := cat_planned cat - (cat_spent cat + m);
              cat_status :=
                Budget.calculateStatus (cat_spent cat + m) (cat_planned cat) |})) ->
  (forall k, P (k, {| cat_name := category; cat_planned := 0; cat_spent := m;
                      cat_remaining := - m; cat_status := OVER |})) ->
  Forall P cats -> Forall P (loggedCategories cats category m).
Proof.
  intros Hupdate Hnew Hcats. unfold loggedCategories, obj_read.
  destruct (obj_get cats category) as [cat|] eqn:E.
  - clear Hnew. induction Hcats as [|[k0 c0] cats H0 Hcats IH]; [discriminate|].
    simpl in E |- *. destruct (String.eqb k0 category).
    + injection E as ->. constructor; [now apply Hupdate | exact Hcats].
    + constructor; [exact H0 | now apply IH].
  - destruct (inherited category); [exact Hcats | now apply obj_set_Forall].
Qed.

Section Invariants.
Variable rt : Runtime.

(** X21. In every stored plan, after any history of engine calls, the
    remaining amount of each bucket and of each category is its planned
    amount minus its spent amount. *)
Theorem remaining_is_planned_minus_spent (ops : list Op) (c : Clock)
    (key : string) (plan : MonthlyBudgetPlan) (b : BucketType) :
  budgetPlans (run rt ops (initialWorld c)) !! key = Some plan ->
  remainingSettled (getBucket (plan_buckets plan) b).
Proof.
  intros Hplan. revert key plan b Hplan.
  apply (run_satisfies rt remainingSettled); unfold remainingSettled.
  - intros b planned base w. split; [simpl; ring|].
    destruct b; simpl; repeat constructor; simpl; ring.
  - intros bd a H. exact H.
  - intros bd a H. exact H.
  - intros bd category m [_ Hcats]. split; [simpl; ring|].
    cbn [loggedBucket bk_categories].
    apply loggedCategories_Forall; [| |exact Hcats].
    + intros k cat _. simpl. ring.
    + intros k. simpl. ring.
Qed.

(** X22. In every stored plan, after any history of engine calls, the
    status of each bucket is the one [calculateStatus] gives for the
    bucket's spent and planned amounts. (Categories do not have this
    property: a category created by a transaction starts OVER.) *)
Theorem bucket_status_is_calculated (ops : list Op) (c : Clock)
    (key : string) (plan : MonthlyBudgetPlan) (b : BucketType) :
  budgetPlans (run rt ops (initialWorld c)) !! key = Some plan ->
  statusSettled (getBucket (plan_buckets plan) b).
Proof.
  intros Hplan. revert key plan b Hplan.
  apply (run_satisfies rt statusSettled); unfold statusSettled.
  - intros b planned base w. simpl. symmetry. apply calculateStatus_unspent.
  - intros bd a H. exact H.
  - intros bd a H. exact H.
  - intros bd category m _. reflexivity.
Qed.

(** In every stored plan, after any history of engine calls, the
    three amounts of each bucket are base-currency amounts: [amount] and
    [baseAmount] agree and the recorded rate is 1. *)
Lemma bucket_amounts_in_base_currency (ops : list Op) (c : Clock)
    (key : string) (plan : MonthlyBudgetPlan) (b : BucketType) :
  budgetPlans (run rt ops (initialWorld c)) !! key = Some plan ->
  inBaseCurrency (getBucket (plan_buckets plan) b).
Proof.
  intros Hplan. revert key plan b Hplan.
  apply (run_satisfies rt inBaseCurrency); unfold inBaseCurrency.
  - intros b planned base w. simpl. repeat split.
  - intros bd a H. exact H.
  - intros bd a H. exact H.
  - intros bd category m (Hp & Hs & Hr & Hfp & Hfs & Hfr). simpl.
    repeat split; try assumption. rewrite Hs. reflexivity.
Qed.

End Invariants.

(** ** Transactions against a plan that does not exist yet *)



Lemma createBucket_default_categories (b : BucketType) (planned : Q)
    (base : Currency) (w : World) :
  bk_categories
    (fst (Budget.createBucket b planned base (DEFAULT_CATEGORIES b) w))
  = map
      (fun name =>
         (name,
          {| cat_name := name;
             cat_planned :=
               planned / inject_Z (Z.of_nat (length (DEFAULT_CATEGORIES b)));
             cat_spent := 0;
             cat_remaining :=
               planned / inject_Z (Z.of_nat (length (DEFAULT_CATEGORIES b)));
             cat_status := UNDER |}))
      (DEFAULT_CATEGORIES b).
Proof. destruct b; reflexivity. Qed.

Lemma obj_get_map {A} (f : string -> A) (names : list string) (k : string) :
  obj_get (map (fun name => (name, f name)) names) k
  = option_map f (List.find (fun name => String.eqb name k) names).
Proof.
  induction names as [|n names IH]; simpl; [reflexivity|].
  destruct (String.eqb n k); [reflexivity | exact IH].
Qed.


Lemma obj_set_Forall_key {A} (P : string * A -> Prop) (o : list (string * A))
    (k : string) (v : A) :
  P (k, v) -> Forall P o -> Forall P (obj_set o k v).
Proof.
  intros Hv. induction 1 as [|[k0 v0] o H0 Ho IH]; simpl.
  - constructor; [exact Hv | constructor].
  - destruct (String.eqb k0 k) eqn:E; constructor; auto.
    apply String.eqb_eq in E. now subst k0.
Qed.

Lemma obj_get_Forall {A} (P : string * A -> Prop) (o : list (string * A))
    (k : string) (v : A) :
  Forall P o -> obj_get o k = Some v -> P (k, v).
Proof.
  induction 1 as [|[k0 v0] o H0 Ho IH]; simpl; [discriminate|].
  destruct (String.eqb k0 k) eqn:E; [|exact IH].
  apply String.eqb_eq in E. subst k0. now intros [= <-].
Qed.

Lemma isDefaultCategory_In (b : BucketType) (name : string) :
  isDefaultCategory b name = true <-> In name (DEFAULT_CATEGORIES b).
Proof.
  unfold isDefaultCategory. rewrite List.existsb_exists. split.
  - intros (n & Hin & Hn). apply String.eqb_eq in Hn. now subst n.
  - intros Hin. exists name. split; [exact Hin | apply String.eqb_refl].
Qed.

Lemma createBucket_defaultsPresent (b : BucketType) (planned : Q)
    (base : Currency) (w : World) :
  defaultsPresent (fst (Budget.createBucket b planned base (DEFAULT_CATEGORIES b) w)).
Proof.
  unfold defaultsPresent.
  rewrite createBucket_default_categories.
  change (bk_type (fst (Budget.createBucket b planned base (DEFAULT_CATEGORIES b) w)))
    with b.
  intros name Hname. rewrite obj_get_map.
  destruct (List.find _ (DEFAULT_CATEGORIES b)) as [n|] eqn:E;
    [eexists; reflexivity|].
  apply isDefaultCategory_In in Hname.
  pose proof (List.find_none _ _ E name Hname) as Hnone. cbv beta in Hnone.
  now rewrite String.eqb_refl in Hnone.
Qed.

Lemma loggedCategories_keeps (cats : list (string * CategoryBudget))
    (category k : string) (m : Q) (cat : CategoryBudget) :
  obj_get cats k = Some cat ->
  exists cat', obj_get (loggedCategories cats category m) k = Some cat'.
Proof.
  intros Hk. destruct (String.eqb k category) eqn:E.
  - apply String.eqb_eq in E. subst k.
    unfold loggedCategories, obj_read. rewrite Hk, obj_get_set_eq.
    eexists. reflexivity.
  - apply String.eqb_neq in E.
    rewrite (loggedCategories_other _ _ _ _ E). now exists cat.
Qed.

Lemma defaultsPresent_logged (bd : BudgetBucket) (category : string) (m : Q) :
  defaultsPresent bd -> defaultsPresent (loggedBucket bd category m).
Proof.
  intros Hdefaults name Hname. cbn [loggedBucket bk_type bk_categories] in *.
  destruct (Hdefaults name Hname) as [cat Hcat].
  exact (loggedCategories_keeps _ _ _ _ _ Hcat).
Qed.

Lemma createBucket_plannedAsCreated (b : BucketType) (planned : Q)
    (base : Currency) (w : World) :
  plannedAsCreated (fst (Budget.createBucket b planned base (DEFAULT_CATEGORIES b) w)).
Proof.
  split; [apply createBucket_defaultsPresent|].
  unfold categoryShare.
  rewrite createBucket_default_categories.
  change (bk_type (fst (Budget.createBucket b planned base (DEFAULT_CATEGORIES b) w)))
    with b.
  change (baseAmount
            (bk_planned
               (fst (Budget.createBucket b planned base (DEFAULT_CATEGORIES b) w))))
    with planned.
  apply List.Forall_forall. intros e He.
  apply List.in_map_iff in He. destruct He as (n & <- & Hin).
  cbn [fst snd cat_planned].
  apply isDefaultCategory_In in Hin. now rewrite Hin.
Qed.

Section CategoryPlans.
Variable rt : Runtime.

(** X23. In every stored plan, after any history of engine calls, the
    category plans are as [createBucket] made them: each default category
    of a bucket is still there with its share, the bucket's planned amount
    divided by the number of its default categories, and every category
    that a transaction created is planned 0. No transaction plans or
    re-plans a category. *)
Theorem category_plans_as_created (ops : list Op) (c : Clock)
    (key : string) (plan : MonthlyBudgetPlan) (b : BucketType) :
  budgetPlans (run rt ops (initialWorld c)) !! key = Some plan ->
  plannedAsCreated (getBucket (plan_buckets plan) b).
Proof.
  intros Hplan. revert key plan b Hplan.
  apply (run_satisfies rt plannedAsCreated).
  - apply createBucket_plannedAsCreated.
  - intros bd a H. exact H.
  - intros bd a H. exact H.
  - intros bd category m [Hdefaults Hcats].
    split; [now apply defaultsPresent_logged|].
    unfold categoryShare.
    cbn [loggedBucket bk_type bk_planned bk_categories].
    fold (categoryShare bd).
    unfold loggedCategories, obj_read.
    destruct (obj_get (bk_categories bd) category) as [cat|] eqn:E.
    + apply obj_set_Forall_key; [|exact Hcats].
      exact (obj_get_Forall _ _ _ _ Hcats E).
    + destruct (inherited category); [exact Hcats|].
      apply obj_set_Forall_key; [|exact Hcats].
      cbn [fst snd cat_planned].
      destruct (isDefaultCategory (bk_type bd) category) eqn:D; [|reflexivity].
      destruct (Hdefaults _ D) as [cat Hcat]. congruence.
Qed.

End CategoryPlans.

(** ** Bucket totals and category totals *)









Section Totals.
Variable rt : Runtime.






End Totals.

Section WithoutPlan.
Variable rt : Runtime.


End WithoutPlan.

(** ** The full rescan *)

Lemma contentDetermined_optional (c : bool) (ty : InsightType) (msg : Message)
    (b : option BucketType) (cat : option string) :
  contentDetermined
    (if c then let* i := Budget.mkInsight ty msg b cat in ret [i] else ret []).
Proof. intros w1 w2 _. destruct c; reflexivity. Qed.

Lemma contentDetermined_append (m1 m2 : M (list BudgetInsight)) :
  contentDetermined m1 -> preserves sameState m1 -> contentDetermined m2 ->
  contentDetermined (let* a := m1 in let* b := m2 in ret (a ++ b)).
Proof.
  intros H1 F1 H2 w1 w2 Hclock. unfold bind, ret.
  specialize (H1 w1 w2 Hclock).
  pose proof (F1 w1) as [(_ & _ & Hc1) _]. pose proof (F1 w2) as [(_ & _ & Hc2) _].
  destruct (m1 w1) as [a1 w1']. destruct (m1 w2) as [a2 w2']. simpl in *.
  assert (Hclock' : clock w1' = clock w2') by congruence.
  specialize (H2 w1' w2' Hclock').
  destruct (m2 w1') as [b1 w1'']. destruct (m2 w2') as [b2 w2'']. simpl in *.
  rewrite !map_app. congruence.
Qed.

Lemma contentDetermined_append3 (m1 m2 m3 : M (list BudgetInsight)) :
  contentDetermined m1 -> preserves sameState m1 ->
  contentDetermined m2 -> preserves sameState m2 ->
  contentDetermined m3 ->
  contentDetermined
    (let* a := m1 in let* b := m2 in let* c := m3 in ret (a ++ b ++ c)).
Proof.
  intros H1 F1 H2 F2 H3 w1 w2 Hclock. unfold bind, ret.
  specialize (H1 w1 w2 Hclock).
  pose proof (F1 w1) as [(_ & _ & Hc1) _]. pose proof (F1 w2) as [(_ & _ & Hc2) _].
  destruct (m1 w1) as [a1 u1]. destruct (m1 w2) as [a2 u2]. simpl in *.
  assert (Hu : clock u1 = clock u2) by congruence.
  specialize (H2 u1 u2 Hu).
  pose proof (F2 u1) as [(_ & _ & Hd1) _]. pose proof (F2 u2) as [(_ & _ & Hd2) _].
  destruct (m2 u1) as [b1 v1]. destruct (m2 u2) as [b2 v2]. simpl in *.
  assert (Hv : clock v1 = clock v2) by congruence.
  specialize (H3 v1 v2 Hv).
  destruct (m3 v1) as [c1 x1]. destruct (m3 v2) as [c2 x2]. simpl in *.
  rewrite !map_app. congruence.
Qed.

Lemma contentDetermined_collectM {A} (f : A -> M (list BudgetInsight))
    (l : list A) :
  (forall a, contentDetermined (f a)) -> (forall a, preserves sameState (f a)) ->
  contentDetermined (Budget.collectM f l).
Proof.
  intros Hf Ff. induction l as [|x l IH]; [intros w1 w2 _; reflexivity|].
  cbn [Budget.collectM]. apply contentDetermined_append; auto.
Qed.

Lemma yields_append_l (m1 m2 : M (list BudgetInsight)) (c : InsightContent) :
  yields m1 c -> yields (let* a := m1 in let* b := m2 in ret (a ++ b)) c.
Proof.
  intros H1 w. unfold bind, ret. destruct (H1 w) as (i & Hin & Hi).
  destruct (m1 w) as [a w1]. destruct (m2 w1) as [b w2]. simpl in *.
  exists i. split; [apply in_or_app; now left | exact Hi].
Qed.

Lemma yields_append_r (m1 m2 : M (list BudgetInsight)) (c : InsightContent) :
  yields m2 c -> yields (let* a := m1 in let* b := m2 in ret (a ++ b)) c.
Proof.
  intros H2 w. unfold bind, ret.
  destruct (m1 w) as [a w1]. destruct (H2 w1) as (i & Hin & Hi).
  destruct (m2 w1) as [b w2]. simpl in *.
  exists i. split; [apply in_or_app; now right | exact Hi].
Qed.

Lemma yields_collectM {A} (f : A -> M (list BudgetInsight)) (l : list A)
    (x : A) (c : InsightContent) :
  In x l -> yields (f x) c -> yields (Budget.collectM f l) c.
Proof.
  intros Hin Hx. induction l as [|y l IH]; [contradiction|].
  cbn [Budget.collectM]. destruct Hin as [->|Hin].
  - now apply yields_append_l.
  - now apply yields_append_r, IH.
Qed.

Lemma yields_insight (ty : InsightType) (msg : Message)
    (b : option BucketType) (cat : option string) :
  yields (let* i := Budget.mkInsight ty msg b cat in ret [i]) (ty, msg, b, cat).
Proof. intros w. eexists. split; [left; reflexivity | reflexivity]. Qed.

Section Rescan.
Variable rt : Runtime.

Lemma categoryInsights_determined base b e :
  contentDetermined (Budget.categoryInsights base b e).
Proof.
  unfold Budget.categoryInsights. destruct e as [name cat].
  apply contentDetermined_optional.
Qed.

Lemma bucketInsights_determined base e :
  contentDetermined (Budget.bucketInsights base e).
Proof.
  unfold Budget.bucketInsights. destruct e as [b bucket]. cbv zeta.
  apply contentDetermined_append.
  - destruct (Qle_bool 100 _); [apply (contentDetermined_optional true)|].
    destruct (Qle_bool 80 _);
      [apply (contentDetermined_optional true)
      | apply (contentDetermined_optional false warning MsgSavingsOnTrack None None)].
  - pose proof mkInsight_state. frame.
  - apply contentDetermined_collectM.
    + intros a. apply categoryInsights_determined.
    + intros a. apply categoryInsights_state.
Qed.

Lemma goalInsights_determined g : contentDetermined (Budget.goalInsights g).
Proof.
  unfold Budget.goalInsights.
  destruct (Qle_bool 100 _); [apply (contentDetermined_optional true)|].
  destruct (Qle_bool 75 _);
    [apply (contentDetermined_optional true)
    | apply (contentDetermined_optional false warning MsgSavingsOnTrack None None)].
Qed.

Lemma generateInsights_determined (plan : MonthlyBudgetPlan) :
  contentDetermined (Budget.generateInsights rt plan).
Proof.
  unfold Budget.generateInsights. cbv zeta.
  apply contentDetermined_append3.
  - apply contentDetermined_collectM.
    + intros e. apply bucketInsights_determined.
    + intros e. apply bucketInsights_state.
  - pose proof bucketInsights_state. frame.
  - intros w1 w2 Hclock. destruct (Qltb _ _); [|reflexivity].
    unfold bind, getClock. rewrite Hclock.
    destruct (monthDays rt (plan_month plan)); [|reflexivity].
    destruct (Qltb _ _); reflexivity.
  - frame.
  - apply contentDetermined_collectM.
    + intros g. apply goalInsights_determined.
    + intros g. apply goalInsights_state.
Qed.

(** X25. Running the full rescan twice on the same plan, with the clock
    unchanged, gives two lists of insights that agree in length, order,
    type, message, bucket and category; only the identifiers differ. *)
Theorem generateInsights_twice (plan : MonthlyBudgetPlan) (w : World) :
  let first := Budget.generateInsights rt plan w in
  let second := Budget.generateInsights rt plan (snd first) in
  map insightContent (fst second) = map insightContent (fst first) /\
  length (fst second) = length (fst first).
Proof.
  intros first second.
  assert (Hclock : clock (snd first) = clock w).
  { destruct (generateInsights_state rt plan w) as [(_ & _ & Hc) _]. exact Hc. }
  assert (Hcontent : map insightContent (fst second) = map insightContent (fst first))
    by (apply generateInsights_determined, Hclock).
  split; [exact Hcontent|].
  rewrite <- (length_map insightContent), Hcontent. apply length_map.
Qed.

End Rescan.

Lemma yields_first3 (m1 m2 m3 : M (list BudgetInsight)) (c : InsightContent) :
  yields m1 c ->
  yields (let* a := m1 in let* b := m2 in let* c := m3 in ret (a ++ b ++ c)) c.
Proof.
  intros H1 w. unfold bind, ret. destruct (H1 w) as (i & Hin & Hi).
  destruct (m1 w) as [a u]. destruct (m2 u) as [b v]. destruct (m3 v) as [d x].
  simpl in *. exists i. split; [apply in_or_app; now left | exact Hi].
Qed.

Lemma bucketEntries_In (bs : Buckets) (b : BucketType) :
  In (b, getBucket bs b) (Budget.bucketEntries bs).
Proof. destruct b; simpl; auto. Qed.

Section RescanReports.
Variable rt : Runtime.

Lemma generateInsights_yields_bucket (plan : MonthlyBudgetPlan) (b : BucketType)
    (c : InsightContent) :
  yields (Budget.bucketInsights (plan_baseCurrency plan)
            (b, getBucket (plan_buckets plan) b)) c ->
  yields (Budget.generateInsights rt plan) c.
Proof.
  intros H. unfold Budget.generateInsights. cbv zeta.
  apply yields_first3.
  eapply yields_collectM; [apply bucketEntries_In | exact H].
Qed.

(** X26. The full rescan reports every category whose status is OVER: it
    returns an alert naming the bucket and the category, with the
    absolute value of the category's remaining amount. *)
Theorem generateInsights_reports_over_category (plan : MonthlyBudgetPlan)
    (w : World) (b : BucketType) (name : string) (cat : CategoryBudget) :
  In (name, cat) (bk_categories (getBucket (plan_buckets plan) b)) ->
  cat_status cat = OVER ->
  exists i,
    In i (fst (Budget.generateInsights rt plan w)) /\
    ins_type i = alert /\ ins_bucket i = Some b /\ ins_category i = Some name /\
    ins_message i
    = MsgCategoryOverBy name (Math_abs (cat_remaining cat)) (plan_baseCurrency plan).
Proof.
  intros Hin Hover.
  destruct (generateInsights_yields_bucket plan b
              (alert,
               MsgCategoryOverBy name (Math_abs (cat_remaining cat))
                 (plan_baseCurrency plan),
               Some b, Some name)) with (w := w) as (i & Hi & Hc).
  - unfold Budget.bucketInsights. cbv zeta.
    apply yields_append_r.
    eapply yields_collectM; [exact Hin|].
    unfold Budget.categoryInsights. rewrite Hover. apply yields_insight.
  - exists i. split; [exact Hi|].
    unfold insightContent in Hc. now injection Hc as -> -> -> ->.
Qed.

(** X27. The full rescan reports every bucket with a positive planned
    amount that is used up: when spent has reached planned (equality
    included, where the bucket's status is still NEAR_LIMIT) it returns
    an alert for the bucket with the percentage above 100. *)
Theorem generateInsights_reports_used_up_bucket (plan : MonthlyBudgetPlan)
    (w : World) (b : BucketType) :
  let bucket := getBucket (plan_buckets plan) b in
  let planned := baseAmount (bk_planned bucket) in
  let spent := baseAmount (bk_spent bucket) in
  0 < planned -> planned <= spent ->
  exists i,
    In i (fst (Budget.generateInsights rt plan w)) /\
    ins_type i = alert /\ ins_bucket i = Some b /\ ins_category i = None /\
    ins_message i = MsgBucketExceededBy b (spent / planned * 100 - 100).
Proof.
  intros bucket planned spent Hpos Hused.
  destruct (generateInsights_yields_bucket plan b
              (alert, MsgBucketExceededBy b (spent / planned * 100 - 100),
               Some b, None)) with (w := w) as (i & Hi & Hc).
  - unfold Budget.bucketInsights. cbv zeta.
    apply yields_append_l.
    fold bucket. fold planned. fold spent.
    apply Qltb_lt in Hpos. rewrite Hpos. apply Qltb_lt in Hpos.
    assert (H100 : Qle_bool 100 (spent / planned * 100) = true).
    { apply Qle_bool_iff.
      assert (H1 : 1 <= spent / planned) by (apply ratio_pos_le; lra).
      lra. }
    rewrite H100. apply yields_insight.
  - exists i. split; [exact Hi|].
    unfold insightContent in Hc. now injection Hc as -> -> -> ->.
Qed.

End RescanReports.

(** ** Status classification *)

Lemma ratio_monotone (spent spent' planned : Q) :
  0 < planned -> spent <= spent' -> spent / planned <= spent' / planned.
Proof.
  intros Hp Hs. apply ratio_pos_le; [exact Hp|].
  assert (E : spent / planned * planned == spent) by (field; lra). lra.
Qed.

(** X28. For a positive planned amount the status never improves as more
    is spent: from UNDER through NEAR_LIMIT to OVER. *)
Theorem calculateStatus_monotone (spent spent' planned : Q) :
  0 < planned -> spent <= spent' ->
  (statusRank (Budget.calculateStatus spent planned)
   <= statusRank (Budget.calculateStatus spent' planned))%nat.
Proof.
  intros Hp Hs. pose proof (ratio_monotone spent spent' planned Hp Hs) as Hr.
  destruct (calculateStatus_case spent planned);
    destruct (calculateStatus_case spent' planned); simpl; try lia; lra.
Qed.

(** ** Budget routes *)

Lemma string_length_append (u s : string) :
  String.length (u +:+ s) = (String.length u + String.length s)%nat.
Proof. induction u as [|c u IH]; simpl; [reflexivity | now f_equal]. Qed.

Lemma append_suffix_inj (u u' s s' : string) :
  String.length s = String.length s' ->
  u +:+ s = u' +:+ s' -> u = u' /\ s = s'.
Proof.
  intros Hlen. revert u'.
  induction u as [|c u IH]; intros [|c' u']; intros H.
  - now split.
  - exfalso. apply (f_equal String.length) in H.
    rewrite !string_length_append in H. simpl in H. lia.
  - exfalso. apply (f_equal String.length) in H.
    rewrite !string_length_append in H. simpl in H. lia.
  - simpl in H. injection H as -> H. destruct (IH _ H) as [-> ->]. now split.
Qed.

Lemma monthFormat_length (month : string) :
  Routes.monthFormat month = true -> String.length month = 7%nat.
Proof.
  destruct month as [|? [|? [|? [|? [|? [|? [|? [|? ?]]]]]]]];
    try discriminate. reflexivity.
Qed.

Lemma planKey_inj (userId userId' month month' : string) :
  Routes.monthFormat month = true -> Routes.monthFormat month' = true ->
  Budget.getPlanKey userId month = Budget.getPlanKey userId' month' ->
  userId = userId' /\ month = month'.
Proof.
  intros Hm Hm' Hkey. unfold Budget.getPlanKey in Hkey.
  apply append_suffix_inj in Hkey.
  - destruct Hkey as [-> Hsuffix]. split; [reflexivity|].
    simpl in Hsuffix. now injection Hsuffix.
  - rewrite !string_length_append.
    now rewrite (monthFormat_length _ Hm), (monthFormat_length _ Hm').
Qed.

(** X29. Plan keys do not collide for months in the format that the
    routes accept: two users, or two months, never share a key. *)
Theorem getPlanKey_injective (userId userId' month month' : string) :
  Routes.monthFormat month = true -> Routes.monthFormat month' = true ->
  Budget.getPlanKey userId month = Budget.getPlanKey userId' month' ->
  userId = userId' /\ month = month'.
Proof. apply planKey_inj. Qed.

Section RouteFacts.
Variable rt : Runtime.

Lemma missing_false (s : option string) :
  Routes.missing s = false -> exists v, s = Some v /\ v <> ""%string.
Proof.
  destruct s as [v|]; [|discriminate]. simpl. intros H.
  exists v. split; [reflexivity|]. intros ->. discriminate.
Qed.

(** X30. Through the routes a plan is read back as it was created, and
    creating a plan never changes what another user or month reads: a
    successful [POST /plan] is followed by a [GET] of the same user and
    month that returns the created plan; and across any [POST /plan],
    accepted or rejected, a [GET] for a different user or month answers
    as it did before. *)
Theorem postPlan_then_getMonth (body : Routes.PlanBody) (w : World) :
  let r := Routes.postPlan rt body w in
  (forall plan,
      fst r = Routes.Created plan ->
      fst (Routes.getMonth (Routes.orDefault (Routes.body_month body) "")
             (Routes.body_userId body) (snd r))
      = Routes.OkPlan plan) /\
  (forall userId month,
      (Some userId, Some month)
      <> (Routes.body_userId body, Routes.body_month body) ->
      fst (Routes.getMonth month (Some userId) (snd r))
      = fst (Routes.getMonth month (Some userId) w)).
Proof.
  unfold Routes.postPlan. cbv zeta.
  destruct (Routes.missing (Routes.body_userId body)) eqn:Eu;
    [split; [discriminate | reflexivity]|].
  destruct (Routes.missing (Routes.body_month body)) eqn:Em;
    [split; [discriminate | reflexivity]|].
  cbn [orb].
  destruct (missing_false _ Eu) as (u & Hu & Hune).
  destruct (missing_false _ Em) as (m & Hm & _).
  rewrite Hu, Hm in *. cbn [Routes.orDefault].
  destruct (Routes.monthFormat m) eqn:Ef; cbn [negb];
    [|split; [discriminate | reflexivity]].
  unfold bind.
  match goal with
  | |- context [Budget.generateBudgetPlan rt u m ?b ?i ?d ?g ?rl w] =>
      pose proof (generateBudgetPlan_shape rt u m b i d g rl w) as (Hplans & _);
      unfold wp in Hplans;
      destruct (Budget.generateBudgetPlan rt u m b i d g rl w) as [plan w1]
  end.
  cbn [fst snd ret] in *.
  split.
  - intros plan' [= <-]. unfold Routes.getMonth. rewrite Eu, Ef. cbn [negb].
    unfold bind, Budget.getBudgetPlan, budgetPlans_get, ret. simpl.
    rewrite Hplans, lookup_insert_eq. reflexivity.
  - intros userId month Hother. unfold Routes.getMonth.
    destruct (Routes.missing (Some userId)); [reflexivity|].
    destruct (Routes.monthFormat month) eqn:Ef'; cbn [negb]; [|reflexivity].
    unfold bind, Budget.getBudgetPlan, budgetPlans_get, ret. simpl.
    rewrite Hplans, lookup_insert_ne;
      [destruct (budgetPlans w !! _); reflexivity|].
    intros Hkey. apply planKey_inj in Hkey; [|assumption..].
    destruct Hkey as [-> ->]. now apply Hother.
Qed.

End RouteFacts.

(** ** Instances of the further properties *)

(** X1, an instance: a rate of 4 set for USD to AED, read half an hour
    later. *)
Lemma setFxRate_then_fetch_witness :
  fx_rate
    (fst (Fx.fetchFxRate Scenario.offline "USD" "AED"
            (snd (setClock Examples.halfPastMidnight
                    (snd (Fx.setFxRate "USD" "AED" 4 Scenario.start))))))
  = 4.
Proof.
  refine (proj1 (setFxRate_then_fetch Scenario.offline "USD" "AED" 4
                   Scenario.start Examples.halfPastMidnight _)).
  reflexivity.
Defined.

(** X4, an instance: the first lookup of USD to AED. *)
Lemma fetched_rate_nonzero_witness :
  cachedFresh Scenario.start "USD" "AED" = None /\
  ~ fx_rate (fst (Fx.fetchFxRate Scenario.offline "USD" "AED" Scenario.start)) == 0.
Proof.
  split; [reflexivity|].
  apply (fetched_rate_nonzero Scenario.offline "USD" "AED" Scenario.start).
  reflexivity.
Defined.

(** X5, an instance: USD to AED is 3.67 in the default table. *)
Lemma fetchFxRate_offline_witness :
  fx_rate (fst (Fx.fetchFxRate Scenario.offline "USD" "AED" Scenario.start))
  = 367 # 100.
Proof.
  refine (fetchFxRate_offline Scenario.offline "USD" "AED" Scenario.start _ _ _);
    reflexivity.
Defined.

(** X7, an instance: after a plan and two transactions in AED. *)
Lemma createMoney_after_same_currency_history_witness :
  forallb sameCurrencyOp Scenario.petsTwice = true /\
  baseAmount
    (fst (Fx.createMoney Scenario.offline 100 "AED" "AED"
            (run Scenario.offline Scenario.petsTwice (initialWorld Scenario.newYear))))
  == 100.
Proof.
  split; [reflexivity|].
  refine (proj1 (createMoney_after_same_currency_history Scenario.offline
                   Scenario.petsTwice Scenario.newYear 100 "AED" _)).
  reflexivity.
Defined.

(** X8, an instance: a second plan after the same history. *)
Lemma generateBudgetPlan_after_same_currency_history_witness :
  baseAmount
    (plan_totalIncome
       (fst (Budget.generateBudgetPlan Scenario.offline "u2" "2026-02" "AED"
               [Scenario.salary 1000] [] [] None
               (run Scenario.offline Scenario.petsTwice
                  (initialWorld Scenario.newYear)))))
  == totalIncomeBaseOf [Scenario.salary 1000].
Proof.
  refine (proj1 (generateBudgetPlan_after_same_currency_history Scenario.offline
                   Scenario.petsTwice Scenario.newYear "u2" "2026-02" "AED"
                   [Scenario.salary 1000] [] [] None _)).
  reflexivity.
Defined.

(** X14, an instance: a card at 24% before a car loan at 6%. *)
Lemma sortDebts_ordered_witness :
  Budget.sortDebts avalanche Examples.twoDebts = Examples.twoDebts.
Proof.
  apply (sortDebts_ordered avalanche Examples.twoDebts).
  repeat constructor. discriminate.
Defined.

(** X18, an instance: 600 spent on groceries against the generated plan. *)
Lemma logTransaction_update_witness :
  budgetPlans Examples.planned !! Budget.getPlanKey "u1" "2026-01"
  = Some Examples.thePlan /\
  plan_id
    (snd (fst (fst (Budget.logTransaction Scenario.offline "u1" "2026-01" 600
                      "AED" "AED" "groceries" NEEDS "market" None []
                      Examples.planned))))
  = plan_id Examples.thePlan.
Proof.
  assert (H : budgetPlans Examples.planned !! Budget.getPlanKey "u1" "2026-01"
              = Some Examples.thePlan) by (vm_compute; reflexivity).
  split; [exact H|].
  exact (proj1 (logTransaction_update Scenario.offline "u1" "2026-01" 600
                  "AED" "AED" "groceries" NEEDS "market" None []
                  Examples.planned Examples.thePlan H)).
Defined.


(** X21, an instance: the NEEDS bucket after two expenses in "pets". *)
Lemma remaining_is_planned_minus_spent_witness :
  exists plan,
    budgetPlans (run Scenario.offline Scenario.petsTwice Scenario.start)
      !! "u1_2026-01" = Some plan /\
    remainingSettled (getBucket (plan_buckets plan) NEEDS).
Proof.
  eexists. split; [vm_compute; reflexivity|].
  apply (remaining_is_planned_minus_spent Scenario.offline Scenario.petsTwice
           Scenario.newYear "u1_2026-01").
  vm_compute. reflexivity.
Defined.

(** X22, an instance: the same bucket. *)
Lemma bucket_status_is_calculated_witness :
  exists plan,
    budgetPlans (run Scenario.offline Scenario.petsTwice Scenario.start)
      !! "u1_2026-01" = Some plan /\
    statusSettled (getBucket (plan_buckets plan) NEEDS).
Proof.
  eexists. split; [vm_compute; reflexivity|].
  apply (bucket_status_is_calculated Scenario.offline Scenario.petsTwice
           Scenario.newYear "u1_2026-01").
  vm_compute. reflexivity.
Defined.


(** X23, an instance: the NEEDS bucket after two expenses in "pets". *)
Lemma category_plans_as_created_witness :
  exists plan,
    budgetPlans (run Scenario.offline Scenario.petsTwice Scenario.start)
      !! "u1_2026-01" = Some plan /\
    plannedAsCreated (getBucket (plan_buckets plan) NEEDS).
Proof.
  eexists. split; [vm_compute; reflexivity|].
  apply (category_plans_as_created Scenario.offline Scenario.petsTwice
           Scenario.newYear "u1_2026-01").
  vm_compute. reflexivity.
Defined.


(** X26, an instance: the category "pets" of that plan is OVER. *)
Lemma generateInsights_reports_over_category_witness :
  exists i,
    In i (fst (Budget.generateInsights Scenario.offline Examples.petsOnly
                 Scenario.start)) /\
    ins_type i = alert /\ ins_category i = Some "pets"%string.
Proof.
  edestruct (generateInsights_reports_over_category Scenario.offline
               Examples.petsOnly Scenario.start NEEDS "pets")
    as (i & Hin & Hty & _ & Hcat & _).
  - vm_compute. do 6 right. left. reflexivity.
  - reflexivity.
  - exists i. repeat split; assumption.
Defined.

(** X27, an instance: NEEDS with 5000 planned and 5000 spent. *)
Lemma generateInsights_reports_used_up_bucket_witness :
  exists i,
    In i (fst (Budget.generateInsights Scenario.offline Examples.rentPaid
                 Scenario.start)) /\
    ins_type i = alert /\ ins_bucket i = Some NEEDS /\ ins_category i = None.
Proof.
  destruct (generateInsights_reports_used_up_bucket Scenario.offline
              Examples.rentPaid Scenario.start NEEDS)
    as (i & Hin & Hty & Hb & Hcat & _).
  - reflexivity.
  - vm_compute. discriminate.
  - exists i. repeat split; assumption.
Defined.

(** X28, an instance: 50 and then 90 spent of 100 planned. *)
Lemma calculateStatus_monotone_witness :
  (statusRank (Budget.calculateStatus 50 100)
   <= statusRank (Budget.calculateStatus 90 100))%nat.
Proof.
  apply (calculateStatus_monotone 50 90 100); [reflexivity | discriminate].
Defined.

(** X29, an instance: equal keys of two accepted months. *)
Lemma getPlanKey_injective_witness :
  Routes.monthFormat "2026-01" = true /\
  ("u1" = "u1" /\ "2026-01" = "2026-01")%string.
Proof.
  split; [reflexivity|].
  apply (getPlanKey_injective "u1" "u1" "2026-01" "2026-01"); reflexivity.
Defined.
